(** * Prompt-template expansion and response post-processing

    A shallow embedding of the template runner ([callExpander],
    [expandTemplate], [categoryPrefix], [fragmentVars], [runTemplate]) and
    the properties its specification states about it.

    Conventions of the embedding:
    - JavaScript strings are [string]s over 8-bit code units;
    - a JavaScript object used as an ordered dictionary is an association
      list of its own properties in insertion order; [Object_entries]
      gives the order in which [Object.entries] lists them, and a read
      under a key that the data of a run chooses ([js_get], [varName_get])
      falls back on what every object inherits; the [fileEdits] record is
      a [gmap];
    - optional fields ([x?: T], [T | undefined]) are [option T];
    - collaborators that live outside the modelled file (the chat
      transport, the file system, the document parser, the fenced-block
      parser, the script evaluator) are the fields of a [Host] record;
    - side effects a caller can observe (callback invocations, completion
      requests, console output) are recorded as a list of [Event]s, and a
      call either returns or throws ([Outcome]). *)

From Stdlib Require Import QArith.
From Stdlib Require Import Ascii DecimalString.
From stdpp Require Import gmap strings list fin_maps.

Local Open Scope nat_scope.
Set Warnings "-register-all".

(* ===================================================================== *)
(** ** JavaScript string primitives *)
(* ===================================================================== *)

Module Js.

Definition nl : string := String "010"%char "".
Definition dquote : string := String "034"%char "".

Definition is_nl (c : ascii) : bool := bool_decide (c = "010"%char).

(** Line terminators that [.] of a regular expression refuses. *)
Definition is_line_terminator (c : ascii) : bool :=
  bool_decide (c = "010"%char) || bool_decide (c = "013"%char).

(** [\s] / [String.prototype.trim] white space within 8-bit code units. *)
Definition is_white (c : ascii) : bool :=
  match c with
  | "009" | "010" | "011" | "012" | "013" | " " | "160" => true
  | _ => false
  end%char.

Definition is_digit (c : ascii) : bool :=
  let n := nat_of_ascii c in (48 <=? n) && (n <=? 57).

(** [\w] : letters, digits and underscore. *)
Definition is_word (c : ascii) : bool :=
  let n := nat_of_ascii c in
  ((48 <=? n) && (n <=? 57)) || ((65 <=? n) && (n <=? 90))
  || ((97 <=? n) && (n <=? 122)) || (n =? 95).

Definition is_backtick (c : ascii) : bool := bool_decide (c = "`"%char).

Definition is_empty (s : string) : bool :=
  match s with "" => true | _ => false end.

(** [s.slice(n)] for [0 <= n]. *)
Fixpoint drop (n : nat) (s : string) : string :=
  match n, s with
  | 0, _ => s
  | S n', String _ s' => drop n' s'
  | S _, "" => ""
  end.

Fixpoint take (n : nat) (s : string) : string :=
  match n, s with
  | S n', String c s' => String c (take n' s')
  | _, _ => ""
  end.

(** Longest prefix of characters satisfying [p], and the rest. *)
Fixpoint span (p : ascii -> bool) (s : string) : string * string :=
  match s with
  | String c s' =>
      if p c then let '(a, b) := span p s' in (String c a, b) else ("", s)
  | "" => ("", "")
  end.

Fixpoint drop_while (p : ascii -> bool) (s : string) : string :=
  match s with
  | String c s' => if p c then drop_while p s' else s
  | "" => ""
  end.

(** Removes the maximal suffix of characters satisfying [p]. *)
Fixpoint drop_while_end (p : ascii -> bool) (s : string) : string :=
  match s with
  | String c s' =>
      let r := drop_while_end p s' in
      if p c && is_empty r then "" else String c r
  | "" => ""
  end.

Definition startsWith (pre s : string) : bool := String.prefix pre s.

Definition endsWith (suf s : string) : bool :=
  (String.length suf <=? String.length s)
  && String.eqb (drop (String.length s - String.length suf) s) suf.

(** [s.indexOf(needle)]: [None] stands for [-1]. *)
Fixpoint indexOf (needle s : string) : option nat :=
  if String.prefix needle s then Some 0
  else match s with
       | String _ s' => S <$> indexOf needle s'
       | "" => None
       end.

Definition includes (needle s : string) : bool :=
  bool_decide (is_Some (indexOf needle s)).

(** [s.trim()] *)
Definition trim (s : string) : string :=
  drop_while_end is_white (drop_while is_white s).

(** [s.slice(a, -b)] for [0 <= a] and [0 < b]. *)
Definition slice_neg_end (a b : nat) (s : string) : string :=
  take (String.length s - b - a) (drop a s).

(** [parts.join(sep)] *)
Fixpoint join (sep : string) (parts : list string) : string :=
  match parts with
  | [] => ""
  | [p] => p
  | p :: ps => p +:+ sep +:+ join sep ps
  end.

(** [s.split(sep)] for a one-character separator; [cur] is the part being
    read. *)
Fixpoint split_go (sep : ascii) (cur s : string) : list string :=
  match s with
  | "" => [String.rev cur]
  | String c s' =>
      if bool_decide (c = sep) then String.rev cur :: split_go sep "" s'
      else split_go sep (String c cur) s'
  end.
Definition split (sep : ascii) (s : string) : list string :=
  split_go sep "" s.

(** [s.split(/\r?\n/)] *)
Fixpoint split_lines_go (cur s : string) : list string :=
  match s with
  | "" => [String.rev cur]
  | String c s' =>
      if is_nl c then String.rev cur :: split_lines_go "" s'
      else
        match s' with
        | String c' s'' =>
            if bool_decide (c = "013"%char) && is_nl c'
            then String.rev cur :: split_lines_go "" s''
            else split_lines_go (String c cur) s'
        | "" => split_lines_go (String c cur) s'
        end
  end.
Definition split_lines (s : string) : list string := split_lines_go "" s.

Fixpoint spaces (n : nat) : string :=
  match n with 0 => "" | S n' => String " "%char (spaces n') end.

(** [s.padStart(n)] *)
Definition padStart (n : nat) (s : string) : string :=
  spaces (n - String.length s) +:+ s.

(** [""  + n] for a non-negative integer [n]. *)
Definition nat_to_string (n : nat) : string :=
  NilZero.string_of_uint (Nat.to_uint n).

(** The replacement text of [String.prototype.replace] with a string
    pattern (no capture groups): [$$] is a dollar sign, [$&] the match,
    [$`] the text before the match and [$'] the text after it; any other
    use of [$] stands for itself. *)
Fixpoint substitution (matched before after repl : string) : string :=
  match repl with
  | "" => ""
  | String c r =>
      if bool_decide (c = "$"%char) then
        match r with
        | String d r' =>
            if bool_decide (d = "$"%char)
            then String "$"%char (substitution matched before after r')
            else if bool_decide (d = "&"%char)
            then matched +:+ substitution matched before after r'
            else if bool_decide (d = "`"%char)
            then before +:+ substitution matched before after r'
            else if bool_decide (d = "'"%char)
            then after +:+ substitution matched before after r'
            else String c (substitution matched before after r)
        | "" => String c ""
        end
      else String c (substitution matched before after r)
  end.

(** [s.replace(pat, repl)] with a string pattern: first occurrence only. *)
Definition replace (pat repl s : string) : string :=
  match indexOf pat s with
  | None => s
  | Some i =>
      let before := take i s in
      let after := drop (i + String.length pat) s in
      before +:+ substitution pat before after repl +:+ after
  end.

(** [s.replace(/^\n*/, "").replace(/\n*$/, "")] *)
Definition trimNewlines (s : string) : string :=
  drop_while_end is_nl (drop_while is_nl s).

(** [s.replace(/\n[^]*/, "")]: the text before the first line break. *)
Definition first_line (s : string) : string := fst (span (fun c => negb (is_nl c)) s).

(** [s.replace(/^\.\//, "")] *)
Definition strip_dot_slash (s : string) : string :=
  if startsWith "./" s then drop 2 s else s.

End Js.

(* ===================================================================== *)
(** ** JavaScript values and ordered dictionaries *)
(* ===================================================================== *)

(** Numbers are rationals (every finite double is one); [NaN] and the
    infinities are left out. *)
Definition JsNumber : Type := Q.

(** JavaScript values; [VFun n] is the built-in function named [n]. *)
Inductive JsValue : Type :=
| VUndefined
| VNull
| VBool (b : bool)
| VNum (n : JsNumber)
| VStr (s : string)
| VArr (items : list JsValue)
| VObj (props : list (string * JsValue))
| VFun (fname : string).

(** An object used as a dictionary: own enumerable properties in insertion
    order, every key at most once. *)
Definition Dict (V : Type) : Type := list (string * V).

Section Dict.
Context {V : Type}.

(** The own property [k] of [d]. *)
Fixpoint dict_get (k : string) (d : Dict V) : option V :=
  match d with
  | [] => None
  | (k', v) :: d' => if String.eqb k k' then Some v else dict_get k d'
  end.

(** [d[k] = v]: an existing key keeps its place, a new one goes last. *)
Fixpoint dict_set (k : string) (v : V) (d : Dict V) : Dict V :=
  match d with
  | [] => [(k, v)]
  | (k', v') :: d' =>
      if String.eqb k k' then (k, v) :: d' else (k', v') :: dict_set k v d'
  end.

(** [delete d[k]] *)
Fixpoint dict_delete (k : string) (d : Dict V) : Dict V :=
  match d with
  | [] => []
  | (k', v') :: d' =>
      if String.eqb k k' then dict_delete k d' else (k', v') :: dict_delete k d'
  end.

(** The own keys of [d]. *)
Definition dict_keys (d : Dict V) : list string := map fst d.

(** [{...a, ...b}] *)
Definition dict_spread (a b : Dict V) : Dict V :=
  fold_left (fun acc kv => dict_set (fst kv) (snd kv) acc) b a.
End Dict.

(** The array index a property key denotes, if it denotes one: the key is
    a decimal numeral without sign or leading zero, below [2^32 - 1]. *)
Definition array_index (k : string) : option N :=
  match k with
  | "" => None
  | String c rest =>
      if forallb Js.is_digit (String.list_ascii_of_string k)
         && (negb (Ascii.eqb c "0") || Js.is_empty rest)
      then
        let n := fold_left (fun acc d => (10 * acc + (N_of_ascii d - 48))%N)
                   (String.list_ascii_of_string k) 0%N in
        if (n <? 4294967295)%N then Some n else None
      else None
  end.

(** Puts an entry with array index [i] at its place among entries in
    ascending order of their index. *)
Fixpoint insert_entry {V : Type} (i : N) (kv : string * V)
    (l : list (N * (string * V))) : list (N * (string * V)) :=
  match l with
  | [] => [(i, kv)]
  | (j, x) :: l' =>
      if (i <? j)%N then (i, kv) :: l else (j, x) :: insert_entry i kv l'
  end.

(** The entries of [d] whose key is an array index, in ascending order of
    the index. *)
Fixpoint indexed_entries {V : Type} (d : Dict V) : list (N * (string * V)) :=
  match d with
  | [] => []
  | kv :: d' =>
      match array_index (fst kv) with
      | Some i => insert_entry i kv (indexed_entries d')
      | None => indexed_entries d'
      end
  end.

(** [Object.entries(d)]: the properties whose key is an array index come
    first, in ascending order of the index, then the others in insertion
    order. *)
Definition Object_entries {V : Type} (d : Dict V) : list (string * V) :=
  map snd (indexed_entries d)
  ++ List.filter (fun kv => negb (bool_decide (is_Some (array_index (fst kv))))) d.

(** [Object.keys(d)] *)
Definition Object_keys {V : Type} (d : Dict V) : list string :=
  map fst (Object_entries d).

(** Truthiness ([!!v], [if (v)]). *)
Definition truthy (v : JsValue) : bool :=
  match v with
  | VUndefined | VNull => false
  | VBool b => b
  | VNum n => negb (Qeq_bool n 0)
  | VStr s => negb (Js.is_empty s)
  | VArr _ | VObj _ | VFun _ => true
  end.

(** What a plain object inherits from [Object.prototype]: [constructor],
    the built-in methods, and the accessor [__proto__], which yields the
    prototype itself, an object without enumerable properties. *)
Definition Object_prototype : Dict JsValue :=
  [ ("constructor", VFun "Object");
    ("__defineGetter__", VFun "__defineGetter__");
    ("__defineSetter__", VFun "__defineSetter__");
    ("hasOwnProperty", VFun "hasOwnProperty");
    ("__lookupGetter__", VFun "__lookupGetter__");
    ("__lookupSetter__", VFun "__lookupSetter__");
    ("isPrototypeOf", VFun "isPrototypeOf");
    ("propertyIsEnumerable", VFun "propertyIsEnumerable");
    ("toString", VFun "toString");
    ("valueOf", VFun "valueOf");
    ("__proto__", VObj []);
    ("toLocaleString", VFun "toLocaleString") ].

(** [o[prop]] for a plain object [o] without an own property [prop]. *)
Definition inherited (prop : string) : JsValue :=
  default VUndefined (dict_get prop Object_prototype).

(** [o[prop]] for a plain object [o]: the own property, else the
    inherited one. *)
Definition js_get (prop : string) (o : Dict JsValue) : JsValue :=
  match dict_get prop o with
  | Some v => v
  | None => inherited prop
  end.

Definition truthy_string (s : option string) : bool :=
  match s with Some s => negb (Js.is_empty s) | None => false end.

(** [v?.[k]] on an arbitrary value. *)
Definition prop_of (k : string) (v : JsValue) : JsValue :=
  match v with
  | VObj props => default VUndefined (dict_get k props)
  | _ => VUndefined
  end.

(* ===================================================================== *)
(** ** Data model *)
(* ===================================================================== *)

(** [PromptTemplate] (declared in [./ast]): the fields the runner reads. *)
Record PromptTemplate : Type := {
  id : string;
  title : string;
  jsSource : string;
  model : option string;
  temperature : option JsNumber;
  maxTokens : option JsNumber;
  system : option (list string);
  categories : option (list string);
  readClipboard : bool;
}.

Record TextFile : Type := { filename : string; content : string }.

Record Reference : Type := { ref_name : string; ref_filename : string }.

Record CoarchJson : Type := { coarch_model : option string }.

Record Project : Type := {
  getTemplate : string -> option PromptTemplate;
  allFiles : list TextFile;
  coarchJson : CoarchJson;
}.

Definition Position : Type := (nat * nat)%type.

(** A fragment with its owning file, the project reached through the file
    ([fragment.file.project]), the project reached directly
    ([fragment.project]), its references and its parent. *)
Inductive Fragment : Type := mkFragment {
  frag_title : string;
  frag_file : TextFile;
  frag_file_project : Project;
  frag_project : Project;
  references : list Reference;
  parent : option Fragment;
  endPos : Position;
}.

Record LinkedFile : Type := {
  lf_label : string;
  lf_filename : string;
  lf_content : string;
}.

(** [ExpansionVariables]: the variable environment handed to scripts. *)
Definition ExpansionVariables : Type := Dict JsValue.

(** Thrown values. [request] is present exactly for instances of
    [RequestError]. *)
Record ErrorBody : Type := {
  body_message : JsValue;
  body_type : JsValue;
  body_code : JsValue;
}.

Record RequestErrorInfo : Type := {
  status : JsValue;
  statusText : JsValue;
  body : option ErrorBody;
}.

Record JsError : Type := {
  name : string;
  message : string;
  stack : string;
  request : option RequestErrorInfo;
}.

Inductive Outcome (A : Type) : Type :=
| Returns (a : A)
| Throws (e : JsError).
Arguments Returns {A} a.
Arguments Throws {A} e.

(** [new Error(msg)] raised at a place whose stack text is [st]. *)
Definition mkError (msg st : string) : JsError :=
  {| name := "Error"; message := msg; stack := st; request := None |}.

(** Edits ([./edits]). *)
Inductive Edits : Type :=
| ReplaceEdit (label filename : string) (range : Position * Position) (text : string)
| CreateFileEdit (label filename : string) (text : string) (overwrite : bool)
| InsertEdit (label filename : string) (pos : Position) (text : string).

Record FileEdit : Type := { before : option string; after : string }.

Record FragmentTransformResponse : Type := {
  edits : list Edits;
  fileEdits : gmap string FileEdit;
  trace : string;
  text : string;
  summary : option string;
}.

Record ChatMessage : Type := { role : string; msg_content : string }.

Record ChatRequest : Type := {
  req_model : string;
  req_temperature : JsNumber;
  req_max_tokens : JsNumber;
  messages : list ChatMessage;
}.

Record AbortSignal : Type := { aborted : bool }.

Record RequestOptions : Type := { signal : option AbortSignal }.

(** [RunTemplateOptions]. A callback is modelled by what it does for the
    runner: [infoCb] by whether it was supplied (its invocations are
    recorded as events), [readClipboard] by the outcome of calling it. *)
Record RunTemplateOptions : Type := {
  requestOptions : option RequestOptions;
  infoCb : bool;
  opt_readClipboard : option (Outcome string);
  promptOptions : JsValue;
}.

(** What the fenced-block parser returns ([extractFenced]). *)
Record Fenced : Type := { vars : Dict string }.

(** Effects visible to the caller, oldest first. *)
Inductive Event : Type :=
| EvInfoCb (partialResponse : FragmentTransformResponse)
| EvRequest (req : ChatRequest)
| EvConsoleLog (name : string).

(* ===================================================================== *)
(** ** Template scripts *)
(* ===================================================================== *)

(** Modelled from the spec: [evalPrompt] of [./template] is missing; it
    evaluates a template's script body against the context object that
    [callExpander] builds.  A script is described by the way it uses that
    context: it reads [env.<prop>] and goes on with the value read, emits a
    text segment ([text(body)]), writes a log line, returns, or throws.
    [SText] carries the stack text an [Error] created inside that call
    gets; an exception raised by a callback unwinds the evaluation. *)
Inductive Script : Type :=
| SDone
| SRead (prop : string) (k : JsValue -> Script)
| SText (body : string) (stack_here : string) (k : Script)
| SLog (msg : string) (k : Script)
| SThrow (e : JsError).

(** The collaborators of the runner. *)
Record Host : Type := {
  evalPrompt : string -> Script;
  commentAttributes : Fragment -> Dict string;
  allChildren : Fragment -> bool -> list Fragment;
  relativePath : string -> string -> string;
  projectFolder : string;
  resolvePath : list string -> string;
  staticVars : Dict JsValue;
  inspect : JsValue -> string;
  numberToString : JsNumber -> string;
  initToken : Outcome unit;
  getChatCompletions : ChatRequest -> RunTemplateOptions -> Outcome string;
  fileExists : string -> bool;
  readText : string -> string;
  stringToPos : string -> Position;
  extractFenced : string -> Fenced;
  renderFencedVariables : Fenced -> string;
}.

(** The result of [callExpander]. *)
Module Expansion.
Record t : Type := mk {
  logs : string;
  errors : string;
  success : bool;
  text : string;
}.
End Expansion.

(** The result of [expandTemplate]. *)
Module Expanded.
Record t : Type := mk {
  expanded : string;
  errors : string;
  trace : string;
  success : bool;
  model : string;
  temperature : JsNumber;
  max_tokens : JsNumber;
  systemText : string;
}.
End Expanded.

(* ===================================================================== *)
(** ** [/at eval.*<anonymous>:(\d+):(\d+)/] *)
(* ===================================================================== *)

Module StackRegex.

(** [<anonymous>:(\d+):(\d+)] matched at the start of [s]. *)
Definition anonymous_here (s : string) : option (string * string) :=
  if Js.startsWith "<anonymous>:" s then
    let '(line, rest) := Js.span Js.is_digit (Js.drop 12 s) in
    match rest with
    | String c rest' =>
        let col := fst (Js.span Js.is_digit rest') in
        if negb (Js.is_empty line) && bool_decide (c = ":"%char)
           && negb (Js.is_empty col)
        then Some (line, col) else None
    | "" => None
    end
  else None.

(** [.*<anonymous>:(\d+):(\d+)] matched at the start of [s]; the greedy
    [.*] gives the last place on the line that works. *)
Fixpoint after_eval (s : string) : option (string * string) :=
  match s with
  | "" => None
  | String c s' =>
      if Js.is_line_terminator c then anonymous_here s
      else match after_eval s' with
           | Some m => Some m
           | None => anonymous_here s
           end
  end.

(** The first place of [s] where the whole expression matches. *)
Fixpoint exec (s : string) : option (string * string) :=
  match (if Js.startsWith "at eval" s then after_eval (Js.drop 7 s) else None) with
  | Some m => Some m
  | None => match s with
            | String _ s' => exec s'
            | "" => None
            end
  end.

End StackRegex.

(* ===================================================================== *)
(** ** The runner *)
(* ===================================================================== *)

Definition defaultModel : string := "gpt-4".
Definition defaultTemperature : JsNumber := (2 # 10)%Q.
Definition defaultMaxTokens : JsNumber := (800 # 1)%Q.

(** [a ?? b] *)
Definition nullish {A : Type} (a b : option A) : option A :=
  match a with Some _ => a | None => b end.
Infix "??" := nullish (at level 45, left associativity).

Definition fence : string := "```````````````".

Definition fenceMD (t contentType : string) : string :=
  Js.nl +:+ fence +:+ contentType +:+ Js.nl +:+ Js.trimNewlines t +:+ Js.nl
  +:+ fence +:+ Js.nl.

(** [lines.map((l, i) => ("" + (i + 1)).padStart(3) + ": " + l)], the
    first line having index [i]. *)
Fixpoint number_lines (i : nat) (lines : list string) : list string :=
  match lines with
  | [] => []
  | l :: ls =>
      (Js.padStart 3 (Js.nat_to_string (i + 1)) +:+ ": " +:+ l)
        :: number_lines (S i) ls
  end.

Definition numberedFenceMD (t contentType : string) : string :=
  fenceMD (Js.join Js.nl (number_lines 0 (Js.split_lines t))) contentType.

(** ['foo.bar.baz' -> [ 'foo', 'foo.bar', 'foo.bar.baz' ]] *)
Definition prefixes (w : string) : list string :=
  let words := Js.split "."%char w in
  map (fun i => Js.join "." (firstn (i + 1) words)) (seq 0 (length words)).

Section Expander.
Context (h : Host).

(** [String(v)] *)
Fixpoint js_String (v : JsValue) : string :=
  match v with
  | VUndefined => "undefined"
  | VNull => "null"
  | VBool b => if b then "true" else "false"
  | VNum n => numberToString h n
  | VStr s => s
  | VArr items =>
      Js.join ","
        (map (fun x => match x with
                       | VUndefined | VNull => ""
                       | _ => js_String x
                       end) items)
  | VObj _ => "[object Object]"
  | VFun n => "function " +:+ n +:+ "() { [native code] }"
  end.

(** [vars.error]. [ExpansionVariables] declares it a string; an
    environment that binds no string there is outside the declared input
    type and yields no marker. *)
Definition vars_error (vars : ExpansionVariables) : option string :=
  match dict_get "error" vars with
  | Some (VStr s) => Some s
  | _ => None
  end.

(** The [get] trap of the [env] proxy: the value read and the new
    [errors]. [target[prop]] reads the own property of [vars] or, when
    there is none, the one [vars] inherits. *)
Definition env_get (vars : ExpansionVariables) (prop : string)
    (errors : string) : JsValue * string :=
  match js_get prop vars with
  | VUndefined =>
      (VStr "", errors +:+ "-  `env." +:+ prop +:+ "` not defined" +:+ Js.nl)
  | v => (v, errors)
  end.

(** The [text] callback: the new [promptText] and the message of the
    [Error] it throws, if it throws. *)
Definition ctx_text (vars : ExpansionVariables) (body : string)
    (promptText : string) : string * option string :=
  let promptText' :=
    promptText +:+ Js.drop_while Js.is_nl (Js.drop_while_end Js.is_nl body)
    +:+ Js.nl +:+ Js.nl in
  match vars_error vars with
  | Some marker =>
      match Js.indexOf marker body with
      | Some idx =>
          (promptText',
           Some (Js.first_line (Js.drop (idx + String.length marker) body)))
      | None => (promptText', None)
      end
  | None => (promptText', None)
  end.

(** [await evalPrompt(ctx, r.jsSource, logCb)]: the state of the local
    variables [logs], [errors], [text] when the evaluation ends, and the
    exception it ends with, if any. The [success] field is carried
    along unchanged. *)
Fixpoint runScript (vars : ExpansionVariables) (s : Script)
    (st : Expansion.t) : Expansion.t * option JsError :=
  match s with
  | SDone => (st, None)
  | SRead prop k =>
      let '(v, errors') := env_get vars prop (Expansion.errors st) in
      runScript vars (k v)
        (Expansion.mk (Expansion.logs st) errors' (Expansion.success st)
           (Expansion.text st))
  | SText body stack_here k =>
      let '(promptText', thrown) := ctx_text vars body (Expansion.text st) in
      let st' := Expansion.mk (Expansion.logs st) (Expansion.errors st)
                   (Expansion.success st) promptText' in
      match thrown with
      | Some msg => (st', Some (mkError msg stack_here))
      | None => runScript vars k st'
      end
  | SLog msg k =>
      runScript vars k
        (Expansion.mk (Expansion.logs st +:+ msg +:+ Js.nl)
           (Expansion.errors st) (Expansion.success st) (Expansion.text st))
  | SThrow e => (st, Some e)
  end.

(** The [catch] block of [callExpander]. *)
Definition expander_catch (e : JsError) (st : Expansion.t) : Expansion.t :=
  let info :=
    match StackRegex.exec (stack e) with
    | Some (l, c) => " at prompt line " +:+ l +:+ ", column " +:+ c
    | None => ""
    end in
  Expansion.mk (Expansion.logs st)
    (Expansion.errors st +:+ "-  " +:+ name e +:+ ": " +:+ message e +:+ info
     +:+ Js.nl)
    false (Expansion.text st).

(** [try { await evalPrompt(...) } catch (e) { ... }] and the [return]
    of [callExpander], for a script [s] started with the local variables
    as in [st]. *)
Definition expandScript (vars : ExpansionVariables) (s : Script)
    (st : Expansion.t) : Expansion.t :=
  let '(st', thrown) := runScript vars s st in
  match thrown with
  | Some e => expander_catch e st'
  | None => st'
  end.

Definition callExpander (r : PromptTemplate) (vars : ExpansionVariables)
    : Expansion.t :=
  expandScript vars (evalPrompt h (jsSource r)) (Expansion.mk "" "" true "").

End Expander.

(** Text spread over several source lines: the lines joined by line
    breaks. *)
Definition lines (ls : list string) : string := Js.join Js.nl ls.

Section CategoryPrefix.

(** The loop over [prefs]: [used], [info] and [text] are the variables of
    the same names. *)
Fixpoint categoryPrefix_loop (attrs : Dict string) (prefs used : list string)
    (info text : string) : string * string :=
  match prefs with
  | [] => (info, text)
  | pref :: rest =>
      if bool_decide (pref ∈ used) then
        categoryPrefix_loop attrs rest used info text
      else
        match dict_get pref attrs with
        | None =>
            categoryPrefix_loop attrs rest (pref :: used)
              (info +:+ "-   **" +:+ pref +:+ "** missing" +:+ Js.nl) text
        | Some v =>
            categoryPrefix_loop attrs rest (pref :: used)
              (info +:+ "-   **" +:+ pref +:+ "**)" +:+ Js.nl
               +:+ Js.trimNewlines v +:+ Js.nl)
              (text +:+ v)
        end
  end.

(** Returns [(info, text)]. *)
Definition categoryPrefix (template : PromptTemplate) (attrs : Dict string)
    : string * string :=
  let has_categories :=
    match categories template with
    | Some cs => negb (bool_decide (length cs = 0))
    | None => false
    end in
  if has_categories || truthy_string (dict_get "@prompt" attrs) then
    let info :=
      Js.nl +:+ "## Inline prompts" +:+ Js.nl
      +:+ lines [ "";
                  "Added as comment at the end of a fragment: ";
                  "";
                  "```markdown";
                  "Lorem ipsum...";
                  "";
                  "<!-- @prompt.NAME ";
                  "You are concise.";
                  "!-->";
                  "```";
                  "        ";
                  "";
                  "" ] in
    let prefs :=
      if has_categories
      then concat (map (fun s => prefixes ("@prompt." +:+ s))
                     (default [] (categories template)))
      else ["@prompt"] in
    let '(info', text) := categoryPrefix_loop attrs prefs [] info "" in
    (info' +:+ Js.nl, text)
  else ("", "").

End CategoryPrefix.

(** The local variables the system-template loop of [expandTemplate]
    updates. *)
Module Sys.
Record t : Type := mk {
  trace : string;
  systemText : string;
  model : option string;
  temperature : option JsNumber;
  max_tokens : option JsNumber;
}.
End Sys.

Section ExpandTemplate.
Context (h : Host).

(** Modelled from the spec: [assert] of [./util] is missing; a failed
    assertion is a fatal precondition, it throws. *)
Definition assertion_failed : JsError := mkError "Assertion failed" "".

(** [n || ""] inside a template literal. *)
Definition number_or_empty (n : JsNumber) : string :=
  if truthy (VNum n) then numberToString h n else "".

(** [varName[key]]: [varName] is a plain object, a key it does not hold
    is read from what it inherits. *)
Definition varName_get (varName : Dict string) (key : string) : JsValue :=
  match dict_get key varName with
  | Some k => VStr k
  | None => inherited key
  end.

(** The [varName] table: the loop over [Object.entries(vars)] enters a
    variable under its value (as a property key) unless [varName] reads
    as something truthy there. The assignment is reached only for keys
    that are not inherited, where it creates or updates an own property. *)
Definition varName_of (vars : ExpansionVariables) : Dict string :=
  fold_left
    (fun varName kv =>
       let key := js_String h (snd kv) in
       if truthy (varName_get varName key) then varName
       else dict_set key (fst kv) varName)
    (Object_entries vars) [].

(** [typeof v === "string" && varName[v] != k]: an own entry of [varName]
    is a string and is compared to [k] as it is; an inherited function or
    object is compared by its string form; [undefined] differs from every
    string. *)
Definition is_alias (varName : Dict string) (k : string) (v : JsValue) : bool :=
  match v with
  | VStr s =>
      match dict_get s varName with
      | Some k' => negb (String.eqb k' k)
      | None =>
          match dict_get s Object_prototype with
          | Some inh => negb (String.eqb (js_String h inh) k)
          | None => true
          end
      end
  | _ => false
  end.

Definition isComplex (vars : ExpansionVariables) (varName : Dict string)
    (k : string) : bool :=
  let v := default VUndefined (dict_get k vars) in
  if is_alias varName k v then false
  else match v with
       | VStr s =>
           (40 <? String.length s)
           || Js.includes Js.nl (Js.trim s)
           || Js.includes "`" s
       | _ => true
       end.

Definition traceVars (vars : ExpansionVariables) : string :=
  let varName := varName_of vars in
  let info :=
    Js.nl +:+ Js.nl +:+ "## Variables" +:+ Js.nl
    +:+ "Variables are referenced through `env.NAME` in prompts."
    +:+ Js.nl +:+ Js.nl in
  let info :=
    fold_left
      (fun info k =>
         if isComplex vars varName k then info
         else
           let v := default VUndefined (dict_get k vars) in
           if is_alias varName k v then
             info +:+ "-   env.**" +:+ k +:+ "**: same as **"
             +:+ js_String h (varName_get varName (js_String h v)) +:+ "**"
             +:+ Js.nl +:+ Js.nl
           else
             info +:+ "-   env.**" +:+ k +:+ "**: `" +:+ js_String h v
             +:+ "`" +:+ Js.nl +:+ Js.nl)
      (Object_keys vars) info in
  fold_left
    (fun info k =>
       if negb (isComplex vars varName k) then info
       else
         let v := default VUndefined (dict_get k vars) in
         info +:+ "-   env.**" +:+ k +:+ "**"
         +:+ match v with
             | VStr s => fenceMD s ""
             | _ => fenceMD (inspect h v) "js"
             end
         +:+ Js.nl)
    (Object_keys vars) info.

(** The body of the system-template loop once [system] is resolved. *)
Definition system_step (vars : ExpansionVariables) (systemTemplate : string)
    (system : PromptTemplate) (st : Sys.t) : Sys.t :=
  let sysex := Expansion.text (callExpander h system vars) in
  let trace := Sys.trace st +:+ "###  template: `" +:+ systemTemplate +:+ "`"
               +:+ Js.nl in
  let trace :=
    if truthy_string (model system)
    then trace +:+ "-  model: `" +:+ default "" (model system) +:+ "`" +:+ Js.nl
    else trace in
  let trace :=
    match temperature system with
    | Some t => trace +:+ "-  temperature: " +:+ number_or_empty t +:+ Js.nl
    | None => trace
    end in
  let trace :=
    match maxTokens system with
    | Some t => trace +:+ "-  max tokens: " +:+ number_or_empty t +:+ Js.nl
    | None => trace
    end in
  let trace := trace +:+ numberedFenceMD (jsSource system) "js" in
  let trace := trace +:+ "#### Expanded system prompt" in
  let trace := trace +:+ fenceMD sysex "markdown" in
  Sys.mk trace
    (Sys.systemText st +:+ sysex +:+ Js.nl)
    (Sys.model st ?? model system)
    (Sys.temperature st ?? temperature system)
    (Sys.max_tokens st ?? maxTokens system).

(** [for (let i = 0; i < systems.length; ++i)], from index [i] on. *)
Fixpoint systems_loop (fragment : Fragment) (vars : ExpansionVariables)
    (i : nat) (systems : list string) (st : Sys.t) : Outcome Sys.t :=
  match systems with
  | [] => Returns st
  | systemTemplate :: rest =>
      match getTemplate (frag_file_project fragment) systemTemplate with
      | Some system =>
          systems_loop fragment vars (S i) rest
            (system_step vars systemTemplate system st)
      | None =>
          let st :=
            if negb (Js.is_empty systemTemplate) then
              Sys.mk (Sys.trace st +:+ Js.nl +:+ "** error: `"
                      +:+ systemTemplate +:+ "` not found" +:+ Js.nl)
                (Sys.systemText st) (Sys.model st) (Sys.temperature st)
                (Sys.max_tokens st)
            else st in
          if 0 <? i then systems_loop fragment vars (S i) rest st
          else
            match getTemplate (frag_file_project fragment) "system" with
            | Some system =>
                systems_loop fragment vars (S i) rest
                  (system_step vars "system" system st)
            | None => Throws assertion_failed
            end
      end
  end.

(** [(template.system ?? []).slice(0)] with ["system"] put in front when
    it is not in the list. *)
Definition systems_of (template : PromptTemplate) : list string :=
  let systems := default [] (system template) in
  if bool_decide ("system" ∈ systems) then systems else "system" :: systems.

Definition expandTemplate (template : PromptTemplate) (fragment : Fragment)
    (vars : ExpansionVariables) : Outcome Expanded.t :=
  let trace :=
    lines [ "";
            "# Prompt trace";
            "";
            "@@errors@@";
            "";
            "## Prompt template " +:+ Js.dquote +:+ title template
              +:+ Js.dquote +:+ " (`" +:+ id template +:+ "`)";
            numberedFenceMD (jsSource template) "js";
            "";
            "" ] in
  let errors := "" in
  let attrs := commentAttributes h fragment in
  let '(cat_info, cat_text) := categoryPrefix template attrs in
  let prompt := callExpander h template vars in
  let expanded := cat_text +:+ Js.nl +:+ Expansion.text prompt in
  let errors := errors +:+ Expansion.errors prompt in
  let trace := trace +:+ cat_info in
  let trace := trace +:+ Js.nl +:+ "## console output" +:+ Js.nl in
  let trace :=
    if negb (Js.is_empty (Expansion.logs prompt))
    then trace +:+ fenceMD (Expansion.logs prompt) "markdown"
    else trace +:+ "> tip: use `console.log()` from prompt.js files" in
  let trace := trace +:+ Js.nl +:+ "## Expanded prompt" +:+ Js.nl in
  let trace := trace +:+ fenceMD (Expansion.text prompt) "markdown" in
  let trace := trace +:+ traceVars vars in
  let trace := Js.replace "@@errors@@" errors trace in
  let trace := trace +:+ "## System prompt" +:+ Js.nl in
  match systems_loop fragment vars 0 (systems_of template)
          (Sys.mk trace "" (model template) (temperature template)
             (maxTokens template)) with
  | Throws e => Throws e
  | Returns st =>
      Returns
        (Expanded.mk expanded errors (Sys.trace st) (Expansion.success prompt)
           (default defaultModel
              (Sys.model st ?? coarch_model (coarchJson (frag_project fragment))))
           (default defaultTemperature (Sys.temperature st))
           (default defaultMaxTokens (Sys.max_tokens st))
           (Sys.systemText st))
  end.

End ExpandTemplate.

(* ===================================================================== *)
(** ** Effects: events and exceptions *)
(* ===================================================================== *)

(** A computation yields the events it caused, oldest first, and returns
    or throws. *)
Definition M (A : Type) : Type := (list Event * Outcome A)%type.

Definition ret {A : Type} (a : A) : M A := ([], Returns a).
Definition throw {A : Type} (e : JsError) : M A := ([], Throws e).
Definition emit (ev : Event) : M unit := ([ev], Returns tt).
Definition lift {A : Type} (o : Outcome A) : M A := ([], o).

Definition bind {A B : Type} (m : M A) (f : A -> M B) : M B :=
  match m with
  | (evs, Returns a) => let '(evs', r) := f a in (evs ++ evs', r)
  | (evs, Throws e) => (evs, Throws e)
  end.

(** [try { m } catch (error) { handler error }] *)
Definition try_catch {A : Type} (m : M A) (handler : JsError -> M A) : M A :=
  match m with
  | (evs, Throws e) => let '(evs', r) := handler e in (evs ++ evs', r)
  | (evs, Returns a) => (evs, Returns a)
  end.

Notation "'do' x <- m ; k" := (bind m (fun x => k))
  (at level 10, x pattern, m at level 100, k at level 200).
Notation "'run' m ; k" := (bind m (fun _ => k))
  (at level 10, m at level 100, k at level 200).

Definition typeError (msg : string) : JsError :=
  {| name := "TypeError"; message := msg; stack := ""; request := None |}.

(* ===================================================================== *)
(** ** [fragmentVars] *)
(* ===================================================================== *)

Section FragmentVars.
Context (h : Host).

Definition linked_file_value (lf : LinkedFile) : JsValue :=
  VObj [ ("label", VStr (lf_label lf));
         ("filename", VStr (lf_filename lf));
         ("content", VStr (lf_content lf)) ].

Definition opt_prop {A : Type} (k : string) (f : A -> JsValue) (o : option A)
    : list (string * JsValue) :=
  match o with Some a => [(k, f a)] | None => [] end.

(** A template as the script sees it: the fields of [PromptTemplate]. *)
Definition template_value (t : PromptTemplate) : JsValue :=
  VObj ([ ("id", VStr (id t)); ("title", VStr (title t));
          ("jsSource", VStr (jsSource t)) ]
        ++ opt_prop "model" VStr (model t)
        ++ opt_prop "temperature" VNum (temperature t)
        ++ opt_prop "maxTokens" VNum (maxTokens t)
        ++ opt_prop "system" (fun l => VArr (map VStr l)) (system t)
        ++ opt_prop "categories" (fun l => VArr (map VStr l)) (categories t)
        ++ [ ("readClipboard", VBool (readClipboard t)) ]).

Definition attrs_value (attrs : Dict string) : JsValue :=
  VObj (map (fun kv => (fst kv, VStr (snd kv))) attrs).

(** The two nested loops that collect [links]. *)
Definition collect_links (project : Project) (frag : Fragment)
    : list LinkedFile :=
  fold_left
    (fun links fr =>
       fold_left
         (fun links ref =>
            match List.find
                    (fun f => String.eqb (filename f) (ref_filename ref))
                    (allFiles project) with
            | None => links
            | Some file =>
                let fn := relativePath h (projectFolder h) (filename file) in
                match List.find (fun lk => String.eqb (lf_filename lk) fn)
                        links with
                | Some _ => links
                | None =>
                    links ++ [ {| lf_label := ref_name ref;
                                  lf_filename := fn;
                                  lf_content := content file |} ]
                end
            end)
         (references fr) links)
    (allChildren h frag true) [].

Definition fragmentVars (template : PromptTemplate)
    (templates : list PromptTemplate) (frag : Fragment)
    (promptOptions : JsValue) : ExpansionVariables :=
  let file := frag_file frag in
  let project := frag_file_project frag in
  let ignoreOutput := truthy (prop_of "ignoreOutput" promptOptions) in
  let links := if negb ignoreOutput then collect_links project frag else [] in
  let parents :=
    match parent frag with
    | Some p =>
        [ {| lf_label := frag_title p;
             lf_filename :=
               relativePath h (projectFolder h) (filename (frag_file p));
             lf_content := content (frag_file p) |} ]
    | None => []
    end in
  let attrs := commentAttributes h frag in
  dict_spread (staticVars h)
    [ ("file", VObj [ ("filename", VStr (filename file));
                      ("label", VStr "current");
                      ("content", VStr (content file)) ]);
      ("links", VArr (map linked_file_value links));
      ("parents", VArr (map linked_file_value parents));
      ("promptOptions", promptOptions);
      ("template", template_value template);
      ("templates", VArr (map template_value templates));
      ("vars", attrs_value attrs) ].

End FragmentVars.

(* ===================================================================== *)
(** ** [runTemplate] *)
(* ===================================================================== *)

(** The variables the loop over the extracted entries updates: the
    [edits] array and the [fileEdits] object (both shared with [res]),
    [links], [res.summary] and [extr.vars]. *)
Module Loop.
Record t : Type := mk {
  edits : list Edits;
  fileEdits : gmap string FileEdit;
  links : list string;
  summary : option string;
  vars : Dict string;
}.
End Loop.

(** The fence-opening expression of [runTemplate] run on [text]: at the
    start three or more backticks (the first group), then word characters
    (the language tag), then a line break. Yields the first group and the
    length of the whole match. *)
Definition fence_open (text : string) : option (string * nat) :=
  let '(ticks, rest) := Js.span Js.is_backtick text in
  if 3 <=? String.length ticks then
    let '(lang, rest') := Js.span Js.is_word rest in
    match rest' with
    | String c _ =>
        if Js.is_nl c
        then Some (ticks, String.length ticks + String.length lang + 1)
        else None
    | "" => None
    end
  else None.

(** The value of the local variable [text] at the end of [runTemplate],
    from the completion text and what is left in [extr.vars]. *)
Definition final_text (text : string) (left : Dict string) : string :=
  let keys := Object_keys left in
  let text :=
    match keys with
    | [k] => default text (dict_get k left)
    | _ => text
    end in
  let text := Js.trim text in
  match fence_open text with
  | Some (m1, m0_length) =>
      if Js.endsWith m1 text
      then Js.trim (Js.slice_neg_end m0_length (String.length m1) text)
      else text
  | None => text
  end.

Section RunTemplate.
Context (h : Host).

(** [{ edits: [], trace, text, fileEdits: {} }] *)
Definition partial_response (trace text : string) : FragmentTransformResponse :=
  {| edits := []; fileEdits := ∅; trace := trace; text := text;
     summary := None |}.

(** [options?.infoCb?.(r)] *)
Definition infoCb_if_any (options : RunTemplateOptions)
    (r : FragmentTransformResponse) : M unit :=
  if infoCb options then emit (EvInfoCb r) else ret tt.

(** [options.infoCb(r)]: calling a callback that was not supplied is a
    [TypeError]. *)
Definition infoCb_call (options : RunTemplateOptions)
    (r : FragmentTransformResponse) : M unit :=
  if infoCb options then emit (EvInfoCb r)
  else throw (typeError "options.infoCb is not a function").

(** [signal?.aborted] *)
Definition signal_aborted (signal : option AbortSignal) : bool :=
  match signal with Some s => aborted s | None => false end.

Definition request_error_trace (trace : string) (info : RequestErrorInfo)
    : string :=
  let trace := trace +:+ "## Request error" +:+ Js.nl +:+ Js.nl in
  let trace :=
    match body info with
    | Some b =>
        trace +:+ Js.nl +:+ "> " +:+ js_String h (body_message b) +:+ Js.nl
        +:+ Js.nl
        +:+ "-  type: `" +:+ js_String h (body_type b) +:+ "`" +:+ Js.nl
        +:+ "-  code: `" +:+ js_String h (body_code b) +:+ "`" +:+ Js.nl
    | None => trace
    end in
  trace +:+ "-   status: `" +:+ js_String h (status info) +:+ "`, "
  +:+ js_String h (statusText info) +:+ Js.nl.

Definition cancelled_trace (trace : string) : string :=
  trace +:+ lines [ "## Request cancelled";
                    "            ";
                    "The user requested to cancel the request.";
                    "" ].

(** The [catch] block around the completion request. *)
Definition request_catch (options : RunTemplateOptions)
    (signal : option AbortSignal) (trace : string) (error : JsError)
    : M string :=
  match request error with
  | Some info =>
      run infoCb_call options
            (partial_response (request_error_trace trace info) "Request error");
      throw error
  | None =>
      if signal_aborted signal then
        run infoCb_call options
              (partial_response (cancelled_trace trace) "Request cancelled");
        throw error
      else throw error
  end.

(** The first argument of [getChatCompletions]. *)
Definition completion_request (r : Expanded.t) : ChatRequest :=
  {| req_model := Expanded.model r;
     req_temperature := Expanded.temperature r;
     req_max_tokens := Expanded.max_tokens r;
     messages := [ {| role := "system"; msg_content := Expanded.systemText r |};
                   {| role := "user"; msg_content := Expanded.expanded r |} ] |}.

(** The [try] block around the completion request. *)
Definition request_try (options : RunTemplateOptions) (trace : string)
    (r : Expanded.t) : M string :=
  run lift (initToken h);
  run infoCb_if_any options (partial_response trace "> Waiting for response...");
  run emit (EvRequest (completion_request r));
  lift (getChatCompletions h (completion_request r) options).

(** One turn of [for (const [name, val] of Object.entries(extr.vars))],
    after the [console.log]. *)
Definition entry_step (fragment : Fragment) (name val : string) (st : Loop.t)
    : Loop.t :=
  let st :=
    if Js.startsWith "File " name then
      let vars := dict_delete name (Loop.vars st) in
      let n := Js.strip_dot_slash (Js.trim (Js.drop 5 name)) in
      let fn := resolvePath h [filename (frag_file fragment); ".."; n] in
      let curr :=
        ref_filename
          <$> List.find (fun r => String.eqb (resolvePath h [ref_filename r]) fn)
                (references fragment) in
      let '(fileEdits, edits) :=
        if fileExists h fn then
          let content := readText h fn in
          if negb (String.eqb content val) then
            (<[ fn := {| before := Some content; after := val |} ]>
               (Loop.fileEdits st),
             Loop.edits st
             ++ [ ReplaceEdit ("Update " +:+ fn) fn
                    ((0, 0), stringToPos h content) val ])
          else (Loop.fileEdits st, Loop.edits st)
        else
          (<[ fn := {| before := None; after := val |} ]> (Loop.fileEdits st),
           Loop.edits st ++ [ CreateFileEdit ("Create " +:+ fn) fn val true ]) in
      let links :=
        if negb (truthy_string curr)
           && negb (String.eqb (resolvePath h [filename (frag_file fragment)]) fn)
        then Loop.links st ++ [ "-   [" +:+ n +:+ "](./" +:+ n +:+ ")" ]
        else Loop.links st in
      Loop.mk edits fileEdits links (Loop.summary st) vars
    else st in
  if String.eqb name "SUMMARY" then
    Loop.mk (Loop.edits st) (Loop.fileEdits st) (Loop.links st) (Some val)
      (dict_delete name (Loop.vars st))
  else st.

Fixpoint entries_loop (fragment : Fragment) (entries : list (string * string))
    (st : Loop.t) : M Loop.t :=
  match entries with
  | [] => ret st
  | (name, val) :: rest =>
      run emit (EvConsoleLog name);
      entries_loop fragment rest (entry_step fragment name val st)
  end.

(** [runTemplate] from the completion text on. Yields the object [res]
    that is returned together with the last value of the local variable
    [text]. The fields [text] and [trace] of [res] are set when [res] is
    built; [res.edits] and [res.fileEdits] are the objects the loop
    updates. *)
Definition post_process (template : PromptTemplate) (fragment : Fragment)
    (trace text : string) : M (FragmentTransformResponse * string) :=
  let trace := trace +:+ Js.nl +:+ Js.nl +:+ "## AI Output" +:+ Js.nl +:+ Js.nl
               +:+ fenceMD text "markdown" in
  let extr := extractFenced h text in
  let trace :=
    trace +:+ lines [ ""; ""; "### Extracted Variables"; "";
                      renderFencedVariables h extr; "" ] in
  let res_trace := trace in
  let res_text := text in
  do st <- entries_loop fragment (Object_entries (vars extr))
             (Loop.mk [] ∅ [] None (vars extr));
  let text := final_text text (Loop.vars st) in
  let edits :=
    if negb (bool_decide (length (Loop.links st) = 0)) then
      Loop.edits st
      ++ [ InsertEdit (title template) (filename (frag_file fragment))
             (endPos fragment)
             (Js.nl +:+ Js.nl +:+ Js.join Js.nl (Loop.links st)) ]
    else Loop.edits st in
  ret ({| edits := edits; fileEdits := Loop.fileEdits st; trace := res_trace;
          text := res_text; summary := Loop.summary st |}, text).

(** The variable environment of a run: [fragmentVars] and the clipboard. *)
Definition run_vars (template : PromptTemplate)
    (templates : list PromptTemplate) (fragment : Fragment)
    (options : RunTemplateOptions) : M ExpansionVariables :=
  let vars := fragmentVars h template templates fragment (promptOptions options) in
  if truthy (default VUndefined (dict_get "vars" vars)) && readClipboard template
  then match opt_readClipboard options with
       | Some clip =>
           do s <- lift clip;
           ret (dict_set "clipboard" (VStr s) vars)
       | None => ret vars
       end
  else ret vars.

(** The trace after the [## Final prompt] section is added. *)
Definition final_prompt_trace (r : Expanded.t) : string :=
  let trace := Expanded.trace r +:+ Js.nl +:+ Js.nl +:+ "## Final prompt"
               +:+ Js.nl +:+ Js.nl in
  let trace :=
    if negb (Js.is_empty (Expanded.model r))
    then trace +:+ "-  model: `" +:+ Expanded.model r +:+ "`" +:+ Js.nl
    else trace in
  let trace := trace +:+ "-  temperature: "
               +:+ number_or_empty h (Expanded.temperature r) +:+ Js.nl in
  let trace := trace +:+ "-  max tokens: "
               +:+ number_or_empty h (Expanded.max_tokens r) +:+ Js.nl in
  trace +:+ fenceMD (Expanded.expanded r) "markdown".

(** [runTemplate] with the local variable [text] kept next to the
    returned object. *)
Definition runTemplate_locals (template : PromptTemplate)
    (templates : list PromptTemplate) (fragment : Fragment)
    (options : option RunTemplateOptions)
    : M (FragmentTransformResponse * option string) :=
  match options with
  | None =>
      throw (typeError "Cannot read properties of undefined (reading 'promptOptions')")
  | Some options =>
      let signal := signal (default {| signal := None |} (requestOptions options)) in
      do vars <- run_vars template templates fragment options;
      do r <- lift (expandTemplate h template fragment vars);
      let trace := final_prompt_trace r in
      if negb (Expanded.success r) then
        ret ({| trace := trace;
                text := "# Template failed" +:+ Js.nl +:+ "See info below."
                        +:+ Js.nl +:+ trace;
                edits := [];
                fileEdits := ∅;
                summary := None |}, None)
      else
        do text <- try_catch (request_try options trace r)
                     (request_catch options signal trace);
        do res <- post_process template fragment trace text;
        ret (fst res, Some (snd res))
  end.

Definition runTemplate (template : PromptTemplate)
    (templates : list PromptTemplate) (fragment : Fragment)
    (options : option RunTemplateOptions) : M FragmentTransformResponse :=
  do res <- runTemplate_locals template templates fragment options;
  ret (fst res).

End RunTemplate.

(* ===================================================================== *)
(** ** Notions the stated properties use *)
(* ===================================================================== *)

(** The first defined value of a list. *)
Fixpoint first_defined {A : Type} (l : list (option A)) : option A :=
  match l with
  | [] => None
  | o :: l' => o ?? first_defined l'
  end.

(** The system templates a run resolves, in order: every name of the list
    that the project knows; an unknown name is skipped, except in the
    first place, where the canonical ["system"] template stands in for it.
    [None] when that canonical template is needed and missing. *)
Fixpoint resolved_systems (project : Project) (i : nat) (systems : list string)
    : option (list PromptTemplate) :=
  match systems with
  | [] => Some []
  | name :: rest =>
      match getTemplate project name with
      | Some t => cons t <$> resolved_systems project (S i) rest
      | None =>
          if 0 <? i then resolved_systems project (S i) rest
          else match getTemplate project "system" with
               | Some t => cons t <$> resolved_systems project (S i) rest
               | None => None
               end
      end
  end.

(** The combined system prompt for the resolved system templates [ts]:
    the text each one expands to, each followed by a line break. *)
Fixpoint combined_system_text (h : Host) (vars : ExpansionVariables)
    (ts : list PromptTemplate) : string :=
  match ts with
  | [] => ""
  | t :: ts' =>
      (Expansion.text (callExpander h t vars) +:+ Js.nl)
      +:+ combined_system_text h vars ts'
  end.

(** The path a ["File <n>"] entry names: the name after the prefix,
    trimmed, without a leading [./], resolved against the directory of
    the file that owns the fragment. *)
Definition target_path (h : Host) (fragment : Fragment) (name : string) : string :=
  resolvePath h [ filename (frag_file fragment); "..";
                  Js.strip_dot_slash (Js.trim (Js.drop 5 name)) ].

(** An extracted entry that names a file which does not exist. *)
Definition names_missing_file (h : Host) (fragment : Fragment)
    (entry : string * string) : bool :=
  Js.startsWith "File " (fst entry)
  && negb (fileExists h (target_path h fragment (fst entry))).

(** The create-edit for an entry. *)
Definition create_edit_of (h : Host) (fragment : Fragment)
    (entry : string * string) : Edits :=
  let fn := target_path h fragment (fst entry) in
  CreateFileEdit ("Create " +:+ fn) fn (snd entry) true.

Definition is_create (e : Edits) : bool :=
  match e with CreateFileEdit _ _ _ _ => true | _ => false end.

Definition is_request (ev : Event) : bool :=
  match ev with EvRequest _ => true | _ => false end.

Definition is_infoCb (ev : Event) : bool :=
  match ev with EvInfoCb _ => true | _ => false end.

(** The callback is invoked after a completion request was issued. *)
Definition callback_follows_request (evs : list Event) : Prop :=
  exists before req after,
    evs = before ++ EvRequest req :: after /\ existsb is_infoCb after = true.

(** What is left of the extracted entries once file and summary entries
    are taken out. *)
Definition leftover (entries : Dict string) : Dict string :=
  List.filter (fun kv => negb (Js.startsWith "File " (fst kv))
                    && negb (String.eqb (fst kv) "SUMMARY")) entries.

(* ===================================================================== *)
(** ** A small project to evaluate the runner on *)
(* ===================================================================== *)

Module Sample.

Definition marker : string := "ERROR-4fcf4d0ab61ea0e1".

Definition src_hello : string := "$`Say hello.`".
Definition src_system : string := "$`You are concise.`".
Definition src_fail : string := "$`${env.error}boom`".
Definition src_throw : string := "throw new Error('bad system')".
Definition src_unbound : string := "$`Topic: ${env.topic}`".

Definition as_text (v : JsValue) : string :=
  match v with VStr s => s | _ => "" end.

Definition stack_throw : string :=
  lines [ "Error: bad system";
          "    at eval (eval at evalPrompt (template.js:10:5), <anonymous>:1:7)" ].

(** The behaviour of the five script sources above. *)
Definition scripts (src : string) : Script :=
  if String.eqb src src_hello then SText "Say hello." "" SDone
  else if String.eqb src src_system then SText "You are concise." "" SDone
  else if String.eqb src src_fail then
    SRead "error" (fun v => SText (as_text v +:+ "boom") "" SDone)
  else if String.eqb src src_throw then SThrow (mkError "bad system" stack_throw)
  else if String.eqb src src_unbound then
    SRead "topic" (fun v => SText ("Topic: " +:+ as_text v) "" SDone)
  else SDone.

Definition template (id title src : string) (model : option string)
    (system : option (list string)) : PromptTemplate :=
  {| id := id; title := title; jsSource := src; model := model;
     temperature := None; maxTokens := None; system := system;
     categories := None; readClipboard := false |}.

Definition t_main : PromptTemplate := template "summarize" "Summarize" src_hello None None.
Definition t_fail : PromptTemplate := template "fail" "Fail" src_fail None None.
Definition t_system : PromptTemplate := template "system" "System" src_system None None.
Definition t_sys_throw : PromptTemplate :=
  template "system.bad" "Bad system" src_throw None None.
Definition t_sys_unbound : PromptTemplate :=
  template "system.topic" "Topic" src_unbound None None.
Definition t_sys_model : PromptTemplate :=
  template "system.model" "Model" src_system (Some "X") None.
Definition t_main_bad_systems : PromptTemplate :=
  template "careless" "Careless" src_hello None
    (Some ["system.bad"; "system.topic"]).
Definition t_main_sys_model : PromptTemplate :=
  template "modelled" "Modelled" src_hello None (Some ["system.model"]).

Definition templates : list PromptTemplate :=
  [ t_main; t_fail; t_system; t_sys_throw; t_sys_unbound; t_sys_model;
    t_main_bad_systems; t_main_sys_model ].

Definition project (configured_model : option string) : Project :=
  {| getTemplate := fun name =>
       List.find (fun t => String.eqb (id t) name) templates;
     allFiles := [ {| filename := "/proj/doc.md"; content := "# Doc" |} ];
     coarchJson := {| coarch_model := configured_model |} |}.

Definition fragment (configured_model : option string) : Fragment :=
  {| frag_title := "Doc";
     frag_file := {| filename := "/proj/doc.md"; content := "# Doc" |};
     frag_file_project := project configured_model;
     frag_project := project configured_model;
     references := [];
     parent := None;
     endPos := (0, 5) |}.

Definition show_number (n : JsNumber) : string :=
  if Qeq_bool n (2 # 10) then "0.2"
  else NilZero.string_of_int (Z.to_int (Qnum n)).

(** A host whose transport answers [completion], whose fenced-block
    parser finds [fenced], and whose file system has just the files
    [existing]. *)
Definition host (completion : Outcome string) (fenced : Dict string)
    (existing : Dict string) : Host :=
  {| evalPrompt := scripts;
     commentAttributes := fun _ => [];
     allChildren := fun f _ => [f];
     relativePath := fun _ to => to;
     projectFolder := "/proj";
     resolvePath := fun parts =>
       match parts with
       | [_; ".."; n] => "/proj/" +:+ n
       | [p] => p
       | _ => Js.join "/" parts
       end;
     staticVars := [ ("fence", VStr "```"); ("error", VStr marker) ];
     inspect := fun _ => "{...}";
     numberToString := show_number;
     initToken := Returns tt;
     getChatCompletions := fun _ _ => completion;
     fileExists := fun fn => bool_decide (is_Some (dict_get fn existing));
     readText := fun fn => default "" (dict_get fn existing);
     stringToPos := fun s => (0, String.length s);
     extractFenced := fun _ => {| vars := fenced |};
     renderFencedVariables := fun f => Js.join ", " (dict_keys (vars f)) |}.

(** The host of a run that gets the empty completion. *)
Definition quiet : Host := host (Returns "") [] [].

Definition options (aborted : bool) : RunTemplateOptions :=
  {| requestOptions := Some {| signal := Some {| aborted := aborted |} |};
     infoCb := true;
     opt_readClipboard := None;
     promptOptions := VUndefined |}.

Definition network_down : JsError :=
  {| name := "TypeError"; message := "fetch failed"; stack := "";
     request := None |}.

Definition too_many_requests : JsError :=
  {| name := "RequestError"; message := "too many requests"; stack := "";
     request := Some {| status := VNum (429 # 1);
                        statusText := VStr "Too Many Requests";
                        body := None |} |}.

Definition reply_foo : string :=
  lines [ "Foo:"; "```"; "bar"; "```" ].
Definition reply_fenced : string :=
  lines [ "```js"; "console.log(1)"; "```" ].
Definition reply_file : string :=
  lines [ "File ./a.txt:"; "```"; "hello"; "```" ].

(** Hosts for the runs the properties are evaluated on. *)
Definition answering_foo : Host := host (Returns reply_foo) [("Foo", "bar")] [].
Definition answering_fenced : Host := host (Returns reply_fenced) [] [].
Definition answering_file : Host :=
  host (Returns reply_file) [("File ./a.txt", "hello")] [].
Definition offline : Host := host (Throws network_down) [] [].
Definition throttled : Host := host (Throws too_many_requests) [] [].

(** The variable environment of a run of [t] on [fragment None]. *)
Definition vars_of (t : PromptTemplate) : ExpansionVariables :=
  fragmentVars quiet t templates (fragment None) VUndefined.

Definition main_vars : ExpansionVariables := vars_of t_main.

End Sample.

(* ===================================================================== *)
(** ** Notions of the further properties *)
(* ===================================================================== *)

(** The elements of [l] that are not in [seen], each at its first
    occurrence. *)
Fixpoint first_occurrences (seen l : list string) : list string :=
  match l with
  | [] => []
  | x :: l' =>
      if bool_decide (x ∈ seen) then first_occurrences seen l'
      else x :: first_occurrences (x :: seen) l'
  end.

(** The attribute names [categoryPrefix] looks up for a template: the
    dotted prefixes of [@prompt.<category>] for each category, or
    [@prompt] alone when there is no category. *)
Definition inline_prompt_names (template : PromptTemplate) : list string :=
  match categories template with
  | Some (c :: cs) =>
      concat (map (fun s => prefixes ("@prompt." +:+ s)) (c :: cs))
  | _ => ["@prompt"]
  end.

(** The texts [attrs] binds to [names], one after the other. *)
Fixpoint bound_texts (attrs : Dict string) (names : list string) : string :=
  match names with
  | [] => ""
  | n :: names' => default "" (dict_get n attrs) +:+ bound_texts attrs names'
  end.

(** The names [fragmentVars] writes itself. *)
Definition run_entries : list string :=
  ["file"; "links"; "parents"; "promptOptions"; "template"; "templates"; "vars"].

(** What the loops of [fragmentVars] keep true of [links]: no file name
    twice, and every link is a file of the project under its relative
    path, with its content. *)
Definition links_ok (h : Host) (project : Project) (links : list LinkedFile)
    : Prop :=
  NoDup (map lf_filename links)
  /\ Forall (fun lk =>
               exists f, f ∈ allFiles project
                 /\ lf_filename lk
                    = relativePath h (projectFolder h) (filename f)
                 /\ lf_content lk = content f) links.

(** An extracted entry that names an existing file and differs from its
    content. *)
Definition names_changed_file (h : Host) (fragment : Fragment)
    (entry : string * string) : bool :=
  Js.startsWith "File " (fst entry)
  && fileExists h (target_path h fragment (fst entry))
  && negb (String.eqb (readText h (target_path h fragment (fst entry)))
             (snd entry)).

(** The replace-edit for an entry. *)
Definition replace_edit_of (h : Host) (fragment : Fragment)
    (entry : string * string) : Edits :=
  let fn := target_path h fragment (fst entry) in
  ReplaceEdit ("Update " +:+ fn) fn ((0, 0), stringToPos h (readText h fn))
    (snd entry).

Definition is_replace (e : Edits) : bool :=
  match e with ReplaceEdit _ _ _ _ => true | _ => false end.

Definition is_insert (e : Edits) : bool :=
  match e with InsertEdit _ _ _ _ => true | _ => false end.

(** An extracted entry that names a file which the fragment neither
    references nor lives in. *)
Definition names_unlinked_file (h : Host) (fragment : Fragment)
    (entry : string * string) : bool :=
  Js.startsWith "File " (fst entry)
  && negb (truthy_string
             (ref_filename
                <$> List.find
                      (fun r => String.eqb (resolvePath h [ref_filename r])
                                  (target_path h fragment (fst entry)))
                      (references fragment)))
  && negb (String.eqb (resolvePath h [filename (frag_file fragment)])
             (target_path h fragment (fst entry))).

(** The Markdown link line for an entry. *)
Definition link_line (entry : string * string) : string :=
  let n := Js.strip_dot_slash (Js.trim (Js.drop 5 (fst entry))) in
  "-   [" +:+ n +:+ "](./" +:+ n +:+ ")".

(** More runs to evaluate the runner on. *)
Module Sample2.

Definition src_dollar : string := "throw new Error('unexpected $& here')".

Definition src_kind : string := "$`Kind: ${env.constructor}`".

Definition scripts (src : string) : Script :=
  if String.eqb src src_dollar then SThrow (mkError "unexpected $& here" "")
  else if String.eqb src src_kind then
    SRead "constructor"
      (fun v => SText ("Kind: " +:+ js_String Sample.quiet v) "" SDone)
  else Sample.scripts src.

Definition t_dollar : PromptTemplate :=
  Sample.template "dollar" "Dollar" src_dollar None None.

(** [base] with another script evaluator and another token outcome. *)
Definition host_with (base : Host) (eval : string -> Script)
    (token : Outcome unit) : Host :=
  {| evalPrompt := eval;
     commentAttributes := commentAttributes base;
     allChildren := allChildren base;
     relativePath := relativePath base;
     projectFolder := projectFolder base;
     resolvePath := resolvePath base;
     staticVars := staticVars base;
     inspect := inspect base;
     numberToString := numberToString base;
     initToken := token;
     getChatCompletions := getChatCompletions base;
     fileExists := fileExists base;
     readText := readText base;
     stringToPos := stringToPos base;
     extractFenced := extractFenced base;
     renderFencedVariables := renderFencedVariables base |}.

Definition dollar : Host := host_with Sample.quiet scripts (Returns tt).

(** A template that reads a name the environment inherits. *)
Definition t_kind : PromptTemplate :=
  Sample.template "kind" "Kind" src_kind None None.

Definition inheriting : Host := host_with Sample.quiet scripts (Returns tt).

Definition token_missing : JsError :=
  {| name := "Error"; message := "no token"; stack := ""; request := None |}.

Definition no_token : Host :=
  host_with Sample.quiet Sample.scripts (Throws token_missing).

Definition options_without_callback : RunTemplateOptions :=
  {| requestOptions := None;
     infoCb := false;
     opt_readClipboard := None;
     promptOptions := VUndefined |}.

Definition reply_summary : string :=
  lines [ "File ./a.txt:"; "```"; "hello"; "```"; "SUMMARY:"; "```"; "did it";
          "```" ].

Definition answering_summary : Host :=
  Sample.host (Returns reply_summary)
    [("File ./a.txt", "hello"); ("SUMMARY", "did it")] [].

(** A template that asks for the clipboard, and options with a reader of
    it with the given outcome. *)
Definition t_clip : PromptTemplate :=
  {| id := "paste"; title := "Paste"; jsSource := Sample.src_hello;
     model := None; temperature := None; maxTokens := None; system := None;
     categories := None; readClipboard := true |}.

Definition options_with_clipboard (clip : Outcome string) : RunTemplateOptions :=
  {| requestOptions := None;
     infoCb := true;
     opt_readClipboard := Some clip;
     promptOptions := VUndefined |}.

Definition clipboard_denied : JsError :=
  {| name := "Error"; message := "clipboard denied"; stack := "";
     request := None |}.

(** A template whose first system template is not in the project. *)
Definition t_lost_system : PromptTemplate :=
  Sample.template "lost" "Lost" Sample.src_hello None
    (Some ["system.lost"; "system"]).

(** The request of the run of [Sample.t_main]. *)
Definition hello_request : ChatRequest :=
  {| req_model := defaultModel;
     req_temperature := defaultTemperature;
     req_max_tokens := defaultMaxTokens;
     messages :=
       [ {| role := "system";
            msg_content := lines ["You are concise."; ""; ""; ""] |};
         {| role := "user";
            msg_content := lines [""; "Say hello."; ""; ""] |} ] |}.

End Sample2.

(* ===================================================================== *)
(** ** Strings *)
(* ===================================================================== *)

Section StringFacts.

Lemma sapp_nil_l (s : string) : "" +:+ s = s.
Proof. reflexivity. Qed.

Lemma sapp_cons (c : ascii) (s t : string) :
  String c s +:+ t = String c (s +:+ t).
Proof. reflexivity. Qed.

Lemma sapp_nil_r (s : string) : s +:+ "" = s.
Proof. induction s as [|c s IH]; [done|]. by rewrite sapp_cons, IH. Qed.

Lemma sapp_assoc (a b c : string) : (a +:+ b) +:+ c = a +:+ (b +:+ c).
Proof.
  induction a as [|x a IH]; [done|]. by rewrite !sapp_cons, IH.
Qed.

Lemma prefix_app (p t : string) : String.prefix p (p +:+ t) = true.
Proof.
  induction p as [|c p IH]; [by destruct t|].
  rewrite sapp_cons. simpl. by destruct (ascii_dec c c).
Qed.

Lemma prefix_split (p s : string) :
  String.prefix p s = true -> s = p +:+ Js.drop (String.length p) s.
Proof.
  revert s. induction p as [|c p IH]; intros s Hp; [done|].
  destruct s as [|d s]; [done|]. simpl in Hp.
  destruct (ascii_dec c d) as [->|]; [|done].
  rewrite sapp_cons. simpl. f_equal. by apply IH.
Qed.

Lemma indexOf_unfold (m s : string) :
  Js.indexOf m s =
  if String.prefix m s then Some 0
  else match s with
       | String _ s' => S <$> Js.indexOf m s'
       | "" => None
       end.
Proof. by destruct s. Qed.

(** [indexOf] finds the first occurrence: the text splits around it. *)
Lemma indexOf_split (m s : string) (i : nat) :
  Js.indexOf m s = Some i ->
  s = Js.take i s +:+ m +:+ Js.drop (i + String.length m) s.
Proof.
  revert i. induction s as [|c s IH]; intros i; rewrite indexOf_unfold.
  - destruct (String.prefix m "") eqn:Hp; [|done].
    intros [= <-]. apply prefix_split in Hp. exact Hp.
  - destruct (String.prefix m (String c s)) eqn:Hp.
    + intros [= <-]. apply prefix_split in Hp. exact Hp.
    + destruct (Js.indexOf m s) as [j|] eqn:Hj; [|done].
      intros [= <-]. simpl. rewrite sapp_cons. f_equal. by apply IH.
Qed.

(** A text that contains [m] has an occurrence, and [indexOf] returns
    one that starts no later. *)
Lemma indexOf_contains (m pre post : string) :
  exists i, Js.indexOf m (pre +:+ m +:+ post) = Some i
            /\ i <= String.length pre.
Proof.
  induction pre as [|c pre IH]; rewrite indexOf_unfold.
  - exists 0. rewrite sapp_nil_l, prefix_app. split; [done|]. simpl. lia.
  - rewrite sapp_cons.
    destruct (String.prefix m (String c (pre +:+ m +:+ post))).
    + exists 0. split; [done|lia].
    + destruct IH as (i & -> & Hi). exists (S i). split; [done|simpl; lia].
Qed.

(** The primitives on the inputs the source comments and the
    specification give. *)

Example prefixes_example :
  prefixes "foo.bar.baz" = ["foo"; "foo.bar"; "foo.bar.baz"].
Proof. reflexivity. Qed.

Example trimNewlines_example :
  Js.trimNewlines (lines [""; ""; "a"; ""; "b"; ""; ""]) = lines ["a"; ""; "b"].
Proof. reflexivity. Qed.

Example numberedFenceMD_example :
  numberedFenceMD (lines ["a"; "b"]) "js"
  = lines [""; fence +:+ "js"; "  1: a"; "  2: b"; fence; ""].
Proof. reflexivity. Qed.

Example Object_entries_example :
  Object_entries
    [("b", 1); ("10", 2); ("2", 3); ("01", 4); ("0", 5); ("-1", 6);
     ("4294967295", 7); ("4294967294", 8)]
  = [("0", 5); ("2", 3); ("10", 2); ("4294967294", 8);
     ("b", 1); ("01", 4); ("-1", 6); ("4294967295", 7)].
Proof. reflexivity. Qed.

Example replace_first_only :
  Js.replace "@@errors@@" "E" "a @@errors@@ b @@errors@@" = "a E b @@errors@@".
Proof. reflexivity. Qed.

Example final_text_single_entry : final_text "ignored" [("Foo", "bar")] = "bar".
Proof. reflexivity. Qed.

Example final_text_fence :
  final_text (lines ["```js"; "console.log(1)"; "```"]) [] = "console.log(1)".
Proof. reflexivity. Qed.

Example final_text_two_entries :
  final_text " raw " [("Foo", "bar"); ("Baz", "qux")] = "raw".
Proof. reflexivity. Qed.

Example stack_location :
  StackRegex.exec Sample.stack_throw = Some ("1", "7").
Proof. reflexivity. Qed.

End StringFacts.

(* ===================================================================== *)
(** ** The entries of an object *)
(* ===================================================================== *)

Section EntriesFacts.
Context {V : Type}.

Lemma insert_entry_In (i : N) (kv : string * V) (l : list (N * (string * V)))
    (x : N * (string * V)) :
  In x (insert_entry i kv l) <-> x = (i, kv) \/ In x l.
Proof.
  induction l as [|[j y] l IH]; simpl.
  - split; [intros [<-|[]]; by left|intros [->|[]]; by left].
  - destruct (i <? j)%N; simpl.
    + split; (intros [H|H]; [by left|by right]).
    + rewrite IH.
      split; (intros [H|[H|H]]; [right; by left|by left|right; by right]).
Qed.

Lemma indexed_entries_In (d : Dict V) (x : N * (string * V)) :
  In x (indexed_entries d)
  <-> In (snd x) d /\ array_index (fst (snd x)) = Some (fst x).
Proof.
  induction d as [|kv d IH]; simpl; [by intuition|].
  destruct (array_index (fst kv)) as [i|] eqn:Hi.
  - rewrite insert_entry_In, IH. split.
    + intros [->|[Hin Hidx]]; simpl; [by split; [left|]|by split; [right|]].
    + intros [[Heq|Hin] Hidx]; [|by right].
      left. destruct x as [j y]. simpl in Heq, Hidx. subst y.
      rewrite Hi in Hidx. by injection Hidx as ->.
  - rewrite IH. split.
    + intros [Hin Hidx]. by split; [right|].
    + intros [[Heq|Hin] Hidx]; [|done].
      rewrite <- Heq, Hi in Hidx. discriminate Hidx.
Qed.

(** [Object.entries] lists the properties of the object, each once. *)
Lemma Object_entries_In (d : Dict V) (kv : string * V) :
  In kv (Object_entries d) <-> In kv d.
Proof.
  unfold Object_entries. rewrite in_app_iff, in_map_iff, List.filter_In. split.
  - intros [(x & <- & Hx)|[Hin _]]; [|done].
    by apply indexed_entries_In in Hx as [Hin _].
  - intros Hin. destruct (array_index (fst kv)) as [i|] eqn:Hi.
    + left. exists (i, kv). split; [done|]. by apply indexed_entries_In.
    + right. split; [done|].
      rewrite bool_decide_eq_false_2; [done|]. by intros [? [=]].
Qed.

Lemma insert_entry_perm (i : N) (kv : string * V)
    (l : list (N * (string * V))) :
  map snd (insert_entry i kv l) ≡ₚ kv :: map snd l.
Proof.
  induction l as [|[j y] l IH]; simpl; [done|].
  destruct (i <? j)%N; simpl; [done|].
  rewrite IH. apply Permutation_swap.
Qed.

Lemma Object_entries_perm (d : Dict V) : Object_entries d ≡ₚ d.
Proof.
  unfold Object_entries. induction d as [|kv d IH]; simpl; [done|].
  destruct (array_index (fst kv)) as [i|] eqn:Hi.
  - rewrite bool_decide_eq_true_2 by (by eexists). simpl.
    rewrite insert_entry_perm. simpl. by rewrite IH.
  - rewrite bool_decide_eq_false_2 by (by intros [? [=]]). simpl.
    rewrite <- Permutation_middle. by rewrite IH.
Qed.

Lemma Object_entries_NoDup_keys (d : Dict V) :
  NoDup (dict_keys d) -> NoDup (dict_keys (Object_entries d)).
Proof.
  unfold dict_keys. intros Hnodup. by rewrite Object_entries_perm.
Qed.

(** Among properties whose key is no array index, [Object.entries] keeps
    the order of insertion. *)
Lemma Object_entries_filter (P : string * V -> bool) (d : Dict V) :
  (forall kv, P kv = true -> array_index (fst kv) = None) ->
  List.filter P (Object_entries d) = List.filter P d.
Proof.
  intros HP. unfold Object_entries. rewrite List.filter_app.
  assert (Hfirst : List.filter P (map snd (indexed_entries d)) = []).
  { assert (Hall : forall x, In x (indexed_entries d) ->
                     array_index (fst (snd x)) = Some (fst x)).
    { intros x Hx. by apply indexed_entries_In in Hx as [_ Hx]. }
    induction (indexed_entries d) as [|x l IHl]; simpl; [done|].
    destruct (P (snd x)) eqn:HPx.
    - apply HP in HPx. rewrite (Hall x) in HPx by (by left). done.
    - apply IHl. intros y Hy. apply Hall. by right. }
  rewrite Hfirst. simpl. clear Hfirst.
  induction d as [|kv d IH]; simpl; [done|].
  destruct (P kv) eqn:HPkv.
  - rewrite (HP kv HPkv).
    rewrite bool_decide_eq_false_2 by (by intros [? [=]]). simpl.
    by rewrite HPkv, IH.
  - destruct (negb _); simpl; by rewrite ?HPkv, IH.
Qed.

Lemma Object_entries_dict_get (k : string) (d : Dict V) :
  array_index k = None -> dict_get k (Object_entries d) = dict_get k d.
Proof.
  intros Hk. unfold Object_entries.
  assert (Hfirst : forall (l : list (N * (string * V))) (rest : Dict V),
             (forall x, In x l -> array_index (fst (snd x)) = Some (fst x)) ->
             dict_get k (map snd l ++ rest) = dict_get k rest).
  { induction l as [|x l IHl]; intros rest Hall; simpl; [done|].
    destruct x as [i [k' v]]. simpl.
    destruct (String.eqb_spec k k') as [<-|_].
    - specialize (Hall (i, (k, v)) (or_introl eq_refl)). simpl in Hall.
      congruence.
    - apply IHl. intros y Hy. apply Hall. by right. }
  rewrite Hfirst by (intros x Hx; by apply indexed_entries_In in Hx as [_ Hx]).
  induction d as [|[k' v] d IH]; simpl; [done|].
  destruct (String.eqb_spec k k') as [<-|Hne].
  - rewrite Hk. rewrite bool_decide_eq_false_2 by (by intros [? [=]]). simpl.
    by rewrite String.eqb_refl.
  - destruct (negb _); simpl; [|exact IH].
    destruct (String.eqb_spec k k'); [done|exact IH].
Qed.

End EntriesFacts.

(** The name of a file entry is no array index. *)
Lemma file_name_no_index (name : string) :
  Js.startsWith "File " name = true -> array_index name = None.
Proof.
  destruct name as [|c rest]; [done|].
  unfold Js.startsWith. cbn [String.prefix].
  destruct (ascii_dec "F" c) as [<-|_]; [|done].
  intros _. reflexivity.
Qed.

(* ===================================================================== *)
(** ** The expander *)
(* ===================================================================== *)

Section ExpanderFacts.

Lemma take_length_le (n : nat) (s : string) : String.length (Js.take n s) <= n.
Proof.
  revert s. induction n as [|n IH]; intros [|c s]; simpl; try lia.
  specialize (IH s). lia.
Qed.

(** The occurrence [indexOf] returns is the first one. *)
Lemma indexOf_first (m s : string) (i : nat) :
  Js.indexOf m s = Some i ->
  forall p q, s = p +:+ m +:+ q -> i <= String.length p.
Proof.
  intros Hi p q ->.
  destruct (indexOf_contains m p q) as (i' & Hi' & Hle). congruence.
Qed.

(** [first_line] is the text up to the first line break. *)
Lemma first_line_spec (s : string) :
  (s = Js.first_line s \/ exists rest, s = Js.first_line s +:+ Js.nl +:+ rest)
  /\ Js.indexOf Js.nl (Js.first_line s) = None.
Proof.
  unfold Js.first_line. induction s as [|c s [IHcut IHnone]].
  - split; [by left|done].
  - cbn [Js.span]. destruct (Js.is_nl c) eqn:Hc; cbn [negb].
    + apply bool_decide_eq_true_1 in Hc. subst c. cbn [fst]. split; [|done].
      right. exists s. by rewrite sapp_nil_l.
    + apply bool_decide_eq_false_1 in Hc.
      destruct (Js.span (fun c => negb (Js.is_nl c)) s) as [a b] eqn:Hspan.
      cbn [fst] in *. split.
      * destruct IHcut as [Hs|[rest Hs]].
        -- left. by rewrite <- Hs.
        -- right. exists rest. by rewrite sapp_cons, <- Hs.
      * rewrite indexOf_unfold, IHnone. unfold Js.nl. cbn [String.prefix].
        destruct (ascii_dec "010" c) as [Heq|_]; [by subst c|done].
Qed.

(** What is already in [errors] when a script starts stays in front; it
    has no influence on anything else. *)
Lemma runScript_errors_frame (vars : ExpansionVariables) (s : Script) :
  forall (l e1 e2 : string) (su : bool) (t : string),
    runScript vars s (Expansion.mk l (e1 +:+ e2) su t)
    = let '(st', thrown) := runScript vars s (Expansion.mk l e2 su t) in
      (Expansion.mk (Expansion.logs st') (e1 +:+ Expansion.errors st')
         (Expansion.success st') (Expansion.text st'), thrown).
Proof.
  induction s as [|prop k IH|body stk k IH|msg k IH|e]; intros l e1 e2 su t.
  - reflexivity.
  - simpl. unfold env_get.
    destruct (js_get prop vars); simpl; rewrite ?sapp_assoc; apply IH.
  - simpl. destruct (ctx_text vars body t) as [pt [m|]]; simpl.
    + reflexivity.
    + apply IH.
  - simpl. apply IH.
  - reflexivity.
Qed.

Lemma expandScript_errors_frame (vars : ExpansionVariables) (s : Script)
    (l e1 e2 : string) (su : bool) (t : string) :
  expandScript vars s (Expansion.mk l (e1 +:+ e2) su t)
  = let r := expandScript vars s (Expansion.mk l e2 su t) in
    Expansion.mk (Expansion.logs r) (e1 +:+ Expansion.errors r)
      (Expansion.success r) (Expansion.text r).
Proof.
  unfold expandScript. rewrite runScript_errors_frame.
  destruct (runScript vars s (Expansion.mk l e2 su t)) as [st' [e|]];
    simpl; [|done].
  unfold expander_catch. simpl. by rewrite !sapp_assoc.
Qed.

(** C8. A read of [env.<name>] for a name that the environment does not
    bind and that is none of the names every object inherits adds the
    line [-  `env.<name>` not defined] to the errors and yields the empty
    string: the expansion goes on as the rest of the script does with the
    empty string, with the same logs, success flag and emitted text, and
    with the line in front of whatever errors the rest records. *)
Theorem unbound_read_is_recorded_and_expansion_continues
    (vars : ExpansionVariables) (name : string) (k : JsValue -> Script)
    (st : Expansion.t) :
  dict_get name vars = None ->
  dict_get name Object_prototype = None ->
  let rest :=
    expandScript vars (k (VStr ""))
      (Expansion.mk (Expansion.logs st) "" (Expansion.success st)
         (Expansion.text st)) in
  expandScript vars (SRead name k) st
  = Expansion.mk (Expansion.logs rest)
      (Expansion.errors st +:+ "-  `env." +:+ name +:+ "` not defined"
       +:+ Js.nl +:+ Expansion.errors rest)
      (Expansion.success rest) (Expansion.text rest).
Proof.
  intros Hunbound Hown rest. subst rest.
  pose proof (expandScript_errors_frame vars (k (VStr "")) (Expansion.logs st)
                (Expansion.errors st +:+ "-  `env." +:+ name
                 +:+ "` not defined" +:+ Js.nl) ""
                (Expansion.success st) (Expansion.text st)) as Hframe.
  rewrite sapp_nil_r in Hframe. simpl in Hframe.
  rewrite !sapp_assoc in Hframe. rewrite <- Hframe.
  unfold expandScript at 1. simpl.
  unfold env_get, js_get, inherited. rewrite Hunbound, Hown.
  reflexivity.
Qed.

Lemma unbound_read_is_recorded_and_expansion_continues_witness :
  dict_get "topic" (staticVars Sample.quiet) = None
  /\ dict_get "topic" Object_prototype = None
  /\ callExpander Sample.quiet Sample.t_sys_unbound
       (staticVars Sample.quiet)
     = Expansion.mk "" ("-  `env.topic` not defined" +:+ Js.nl) true
         ("Topic: " +:+ Js.nl +:+ Js.nl).
Proof.
  split; [reflexivity|]. split; [reflexivity|].
  unfold callExpander.
  change (evalPrompt Sample.quiet (jsSource Sample.t_sys_unbound))
    with (SRead "topic"
            (fun v => SText ("Topic: " +:+ Sample.as_text v) "" SDone)).
  rewrite (unbound_read_is_recorded_and_expansion_continues
             (staticVars Sample.quiet) "topic"
             (fun v => SText ("Topic: " +:+ Sample.as_text v) "" SDone)
             (Expansion.mk "" "" true "") eq_refl eq_refl).
  reflexivity.
Defined.

(** C8 as stated fails: the environment does not bind [constructor], yet
    a read of [env.constructor] records no error and does not yield the
    empty string; it yields the function every object inherits under
    that name, which the emitted text shows. *)
Lemma inherited_name_is_read_without_error :
  dict_get "constructor" (staticVars Sample.quiet) = None
  /\ env_get (staticVars Sample.quiet) "constructor" ""
     = (VFun "Object", "")
  /\ callExpander Sample2.inheriting Sample2.t_kind (staticVars Sample.quiet)
     = Expansion.mk "" "" true
         ("Kind: function Object() { [native code] }" +:+ Js.nl +:+ Js.nl).
Proof. split; [reflexivity|]. split; reflexivity. Qed.

(** C6. When a text segment that contains the error marker is emitted,
    the expansion fails at once. [pre'] and [post'] are the text before
    and after the first occurrence of the marker in the segment, and
    [msg] is [post'] up to its first line break. The success flag is
    false and the errors end with the entry of an [Error] whose message
    is [msg], followed by the place in the prompt if the stack of the
    exception tells it. [st] holds the local variables of the expander
    at the moment the segment is emitted, [stack_here] is the stack an
    exception thrown there has, [k] is the rest of the script, which is
    not run: the logs are those of [st]. *)
Theorem error_marker_fails_expansion
    (vars : ExpansionVariables) (marker pre post stack_here : string)
    (k : Script) (st : Expansion.t) :
  vars_error vars = Some marker ->
  exists pre' post' msg,
    pre +:+ marker +:+ post = pre' +:+ marker +:+ post'
    /\ (forall p q, pre +:+ marker +:+ post = p +:+ marker +:+ q ->
          String.length pre' <= String.length p)
    /\ (post' = msg \/ exists rest, post' = msg +:+ Js.nl +:+ rest)
    /\ Js.indexOf Js.nl msg = None
    /\ let r := expandScript vars
                  (SText (pre +:+ marker +:+ post) stack_here k) st in
       Expansion.success r = false
       /\ Expansion.errors r
          = Expansion.errors st +:+ "-  Error: " +:+ msg
            +:+ match StackRegex.exec stack_here with
                | Some (l, c) => " at prompt line " +:+ l +:+ ", column " +:+ c
                | None => ""
                end
            +:+ Js.nl
       /\ Expansion.logs r = Expansion.logs st.
Proof.
  intros Hmarker.
  destruct (indexOf_contains marker pre post) as (i & Hi & Hle).
  exists (Js.take i (pre +:+ marker +:+ post)),
         (Js.drop (i + String.length marker) (pre +:+ marker +:+ post)),
         (Js.first_line
            (Js.drop (i + String.length marker) (pre +:+ marker +:+ post))).
  split; [by apply indexOf_split|].
  split.
  { intros p q Hsplit.
    pose proof (take_length_le i (pre +:+ marker +:+ post)).
    pose proof (indexOf_first marker _ i Hi p q Hsplit). lia. }
  destruct (first_line_spec
              (Js.drop (i + String.length marker) (pre +:+ marker +:+ post)))
    as [Hcut Hnone].
  split; [exact Hcut|]. split; [exact Hnone|].
  unfold expandScript. simpl. unfold ctx_text. rewrite Hmarker, Hi.
  simpl. split; [done|]. split; [|done]. by rewrite ?sapp_assoc.
Qed.

(** The failing sample template emits the marker followed by [boom]. *)
Lemma error_marker_fails_expansion_witness :
  vars_error (staticVars Sample.quiet) = Some Sample.marker
  /\ Expansion.success
       (callExpander Sample.quiet Sample.t_fail
          (staticVars Sample.quiet)) = false
  /\ Expansion.errors
       (callExpander Sample.quiet Sample.t_fail
          (staticVars Sample.quiet))
     = "-  Error: boom" +:+ Js.nl.
Proof.
  split; [reflexivity|].
  destruct (error_marker_fails_expansion
              (staticVars Sample.quiet)
              Sample.marker "" "boom" "" SDone (Expansion.mk "" "" true "")
              eq_refl) as (pre' & post' & msg & _ & _ & _ & _ & Hsuccess & _).
  split; [exact Hsuccess|reflexivity].
Defined.

(** The message stops at the line break: what follows it in the segment
    is in no error entry. *)
Example error_message_is_cut_at_the_line_break :
  Expansion.errors
    (expandScript (staticVars Sample.quiet)
       (SText ("x" +:+ Sample.marker +:+ "boom" +:+ Js.nl +:+ "second line")
          "" SDone)
       (Expansion.mk "" "" true ""))
  = "-  Error: boom" +:+ Js.nl.
Proof. reflexivity. Qed.

End ExpanderFacts.

(* ===================================================================== *)
(** ** The system-prompt resolver *)
(* ===================================================================== *)

Section ExpandTemplateFacts.
Context (h : Host).

Lemma nullish_assoc {A : Type} (a b c : option A) :
  (a ?? b) ?? c = a ?? (b ?? c).
Proof. by destruct a. Qed.

(** The loop over the system templates, in one step: it ends normally
    exactly when the system templates resolve, and then it has appended
    their expanded texts and filled each still undefined parameter with
    the first value a system template defines. *)
Lemma systems_loop_resolved (fragment : Fragment) (vars : ExpansionVariables)
    (systems : list string) :
  forall (i : nat) (st : Sys.t),
    match resolved_systems (frag_file_project fragment) i systems with
    | Some ts =>
        exists st',
          systems_loop h fragment vars i systems st = Returns st'
          /\ Sys.systemText st'
             = Sys.systemText st +:+ combined_system_text h vars ts
          /\ Sys.model st' = Sys.model st ?? first_defined (map model ts)
          /\ Sys.temperature st'
             = Sys.temperature st ?? first_defined (map temperature ts)
          /\ Sys.max_tokens st'
             = Sys.max_tokens st ?? first_defined (map maxTokens ts)
    | None =>
        systems_loop h fragment vars i systems st = Throws assertion_failed
    end.
Proof.
  induction systems as [|name rest IH]; intros i st.
  - simpl. exists st. rewrite sapp_nil_r. by destruct st as [? ? [] [] []].
  - simpl.
    assert (Hstep : forall (shown : string) (t : PromptTemplate) (st0 : Sys.t),
               Sys.systemText st0 = Sys.systemText st ->
               Sys.model st0 = Sys.model st ->
               Sys.temperature st0 = Sys.temperature st ->
               Sys.max_tokens st0 = Sys.max_tokens st ->
               match cons t <$> resolved_systems (frag_file_project fragment)
                                  (S i) rest with
               | Some ts =>
                   exists st',
                     systems_loop h fragment vars (S i) rest
                       (system_step h vars shown t st0) = Returns st'
                     /\ Sys.systemText st'
                        = Sys.systemText st +:+ combined_system_text h vars ts
                     /\ Sys.model st'
                        = Sys.model st ?? first_defined (map model ts)
                     /\ Sys.temperature st'
                        = Sys.temperature st
                          ?? first_defined (map temperature ts)
                     /\ Sys.max_tokens st'
                        = Sys.max_tokens st ?? first_defined (map maxTokens ts)
               | None =>
                   systems_loop h fragment vars (S i) rest
                     (system_step h vars shown t st0) = Throws assertion_failed
               end).
    { intros shown t st0 Htext Hmodel Htemp Hmax.
      specialize (IH (S i) (system_step h vars shown t st0)).
      destruct (resolved_systems (frag_file_project fragment) (S i) rest)
        as [ts|]; simpl; [|exact IH].
      destruct IH as (st' & Hloop & Htext' & Hmodel' & Htemp' & Hmax').
      exists st'. split; [exact Hloop|].
      rewrite Htext', Hmodel', Htemp', Hmax'. simpl.
      rewrite Htext, Hmodel, Htemp, Hmax, !nullish_assoc, !sapp_assoc.
      done. }
    destruct (getTemplate (frag_file_project fragment) name) as [t|].
    + by apply Hstep.
    + destruct (0 <? i).
      * specialize (IH (S i)
                      (if negb (Js.is_empty name)
                       then Sys.mk (Sys.trace st +:+ Js.nl +:+ "** error: `"
                                    +:+ name +:+ "` not found" +:+ Js.nl)
                              (Sys.systemText st) (Sys.model st)
                              (Sys.temperature st) (Sys.max_tokens st)
                       else st)).
        destruct (resolved_systems (frag_file_project fragment) (S i) rest)
          as [ts|]; [|exact IH].
        destruct IH as (st' & Hloop & Htext' & Hmodel' & Htemp' & Hmax').
        exists st'. split; [exact Hloop|].
        rewrite Htext', Hmodel', Htemp', Hmax'.
        by destruct (negb (Js.is_empty name)).
      * destruct (getTemplate (frag_file_project fragment) "system") as [t|];
          [|done].
        apply Hstep; by destruct (negb (Js.is_empty name)).
Qed.

(** When the system templates resolve, [expandTemplate] returns; what it
    returns is put together from the expansion of the main template and
    the outcome of the loop over the system templates. *)
Lemma expandTemplate_resolved (template : PromptTemplate) (fragment : Fragment)
    (vars : ExpansionVariables) (ts : list PromptTemplate) :
  resolved_systems (frag_file_project fragment) 0 (systems_of template)
  = Some ts ->
  exists r,
    expandTemplate h template fragment vars = Returns r
    /\ Expanded.expanded r
       = snd (categoryPrefix template (commentAttributes h fragment))
         +:+ Js.nl +:+ Expansion.text (callExpander h template vars)
    /\ Expanded.errors r = Expansion.errors (callExpander h template vars)
    /\ Expanded.success r = Expansion.success (callExpander h template vars)
    /\ Expanded.systemText r = combined_system_text h vars ts
    /\ Expanded.model r
       = default defaultModel
           (model template ?? first_defined (map model ts)
            ?? coarch_model (coarchJson (frag_project fragment)))
    /\ Expanded.temperature r
       = default defaultTemperature
           (temperature template ?? first_defined (map temperature ts))
    /\ Expanded.max_tokens r
       = default defaultMaxTokens
           (maxTokens template ?? first_defined (map maxTokens ts)).
Proof.
  intros Hres. unfold expandTemplate.
  destruct (categoryPrefix template (commentAttributes h fragment))
    as [cat_info cat_text].
  match goal with
  | |- context [systems_loop h fragment vars 0 (systems_of template) ?st] =>
      pose proof (systems_loop_resolved fragment vars (systems_of template)
                    0 st) as Hloop
  end.
  rewrite Hres in Hloop.
  destruct Hloop as (st' & -> & Htext & Hmodel & Htemp & Hmax).
  eexists. split; [reflexivity|]. simpl.
  rewrite Htext, Hmodel, Htemp, Hmax. simpl.
  repeat split; reflexivity.
Qed.

(** C5, as the code has it. The model is the main template's, else the
    first one a resolved system template defines, else the one the
    project configuration gives, else ["gpt-4"]; temperature and max
    tokens are the main template's, else the first a resolved system
    template defines, else 0.2 and 800. *)
Theorem request_parameters_precedence
    (template : PromptTemplate) (fragment : Fragment)
    (vars : ExpansionVariables) (ts : list PromptTemplate) :
  resolved_systems (frag_file_project fragment) 0 (systems_of template)
  = Some ts ->
  exists r,
    expandTemplate h template fragment vars = Returns r
    /\ Expanded.model r
       = default "gpt-4"
           (model template ?? first_defined (map model ts)
            ?? coarch_model (coarchJson (frag_project fragment)))
    /\ Expanded.temperature r
       = default (2 # 10)%Q
           (temperature template ?? first_defined (map temperature ts))
    /\ Expanded.max_tokens r
       = default (800 # 1)%Q
           (maxTokens template ?? first_defined (map maxTokens ts)).
Proof.
  intros Hres.
  destruct (expandTemplate_resolved template fragment vars ts Hres)
    as (r & Hr & _ & _ & _ & _ & Hmodel & Htemp & Hmax).
  by exists r.
Qed.

End ExpandTemplateFacts.

(** A main template without a model whose system template defines model
    ["X"]: the resolved model is ["X"]. *)
Lemma request_parameters_precedence_witness :
  resolved_systems (frag_file_project (Sample.fragment None)) 0
    (systems_of Sample.t_main_sys_model)
  = Some [Sample.t_system; Sample.t_sys_model]
  /\ exists r,
       expandTemplate Sample.quiet Sample.t_main_sys_model
         (Sample.fragment None) (staticVars Sample.quiet) = Returns r
       /\ Expanded.model r = "X"
       /\ Expanded.temperature r = (2 # 10)%Q
       /\ Expanded.max_tokens r = (800 # 1)%Q.
Proof.
  split; [reflexivity|].
  destruct (request_parameters_precedence Sample.quiet
              Sample.t_main_sys_model (Sample.fragment None)
              (staticVars Sample.quiet)
              [Sample.t_system; Sample.t_sys_model] eq_refl)
    as (r & Hr & Hmodel & Htemp & Hmax).
  exists r. split; [exact Hr|]. split; [exact Hmodel|]. split; [exact Htemp|exact Hmax].
Defined.

(** C5 as stated fails: neither the main template nor its system template
    defines a model, the project configuration names ["gpt-3.5-turbo"],
    and the resolved model is that one, not the fixed default. *)
Lemma configured_model_precedes_default :
  model Sample.t_main = None
  /\ resolved_systems (frag_file_project (Sample.fragment (Some "gpt-3.5-turbo")))
       0 (systems_of Sample.t_main) = Some [Sample.t_system]
  /\ first_defined (map model [Sample.t_system]) = None
  /\ match expandTemplate Sample.quiet Sample.t_main
             (Sample.fragment (Some "gpt-3.5-turbo")) (staticVars Sample.quiet)
     with
     | Returns r =>
         Expanded.model r = "gpt-3.5-turbo" /\ Expanded.model r <> "gpt-4"
     | Throws _ => False
     end.
Proof.
  split; [reflexivity|]. split; [reflexivity|]. split; [reflexivity|].
  vm_compute. split; [reflexivity|discriminate].
Qed.

(* ===================================================================== *)
(** ** The run *)
(* ===================================================================== *)

Section RunTemplateFacts.
Context (h : Host).

(** Building the variable environment causes no event. *)
Lemma run_vars_no_events (template : PromptTemplate)
    (templates : list PromptTemplate) (fragment : Fragment)
    (options : RunTemplateOptions) :
  fst (run_vars h template templates fragment options) = [].
Proof.
  unfold run_vars.
  destruct (truthy _ && readClipboard template); [|done].
  destruct (opt_readClipboard options) as [[s|e]|]; done.
Qed.

(** The loop over the extracted entries always runs to its end: it logs
    every name and folds [entry_step] over the entries. *)
Lemma entries_loop_fold (fragment : Fragment) (entries : list (string * string)) :
  forall st : Loop.t,
    entries_loop h fragment entries st
    = (map (fun e => EvConsoleLog (fst e)) entries,
       Returns (fold_left (fun st e => entry_step h fragment (fst e) (snd e) st)
                  entries st)).
Proof.
  induction entries as [|[name val] rest IH]; intros st; [done|].
  simpl. by rewrite IH.
Qed.

(** A run up to the point where the expansion is known. *)
Lemma runTemplate_locals_expanded (template : PromptTemplate)
    (templates : list PromptTemplate) (fragment : Fragment)
    (o : RunTemplateOptions) (vars : ExpansionVariables) (r : Expanded.t) :
  run_vars h template templates fragment o = ([], Returns vars) ->
  expandTemplate h template fragment vars = Returns r ->
  runTemplate_locals h template templates fragment (Some o)
  = if negb (Expanded.success r) then
      ret ({| trace := final_prompt_trace h r;
              text := "# Template failed" +:+ Js.nl +:+ "See info below."
                      +:+ Js.nl +:+ final_prompt_trace h r;
              edits := [];
              fileEdits := ∅;
              summary := None |}, None)
    else
      do text <- try_catch (request_try h o (final_prompt_trace h r) r)
                   (request_catch h o
                      (signal (default {| signal := None |} (requestOptions o)))
                      (final_prompt_trace h r));
      do res <- post_process h template fragment (final_prompt_trace h r) text;
      ret (fst res, Some (snd res)).
Proof.
  intros Hvars Hexp. unfold runTemplate_locals. rewrite Hvars. simpl.
  rewrite Hexp. simpl.
  destruct (Expanded.success r); simpl; [|done].
  by destruct (bind _ _).
Qed.


(** *** The loop over the extracted entries *)

Lemma dict_delete_not_in {V : Type} (k : string) (d : Dict V) :
  k ∉ dict_keys (dict_delete k d).
Proof.
  induction d as [|[k' v] d IH]; simpl; [apply not_elem_of_nil|].
  destruct (String.eqb_spec k k') as [->|Hne]; [done|].
  simpl. rewrite not_elem_of_cons. done.
Qed.

Lemma dict_delete_subset {V : Type} (k k' : string) (d : Dict V) :
  k' ∈ dict_keys (dict_delete k d) -> k' ∈ dict_keys d.
Proof.
  induction d as [|[k0 v] d IH]; simpl; [done|].
  destruct (String.eqb k k0); simpl; rewrite ?elem_of_cons; tauto.
Qed.

Lemma entry_step_vars_subset (fragment : Fragment) (name val k : string)
    (st : Loop.t) :
  k ∈ dict_keys (Loop.vars (entry_step h fragment name val st)) ->
  k ∈ dict_keys (Loop.vars st).
Proof.
  unfold entry_step.
  destruct (Js.startsWith "File " name); [destruct (fileExists h _);
    [destruct (negb (String.eqb _ val))|]|];
    destruct (String.eqb name "SUMMARY"); simpl; intros Hk;
    repeat (apply dict_delete_subset in Hk); done.
Qed.

Lemma entry_step_vars_removed (fragment : Fragment) (name val : string)
    (st : Loop.t) :
  Js.startsWith "File " name = true ->
  name ∉ dict_keys (Loop.vars (entry_step h fragment name val st)).
Proof.
  intros Hfile. unfold entry_step. rewrite Hfile.
  destruct (fileExists h _); [destruct (negb (String.eqb _ val))|];
    destruct (String.eqb name "SUMMARY"); simpl;
    try apply dict_delete_not_in;
    intros Hk; apply dict_delete_subset in Hk;
    by apply dict_delete_not_in in Hk.
Qed.

Lemma entry_step_creates (fragment : Fragment) (name val : string)
    (st : Loop.t) :
  List.filter is_create (Loop.edits (entry_step h fragment name val st))
  = List.filter is_create (Loop.edits st)
    ++ (if names_missing_file h fragment (name, val)
        then [create_edit_of h fragment (name, val)] else []).
Proof.
  unfold entry_step, names_missing_file, create_edit_of, target_path. simpl.
  destruct (Js.startsWith "File " name); simpl.
  - destruct (fileExists h _); [destruct (negb (String.eqb _ val))|];
      destruct (String.eqb name "SUMMARY"); simpl;
      rewrite ?List.filter_app, ?app_nil_r; done.
  - destruct (String.eqb name "SUMMARY"); simpl; by rewrite app_nil_r.
Qed.

Lemma entry_step_fileEdits_kept (fragment : Fragment) (name val fn : string)
    (st : Loop.t) :
  is_Some (Loop.fileEdits st !! fn) ->
  is_Some (Loop.fileEdits (entry_step h fragment name val st) !! fn).
Proof.
  intros Hfn. unfold entry_step.
  destruct (Js.startsWith "File " name); [destruct (fileExists h _);
    [destruct (negb (String.eqb _ val))|]|];
    destruct (String.eqb name "SUMMARY"); simpl;
    rewrite ?lookup_insert_is_Some'; auto.
Qed.

Lemma entry_step_fileEdits_added (fragment : Fragment) (name val : string)
    (st : Loop.t) :
  names_missing_file h fragment (name, val) = true ->
  is_Some (Loop.fileEdits (entry_step h fragment name val st)
           !! target_path h fragment name).
Proof.
  unfold names_missing_file, entry_step, target_path. simpl.
  intros [Hfile Hmissing%negb_true_iff]%andb_true_iff.
  rewrite Hfile, Hmissing.
  destruct (String.eqb name "SUMMARY"); simpl;
    rewrite lookup_insert_is_Some'; auto.
Qed.

(** The record of a file that does not exist has no content before. *)
Lemma entry_step_fileEdits_missing (fragment : Fragment)
    (name val fn : string) (st : Loop.t) :
  fileExists h fn = false ->
  (forall fe, Loop.fileEdits st !! fn = Some fe -> before fe = None) ->
  forall fe,
    Loop.fileEdits (entry_step h fragment name val st) !! fn = Some fe ->
    before fe = None.
Proof.
  intros Hmissing Hst fe. unfold entry_step.
  destruct (Js.startsWith "File " name); [|
    destruct (String.eqb name "SUMMARY"); simpl; apply Hst].
  generalize (resolvePath h [ filename (frag_file fragment); "..";
                              Js.strip_dot_slash (Js.trim (Js.drop 5 name)) ]).
  intros target.
  destruct (fileExists h target) eqn:Hex;
    [destruct (negb (String.eqb _ val))|];
    destruct (String.eqb name "SUMMARY"); simpl; try apply Hst;
    rewrite lookup_insert; case_decide as Heq;
    try (rewrite Heq in Hex; congruence); try apply Hst; by intros [= <-].
Qed.

Section Loop.
Context (fragment : Fragment).

Lemma loop_creates (entries : list (string * string)) :
  forall st : Loop.t,
    List.filter is_create (Loop.edits (fold_left (fun st e => entry_step h fragment (fst e) (snd e) st)
                  entries st))
    = List.filter is_create (Loop.edits st)
      ++ map (create_edit_of h fragment)
           (List.filter (names_missing_file h fragment) entries).
Proof.
  induction entries as [|[name val] rest IH]; intros st; simpl.
  - by rewrite app_nil_r.
  - rewrite IH. simpl. rewrite entry_step_creates.
    destruct (names_missing_file h fragment (name, val)); simpl;
      by rewrite <- app_assoc.
Qed.

Lemma loop_vars_subset (entries : list (string * string)) (k : string) :
  forall st : Loop.t,
    k ∈ dict_keys (Loop.vars (fold_left (fun st e => entry_step h fragment (fst e) (snd e) st)
                  entries st)) ->
    k ∈ dict_keys (Loop.vars st).
Proof.
  induction entries as [|[name val] rest IH]; intros st; simpl; [done|].
  intros Hk%IH. by apply entry_step_vars_subset in Hk.
Qed.

Lemma loop_vars_removed (entries : list (string * string))
    (name val : string) :
  (name, val) ∈ entries ->
  Js.startsWith "File " name = true ->
  forall st : Loop.t,
    name ∉ dict_keys (Loop.vars (fold_left (fun st e => entry_step h fragment (fst e) (snd e) st)
                  entries st)).
Proof.
  intros Hin Hfile.
  induction entries as [|[name' val'] rest IH]; intros st;
    [by apply elem_of_nil in Hin|].
  simpl. apply elem_of_cons in Hin as [[= <- <-]|Hin]; [|by apply IH].
  intros Hk%loop_vars_subset. by apply entry_step_vars_removed in Hk.
Qed.

Lemma loop_fileEdits_kept (entries : list (string * string)) (fn : string) :
  forall st : Loop.t,
    is_Some (Loop.fileEdits st !! fn) ->
    is_Some (Loop.fileEdits (fold_left (fun st e => entry_step h fragment (fst e) (snd e) st)
                  entries st) !! fn).
Proof.
  induction entries as [|[name val] rest IH]; intros st Hfn; simpl; [done|].
  apply IH. by apply entry_step_fileEdits_kept.
Qed.

Lemma loop_fileEdits_added (entries : list (string * string))
    (name val : string) :
  (name, val) ∈ entries ->
  names_missing_file h fragment (name, val) = true ->
  forall st : Loop.t,
    is_Some (Loop.fileEdits (fold_left (fun st e => entry_step h fragment (fst e) (snd e) st)
                  entries st)
             !! target_path h fragment name).
Proof.
  intros Hin Hmissing.
  induction entries as [|[name' val'] rest IH]; intros st;
    [by apply elem_of_nil in Hin|].
  simpl. apply elem_of_cons in Hin as [[= <- <-]|Hin]; [|by apply IH].
  apply loop_fileEdits_kept. by apply entry_step_fileEdits_added.
Qed.

Lemma loop_fileEdits_missing (entries : list (string * string))
    (fn : string) :
  fileExists h fn = false ->
  forall st : Loop.t,
    (forall fe, Loop.fileEdits st !! fn = Some fe -> before fe = None) ->
    forall fe,
      Loop.fileEdits (fold_left (fun st e => entry_step h fragment (fst e) (snd e) st)
                  entries st) !! fn = Some fe ->
      before fe = None.
Proof.
  intros Hmissing.
  induction entries as [|[name val] rest IH]; intros st Hst; simpl; [done|].
  apply IH. by apply entry_step_fileEdits_missing.
Qed.

End Loop.

(** The run from the completion text on always returns; the object it
    returns keeps the completion text it was built with. *)
Lemma post_process_returns (template : PromptTemplate) (fragment : Fragment)
    (trace0 raw : string) :
  exists evs st res,
    entries_loop h fragment (Object_entries (vars (extractFenced h raw)))
      (Loop.mk [] ∅ [] None (vars (extractFenced h raw)))
    = (evs, Returns st)
    /\ post_process h template fragment trace0 raw
       = (evs, Returns (res, final_text raw (Loop.vars st)))
    /\ text res = raw
    /\ fileEdits res = Loop.fileEdits st
    /\ summary res = Loop.summary st
    /\ List.filter is_create (edits res) = List.filter is_create (Loop.edits st).
Proof.
  unfold post_process. rewrite entries_loop_fold. simpl.
  eexists _, _, _. split; [reflexivity|].
  rewrite app_nil_r. split; [reflexivity|]. simpl.
  repeat split.
  destruct (negb (bool_decide (length (Loop.links _) = 0))); [|done].
  by rewrite List.filter_app, app_nil_r.
Qed.

(** A run whose expansion succeeded, up to the outcome of the request. *)
Lemma request_try_events (o : RunTemplateOptions) (trace0 : string)
    (r : Expanded.t) :
  initToken h = Returns tt ->
  request_try h o trace0 r
  = ((if infoCb o
      then [EvInfoCb (partial_response trace0 "> Waiting for response...")]
      else [])
     ++ [EvRequest (completion_request r)],
     getChatCompletions h (completion_request r) o).
Proof.
  intros Hinit. unfold request_try, infoCb_if_any. rewrite Hinit.
  destruct (infoCb o); simpl;
    by destruct (getChatCompletions h (completion_request r) o).
Qed.

(** C3. When a run succeeds, the [text] of the object it returns is the
    completion text as the transport returned it. *)
Theorem returned_text_is_raw_completion
    (template : PromptTemplate) (templates : list PromptTemplate)
    (fragment : Fragment) (o : RunTemplateOptions)
    (vars : ExpansionVariables) (r : Expanded.t) (raw : string) :
  run_vars h template templates fragment o = ([], Returns vars) ->
  expandTemplate h template fragment vars = Returns r ->
  Expanded.success r = true ->
  initToken h = Returns tt ->
  getChatCompletions h (completion_request r) o = Returns raw ->
  exists evs res,
    runTemplate h template templates fragment (Some o) = (evs, Returns res)
    /\ text res = raw.
Proof.
  intros Hvars Hexp Hok Hinit Hraw. unfold runTemplate.
  rewrite (runTemplate_locals_expanded _ _ _ _ _ _ Hvars Hexp), Hok.
  rewrite (request_try_events _ _ _ Hinit), Hraw. simpl.
  destruct (post_process_returns template fragment (final_prompt_trace h r) raw)
    as (evs & st & res & _ & -> & Htext & _).
  simpl. eexists _, res. split; [reflexivity|exact Htext].
Qed.

(** C4, as the code has it. When the completion request throws and a
    callback was supplied, the run has issued exactly one request; for a
    structured request error, and for any other exception once the
    signal is aborted, the callback is then invoked with the trace so
    far, extended by the section for that failure; for any other
    exception nothing more happens. In each case the exception of the
    request is thrown to the caller. *)
Theorem request_failure_is_reported_then_rethrown
    (template : PromptTemplate) (templates : list PromptTemplate)
    (fragment : Fragment) (o : RunTemplateOptions)
    (vars : ExpansionVariables) (r : Expanded.t) (e : JsError) :
  run_vars h template templates fragment o = ([], Returns vars) ->
  expandTemplate h template fragment vars = Returns r ->
  Expanded.success r = true ->
  infoCb o = true ->
  initToken h = Returns tt ->
  getChatCompletions h (completion_request r) o = Throws e ->
  runTemplate h template templates fragment (Some o)
  = ([ EvInfoCb (partial_response (final_prompt_trace h r)
                   "> Waiting for response...");
       EvRequest (completion_request r) ]
     ++ match request e with
        | Some info =>
            [ EvInfoCb (partial_response
                          (request_error_trace h (final_prompt_trace h r) info)
                          "Request error") ]
        | None =>
            if signal_aborted
                 (signal (default {| signal := None |} (requestOptions o)))
            then [ EvInfoCb (partial_response
                               (cancelled_trace (final_prompt_trace h r))
                               "Request cancelled") ]
            else []
        end,
     Throws e).
Proof.
  intros Hvars Hexp Hok Hcb Hinit Hthrow. unfold runTemplate.
  rewrite (runTemplate_locals_expanded _ _ _ _ _ _ Hvars Hexp), Hok.
  rewrite (request_try_events _ _ _ Hinit), Hthrow, Hcb. simpl.
  unfold request_catch, infoCb_call. rewrite Hcb.
  destruct (request e) as [info|]; [done|].
  by destruct (signal_aborted _).
Qed.

(** A run whose expansion succeeded issues its completion request,
    whatever the transport answers. *)
Lemma successful_expansion_issues_request
    (template : PromptTemplate) (templates : list PromptTemplate)
    (fragment : Fragment) (o : RunTemplateOptions)
    (vars : ExpansionVariables) (r : Expanded.t) :
  run_vars h template templates fragment o = ([], Returns vars) ->
  expandTemplate h template fragment vars = Returns r ->
  Expanded.success r = true ->
  initToken h = Returns tt ->
  EvRequest (completion_request r)
    ∈ fst (runTemplate h template templates fragment (Some o)).
Proof.
  intros Hvars Hexp Hok Hinit. unfold runTemplate.
  rewrite (runTemplate_locals_expanded _ _ _ _ _ _ Hvars Hexp), Hok.
  rewrite (request_try_events _ _ _ Hinit). simpl.
  destruct (getChatCompletions h (completion_request r) o) as [raw|e]; simpl.
  - destruct (post_process h template fragment (final_prompt_trace h r) raw)
      as [evs [[res final]|e]]; simpl; set_solver.
  - destruct (request_catch h o _ (final_prompt_trace h r) e)
      as [evs [raw|e']]; simpl; [|set_solver].
    destruct (post_process h template fragment (final_prompt_trace h r) raw)
      as [evs' [[res final]|e']]; simpl; set_solver.
Qed.

(** C10. What goes wrong while a system template is expanded is dropped:
    the combined system prompt is made of the expanded texts alone, each
    followed by a line break, and the errors and the success flag that
    [expandTemplate] returns are those of the main template, whatever
    the system templates did; so when the main template expands with
    success, the run issues its completion request. *)
Theorem system_template_errors_are_discarded
    (template : PromptTemplate) (fragment : Fragment)
    (vars : ExpansionVariables) (ts : list PromptTemplate) :
  resolved_systems (frag_file_project fragment) 0 (systems_of template)
  = Some ts ->
  exists r,
    expandTemplate h template fragment vars = Returns r
    /\ Expanded.systemText r = combined_system_text h vars ts
    /\ Expanded.errors r = Expansion.errors (callExpander h template vars)
    /\ Expanded.success r = Expansion.success (callExpander h template vars)
    /\ forall (templates : list PromptTemplate) (o : RunTemplateOptions),
         run_vars h template templates fragment o = ([], Returns vars) ->
         Expansion.success (callExpander h template vars) = true ->
         initToken h = Returns tt ->
         EvRequest (completion_request r)
           ∈ fst (runTemplate h template templates fragment (Some o)).
Proof.
  intros Hres.
  destruct (expandTemplate_resolved h template fragment vars ts Hres)
    as (r & Hr & _ & Herrors & Hsuccess & Htext & _).
  exists r. split; [exact Hr|]. split; [exact Htext|].
  split; [exact Herrors|]. split; [exact Hsuccess|].
  intros templates o Hvars Hok Hinit.
  apply successful_expansion_issues_request with (vars := vars); try done.
  by rewrite Hsuccess.
Qed.

(** C9. An extracted entry named ["File <n>"] whose target path does not
    exist: the create-edits of the result are, in order, one for each
    such entry, each with the overwrite flag and the entry's text, so
    the edit for this entry is among the edits; the file edits record
    the path with no content before; and the name is no longer in the
    extracted variable set when the loop is over. *)
Theorem missing_file_entry_yields_create_edit
    (template : PromptTemplate) (fragment : Fragment)
    (trace0 raw name val : string) :
  (name, val) ∈ vars (extractFenced h raw) ->
  Js.startsWith "File " name = true ->
  fileExists h (target_path h fragment name) = false ->
  exists evs st res,
    entries_loop h fragment (Object_entries (vars (extractFenced h raw)))
      (Loop.mk [] ∅ [] None (vars (extractFenced h raw)))
    = (evs, Returns st)
    /\ post_process h template fragment trace0 raw
       = (evs, Returns (res, final_text raw (Loop.vars st)))
    /\ List.filter is_create (edits res)
       = map (create_edit_of h fragment)
           (List.filter (names_missing_file h fragment)
              (vars (extractFenced h raw)))
    /\ CreateFileEdit ("Create " +:+ target_path h fragment name)
         (target_path h fragment name) val true ∈ edits res
    /\ (exists fe,
          fileEdits res !! target_path h fragment name = Some fe
          /\ before fe = None)
    /\ name ∉ dict_keys (Loop.vars st).
Proof.
  intros Hin Hfile Hmissing.
  assert (Hentry : names_missing_file h fragment (name, val) = true).
  { unfold names_missing_file. simpl. by rewrite Hfile, Hmissing. }
  assert (Hlisted : (name, val) ∈ Object_entries (vars (extractFenced h raw))).
  { by apply list_elem_of_In, Object_entries_In, list_elem_of_In. }
  destruct (post_process_returns template fragment trace0 raw)
    as (evs & st & res & Hloop & Hpost & _ & Hfiles & _ & Hcreates).
  exists evs, st, res. split; [exact Hloop|]. split; [exact Hpost|].
  rewrite entries_loop_fold in Hloop. injection Hloop as _ <-.
  assert (Hedits : List.filter is_create (edits res)
                   = map (create_edit_of h fragment)
                       (List.filter (names_missing_file h fragment)
                          (vars (extractFenced h raw)))).
  { rewrite Hcreates, loop_creates. simpl.
    rewrite Object_entries_filter; [done|].
    intros kv [Hkv _]%andb_true_iff. by apply file_name_no_index. }
  split; [exact Hedits|]. split; [|split].
  - assert (Hthere : In (create_edit_of h fragment (name, val))
                       (List.filter is_create (edits res))).
    { rewrite Hedits. apply in_map, List.filter_In.
      split; [by apply list_elem_of_In|exact Hentry]. }
    apply List.filter_In in Hthere as [Hthere _].
    by apply list_elem_of_In.
  - rewrite Hfiles.
    destruct (loop_fileEdits_added fragment
                (Object_entries (vars (extractFenced h raw)))
                name val Hlisted Hentry
                (Loop.mk [] ∅ [] None (vars (extractFenced h raw))))
      as [fe Hfe].
    exists fe. split; [exact Hfe|].
    apply (loop_fileEdits_missing fragment
             (Object_entries (vars (extractFenced h raw)))
             (target_path h fragment name) Hmissing
             (Loop.mk [] ∅ [] None (vars (extractFenced h raw)))); [|exact Hfe].
    intros fe'. simpl. by rewrite lookup_empty.
  - by apply loop_vars_removed with (val := val).
Qed.

End RunTemplateFacts.


Lemma returned_text_is_raw_completion_witness :
  exists r evs res,
    run_vars Sample.answering_foo Sample.t_main Sample.templates
      (Sample.fragment None) (Sample.options false)
    = ([], Returns Sample.main_vars)
    /\ expandTemplate Sample.answering_foo Sample.t_main (Sample.fragment None)
         Sample.main_vars = Returns r
    /\ Expanded.success r = true
    /\ initToken Sample.answering_foo = Returns tt
    /\ getChatCompletions Sample.answering_foo (completion_request r)
         (Sample.options false) = Returns Sample.reply_foo
    /\ runTemplate Sample.answering_foo Sample.t_main Sample.templates
         (Sample.fragment None) (Some (Sample.options false))
       = (evs, Returns res)
    /\ text res = Sample.reply_foo.
Proof.
  destruct (expandTemplate_resolved Sample.answering_foo Sample.t_main
              (Sample.fragment None) Sample.main_vars [Sample.t_system] eq_refl)
    as (r & Hexp & _ & _ & Hok & _).
  destruct (returned_text_is_raw_completion Sample.answering_foo Sample.t_main
              Sample.templates (Sample.fragment None) (Sample.options false)
              Sample.main_vars r Sample.reply_foo eq_refl Hexp Hok eq_refl eq_refl)
    as (evs & res & Hrun & Htext).
  exists r, evs, res.
  split; [reflexivity|]. split; [exact Hexp|]. split; [exact Hok|].
  split; [reflexivity|]. split; [reflexivity|]. split; [exact Hrun|exact Htext].
Defined.

(** A request that fails with a structured request error: the callback is
    invoked with the trace that ends with the request-error section, one
    request was issued, and the error is thrown to the caller. *)
Lemma request_failure_is_reported_then_rethrown_witness :
  exists r,
    run_vars Sample.throttled Sample.t_main Sample.templates
      (Sample.fragment None) (Sample.options false)
    = ([], Returns Sample.main_vars)
    /\ expandTemplate Sample.throttled Sample.t_main (Sample.fragment None)
         Sample.main_vars = Returns r
    /\ Expanded.success r = true
    /\ infoCb (Sample.options false) = true
    /\ initToken Sample.throttled = Returns tt
    /\ getChatCompletions Sample.throttled (completion_request r)
         (Sample.options false) = Throws Sample.too_many_requests
    /\ runTemplate Sample.throttled Sample.t_main Sample.templates
         (Sample.fragment None) (Some (Sample.options false))
       = ([ EvInfoCb (partial_response (final_prompt_trace Sample.throttled r)
                        "> Waiting for response...");
            EvRequest (completion_request r);
            EvInfoCb (partial_response
                        (final_prompt_trace Sample.throttled r
                         +:+ "## Request error" +:+ Js.nl +:+ Js.nl
                         +:+ "-   status: `429`, Too Many Requests" +:+ Js.nl)
                        "Request error") ],
          Throws Sample.too_many_requests).
Proof.
  destruct (expandTemplate_resolved Sample.throttled Sample.t_main
              (Sample.fragment None) Sample.main_vars [Sample.t_system] eq_refl)
    as (r & Hexp & _ & _ & Hok & _).
  exists r.
  split; [reflexivity|]. split; [exact Hexp|]. split; [exact Hok|].
  split; [reflexivity|]. split; [reflexivity|]. split; [reflexivity|].
  rewrite (request_failure_is_reported_then_rethrown Sample.throttled
             Sample.t_main Sample.templates (Sample.fragment None)
             (Sample.options false) Sample.main_vars r Sample.too_many_requests
             eq_refl Hexp Hok eq_refl eq_refl eq_refl).
  simpl. unfold request_error_trace. simpl. by rewrite !sapp_assoc.
Defined.

(** C4 as stated fails: the request throws an exception that is no
    structured request error, the signal is not aborted, a callback is
    supplied; the callback is not invoked after the request, and the
    exception is thrown to the caller. *)
Lemma other_exception_is_rethrown_without_callback :
  request Sample.network_down = None
  /\ infoCb (Sample.options false) = true
  /\ snd (runTemplate Sample.offline Sample.t_main Sample.templates
            (Sample.fragment None) (Some (Sample.options false)))
     = Throws Sample.network_down
  /\ ~ callback_follows_request
        (fst (runTemplate Sample.offline Sample.t_main Sample.templates
                (Sample.fragment None) (Some (Sample.options false)))).
Proof.
  split; [reflexivity|]. split; [reflexivity|]. split; [by vm_compute|].
  assert (Hevents : exists w q,
             fst (runTemplate Sample.offline Sample.t_main Sample.templates
                    (Sample.fragment None) (Some (Sample.options false)))
             = [EvInfoCb w; EvRequest q]).
  { eexists _, _. vm_compute. reflexivity. }
  destruct Hevents as (w & q & ->).
  intros (before & req & after & Hsplit & Hcalled).
  destruct before as [|x [|y [|z before]]]; simplify_eq/=.
Qed.

(** A response with the entry ["File ./a.txt"] and body ["hello"], in a
    project where [a.txt] does not exist: the one create-edit is the one
    for [/proj/a.txt] with text ["hello"]. *)
Lemma missing_file_entry_yields_create_edit_witness :
  ("File ./a.txt", "hello")
    ∈ vars (extractFenced Sample.answering_file Sample.reply_file)
  /\ Js.startsWith "File " "File ./a.txt" = true
  /\ fileExists Sample.answering_file
       (target_path Sample.answering_file (Sample.fragment None) "File ./a.txt")
     = false
  /\ exists evs st res,
       post_process Sample.answering_file Sample.t_main (Sample.fragment None)
         "" Sample.reply_file
       = (evs, Returns (res, final_text Sample.reply_file (Loop.vars st)))
       /\ List.filter is_create (edits res)
          = [CreateFileEdit "Create /proj/a.txt" "/proj/a.txt" "hello" true]
       /\ (exists fe, fileEdits res !! "/proj/a.txt" = Some fe
                      /\ before fe = None)
       /\ "File ./a.txt" ∉ dict_keys (Loop.vars st).
Proof.
  assert (Hin : ("File ./a.txt", "hello")
                  ∈ vars (extractFenced Sample.answering_file Sample.reply_file))
    by apply list_elem_of_here.
  split; [exact Hin|]. split; [reflexivity|]. split; [reflexivity|].
  destruct (missing_file_entry_yields_create_edit Sample.answering_file
              Sample.t_main (Sample.fragment None) "" Sample.reply_file
              "File ./a.txt" "hello" Hin eq_refl eq_refl)
    as (evs & st & res & _ & Hpost & Hcreates & _ & Hfiles & Hgone).
  exists evs, st, res.
  split; [exact Hpost|]. split; [exact Hcreates|]. split; [exact Hfiles|exact Hgone].
Defined.

(** C1 on the code. The completion names one entry, ["Foo"] with text
    ["bar"], and no file or summary entry. The local variable [text] ends
    as ["bar"], but the object that is returned was built before: its
    [text] is the whole completion. *)
Theorem single_leftover_entry_is_not_returned :
  leftover (vars (extractFenced Sample.answering_foo Sample.reply_foo))
  = [("Foo", "bar")]
  /\ match snd (runTemplate_locals Sample.answering_foo Sample.t_main
                  Sample.templates (Sample.fragment None)
                  (Some (Sample.options false))) with
     | Returns (res, final) =>
         final = Some "bar" /\ text res = Sample.reply_foo /\ text res <> "bar"
     | Throws _ => False
     end
  /\ match snd (runTemplate Sample.answering_foo Sample.t_main
                  Sample.templates (Sample.fragment None)
                  (Some (Sample.options false))) with
     | Returns res => text res = Sample.reply_foo /\ text res <> "bar"
     | Throws _ => False
     end.
Proof.
  split; [reflexivity|]. split; vm_compute; repeat split; discriminate.
Qed.

(** C2 on the code. The completion is one fenced block. The local variable
    [text] ends as the body of the block, but the returned object keeps
    the completion with its fence. *)
Theorem fence_is_not_stripped_from_returned_text :
  match snd (runTemplate_locals Sample.answering_fenced Sample.t_main
               Sample.templates (Sample.fragment None)
               (Some (Sample.options false))) with
  | Returns (res, final) =>
      final = Some "console.log(1)"
      /\ text res = Sample.reply_fenced
      /\ text res <> "console.log(1)"
  | Throws _ => False
  end
  /\ match snd (runTemplate Sample.answering_fenced Sample.t_main
                  Sample.templates (Sample.fragment None)
                  (Some (Sample.options false))) with
     | Returns res =>
         text res = Sample.reply_fenced /\ text res <> "console.log(1)"
     | Throws _ => False
     end.
Proof.
  split; vm_compute; repeat split; discriminate.
Qed.

(** A main template whose system templates throw and read an unbound
    variable: the expansion succeeds without errors, and the run issues
    its completion request. *)
Lemma system_template_errors_are_discarded_witness :
  resolved_systems (frag_file_project (Sample.fragment None)) 0
    (systems_of Sample.t_main_bad_systems)
  = Some [Sample.t_system; Sample.t_sys_throw; Sample.t_sys_unbound]
  /\ Expansion.success (callExpander Sample.quiet Sample.t_sys_throw
                          (Sample.vars_of Sample.t_main_bad_systems)) = false
  /\ Expansion.errors (callExpander Sample.quiet Sample.t_sys_unbound
                         (Sample.vars_of Sample.t_main_bad_systems))
     = "-  `env.topic` not defined" +:+ Js.nl
  /\ exists r,
       expandTemplate Sample.quiet Sample.t_main_bad_systems
         (Sample.fragment None) (Sample.vars_of Sample.t_main_bad_systems) = Returns r
       /\ Expanded.errors r = ""
       /\ Expanded.success r = true
       /\ EvRequest (completion_request r)
            ∈ fst (runTemplate Sample.quiet Sample.t_main_bad_systems
                     Sample.templates (Sample.fragment None)
                     (Some (Sample.options false))).
Proof.
  split; [reflexivity|]. split; [reflexivity|]. split; [reflexivity|].
  destruct (system_template_errors_are_discarded Sample.quiet
              Sample.t_main_bad_systems (Sample.fragment None)
              (Sample.vars_of Sample.t_main_bad_systems)
              [Sample.t_system; Sample.t_sys_throw; Sample.t_sys_unbound]
              eq_refl) as (r & Hr & _ & Herrors & Hsuccess & Hrequest).
  exists r. split; [exact Hr|]. split; [exact Herrors|]. split; [exact Hsuccess|].
  apply Hrequest; reflexivity.
Defined.

(* ===================================================================== *)
(** ** Further properties: strings *)
(* ===================================================================== *)

Section Trimming.
Context (p : ascii -> bool).

Lemma drop_while_clean (s : string) :
  match Js.drop_while p s with String c _ => p c = false | "" => True end.
Proof.
  induction s as [|c s IH]; simpl; [done|].
  destruct (p c) eqn:Hc; [exact IH|exact Hc].
Qed.

Lemma drop_while_id (s : string) :
  match s with String c _ => p c = false | "" => True end ->
  Js.drop_while p s = s.
Proof. destruct s as [|c s]; simpl; [done|]. by intros ->. Qed.

Lemma drop_while_end_head (s : string) :
  match s with String c _ => p c = false | "" => True end ->
  match Js.drop_while_end p s with String c _ => p c = false | "" => True end.
Proof. destruct s as [|c s]; simpl; [done|]. intros Hc. by rewrite Hc. Qed.

Lemma drop_while_end_last (s t : string) (c : ascii) :
  Js.drop_while_end p s = t +:+ String c "" -> p c = false.
Proof.
  revert t. induction s as [|a s IH]; intros t; simpl.
  - by destruct t.
  - destruct (p a && Js.is_empty (Js.drop_while_end p s)) eqn:Hstop.
    + by destruct t.
    + destruct t as [|b t]; rewrite ?sapp_nil_l, ?sapp_cons.
      * intros [= -> Hrest]. rewrite Hrest in Hstop. simpl in Hstop.
        by rewrite andb_true_r in Hstop.
      * intros [= _ Hrest]. by apply IH in Hrest.
Qed.

Lemma drop_while_end_idem (s : string) :
  Js.drop_while_end p (Js.drop_while_end p s) = Js.drop_while_end p s.
Proof.
  induction s as [|a s IH]; simpl; [done|].
  destruct (p a && Js.is_empty (Js.drop_while_end p s)) eqn:Hstop; [done|].
  simpl. by rewrite IH, Hstop.
Qed.

Lemma trim_with_idem (s : string) :
  Js.drop_while_end p (Js.drop_while p (Js.drop_while_end p (Js.drop_while p s)))
  = Js.drop_while_end p (Js.drop_while p s).
Proof.
  rewrite (drop_while_id (Js.drop_while_end p (Js.drop_while p s))).
  - apply drop_while_end_idem.
  - apply drop_while_end_head, drop_while_clean.
Qed.
End Trimming.

(** X1. Trimming line breaks twice is the same as trimming once, and
    what is left neither starts nor ends with a line break. *)
Theorem trimNewlines_idempotent_and_clean (s : string) :
  Js.trimNewlines (Js.trimNewlines s) = Js.trimNewlines s
  /\ (forall t, Js.trimNewlines s <> Js.nl +:+ t)
  /\ (forall t, Js.trimNewlines s <> t +:+ Js.nl).
Proof.
  split; [apply trim_with_idem|]. split; intros t Heq.
  - pose proof (drop_while_end_head Js.is_nl _ (drop_while_clean Js.is_nl s)) as H.
    unfold Js.trimNewlines in Heq. by rewrite Heq in H.
  - by apply drop_while_end_last in Heq.
Qed.

Section Splitting.

Lemma rev_app_app (a b c : string) :
  String.rev_app a b +:+ c = String.rev_app a (b +:+ c).
Proof.
  revert b. induction a as [|x a IH]; intros b; simpl; [done|].
  by rewrite IH.
Qed.

Lemma split_go_nonempty (sep : ascii) (cur s : string) :
  Js.split_go sep cur s <> [].
Proof.
  revert cur. induction s as [|c s IH]; intros cur; simpl; [done|].
  destruct (bool_decide (c = sep)); [done|apply IH].
Qed.

Lemma join_cons (sep p : string) (ps : list string) :
  ps <> [] -> Js.join sep (p :: ps) = p +:+ sep +:+ Js.join sep ps.
Proof. by destruct ps. Qed.

(** Joining the parts of a split with the separator gives the text back. *)
Lemma join_split_go (sep : ascii) (cur s : string) :
  Js.join (String sep "") (Js.split_go sep cur s) = String.rev cur +:+ s.
Proof.
  revert cur. induction s as [|c s IH]; intros cur; simpl.
  - by rewrite sapp_nil_r.
  - case_bool_decide as Hc.
    + subst c. rewrite join_cons by apply split_go_nonempty.
      rewrite IH. reflexivity.
    + rewrite IH. unfold String.rev. simpl.
      rewrite !rev_app_app. reflexivity.
Qed.

Lemma join_split (sep : ascii) (s : string) :
  Js.join (String sep "") (Js.split sep s) = s.
Proof. apply join_split_go. Qed.

Lemma split_go_length (sep : ascii) (cur s : string) :
  length (Js.split_go sep cur s)
  = S (length (List.filter (Ascii.eqb sep) (String.list_ascii_of_string s))).
Proof.
  revert cur. induction s as [|c s IH]; intros cur; simpl; [done|].
  case_bool_decide as Hc.
  - subst c. rewrite Ascii.eqb_refl. simpl. by rewrite IH.
  - destruct (Ascii.eqb_spec sep c) as [->|_]; [done|]. apply IH.
Qed.

Lemma prefix_app_same (a b c : string) :
  String.prefix (a +:+ b) (a +:+ c) = String.prefix b c.
Proof.
  induction a as [|x a IH]; [done|].
  rewrite !sapp_cons. simpl. by destruct (ascii_dec x x).
Qed.

Lemma join_firstn_prefix (sep : string) (l : list string) (i : nat) :
  String.prefix (Js.join sep (firstn (S i) l)) (Js.join sep l) = true.
Proof.
  revert i. induction l as [|x l IH]; intros i; [done|].
  destruct l as [|y l].
  - destruct i; simpl; rewrite <- (sapp_nil_r x) at 2; apply prefix_app.
  - destruct i as [|i].
    + change (firstn 1 (x :: y :: l)) with [x].
      rewrite (join_cons sep x (y :: l)) by done. apply prefix_app.
    + change (firstn (S (S i)) (x :: y :: l)) with (x :: y :: firstn i l).
      rewrite (join_cons sep x (y :: l)), (join_cons sep x (y :: firstn i l))
        by done.
      rewrite !prefix_app_same. apply (IH i).
Qed.

End Splitting.

(** X2. The prefixes of a dotted name end with the name itself, there is
    one for each dot and one more, and each is a prefix of the name. *)
Theorem prefixes_end_with_the_word (w : string) :
  last (prefixes w) = Some w
  /\ length (prefixes w)
     = S (length (List.filter (Ascii.eqb ".") (String.list_ascii_of_string w)))
  /\ Forall (fun p => String.prefix p w = true) (prefixes w).
Proof.
  unfold prefixes.
  pose proof (join_split "." w) as Hjoin.
  pose proof (split_go_length "." "" w) as Hlen.
  fold (Js.split "." w) in Hlen.
  set (words := Js.split "." w) in *.
  split; [|split].
  - rewrite Hlen, seq_S, map_app. cbn [map]. rewrite last_snoc.
    rewrite Nat.add_0_l, Nat.add_1_r, <- Hlen, firstn_all. by rewrite Hjoin.
  - by rewrite length_map, length_seq.
  - apply Forall_forall. intros p0 (i & -> & _)%list_elem_of_fmap.
    rewrite Nat.add_1_r. rewrite <- Hjoin. apply join_firstn_prefix.
Qed.

Section TrimMore.
Context (p : ascii -> bool).

Lemma drop_while_app_all (ws s : string) :
  Js.drop_while p ws = "" -> Js.drop_while p (ws +:+ s) = Js.drop_while p s.
Proof.
  induction ws as [|c ws IH]; [done|]. rewrite sapp_cons. simpl.
  destruct (p c); [exact IH|done].
Qed.

Lemma drop_while_end_all (ws : string) :
  Js.drop_while p ws = "" -> Js.drop_while_end p ws = "".
Proof.
  induction ws as [|c ws IH]; [done|]. simpl.
  destruct (p c); [|done]. intros Hws. by rewrite (IH Hws).
Qed.

Lemma drop_while_end_app_all (s ws : string) :
  Js.drop_while p ws = "" ->
  Js.drop_while_end p (s +:+ ws) = Js.drop_while_end p s.
Proof.
  intros Hws. induction s as [|c s IH].
  - rewrite sapp_nil_l. by apply drop_while_end_all.
  - rewrite sapp_cons. simpl. by rewrite IH.
Qed.

Lemma drop_while_end_cons_keep (c : ascii) (s : string) :
  p c = false ->
  Js.drop_while_end p (String c s) = String c (Js.drop_while_end p s).
Proof. intros Hc. simpl. by rewrite Hc. Qed.
Lemma drop_while_length (s : string) :
  String.length (Js.drop_while p s) <= String.length s.
Proof.
  induction s as [|c s IH]; simpl; [done|]. destruct (p c); simpl; lia.
Qed.

Lemma drop_while_fixed_head (c : ascii) (s : string) :
  Js.drop_while p (String c s) = String c s -> p c = false.
Proof.
  simpl. destruct (p c); [|done]. intros Heq.
  pose proof (drop_while_length s) as Hlen. rewrite Heq in Hlen.
  simpl in Hlen. lia.
Qed.
End TrimMore.

(** X17. The name of a ["File "] entry is read without the white space around
    it and without one leading [./]: all these spellings name the path of
    [n]. *)
Theorem file_entry_names_are_normalised
    (h : Host) (fragment : Fragment) (ws1 ws2 n : string) :
  Js.drop_while Js.is_white ws1 = "" ->
  Js.drop_while Js.is_white ws2 = "" ->
  Js.drop_while Js.is_white n = n ->
  Js.drop_while_end Js.is_white n = n ->
  target_path h fragment ("File " +:+ ws1 +:+ "./" +:+ n +:+ ws2)
  = resolvePath h [filename (frag_file fragment); ".."; n]
  /\ (Js.startsWith "./" n = false ->
      target_path h fragment ("File " +:+ ws1 +:+ n +:+ ws2)
      = resolvePath h [filename (frag_file fragment); ".."; n]).
Proof.
  intros Hws1 Hws2 Hhead Htail. unfold target_path.
  change (Js.drop 5 ("File " +:+ ws1 +:+ "./" +:+ n +:+ ws2))
    with (ws1 +:+ "./" +:+ n +:+ ws2).
  change (Js.drop 5 ("File " +:+ ws1 +:+ n +:+ ws2)) with (ws1 +:+ n +:+ ws2).
  unfold Js.trim.
  split.
  - rewrite (drop_while_app_all _ ws1 _ Hws1).
    change ("./" +:+ n +:+ ws2) with (String "." (String "/" (n +:+ ws2))).
    change (Js.drop_while Js.is_white (String "." (String "/" (n +:+ ws2))))
      with (String "." (String "/" (n +:+ ws2))).
    rewrite !drop_while_end_cons_keep by done.
    rewrite drop_while_end_app_all, Htail by done.
    by replace (Js.strip_dot_slash (String "." (String "/" n))) with n
      by (by destruct n).
  - intros Hplain. destruct n as [|c n].
    + rewrite sapp_nil_l, (drop_while_app_all _ ws1 ws2 Hws1), Hws2. done.
    + pose proof (drop_while_fixed_head _ _ _ Hhead) as Hc.
      rewrite (drop_while_app_all _ ws1 _ Hws1).
      rewrite sapp_cons. cbn [Js.drop_while]. rewrite Hc.
      rewrite <- sapp_cons, drop_while_end_app_all, Htail by done.
      unfold Js.strip_dot_slash. by rewrite Hplain.
Qed.


(* ===================================================================== *)
(** ** Further properties: the expander and the trace *)
(* ===================================================================== *)

Section ExpanderMore.

Lemma runScript_appends (vars : ExpansionVariables) (s : Script) :
  forall st : Expansion.t,
    exists l e t,
      fst (runScript vars s st)
      = Expansion.mk (Expansion.logs st +:+ l) (Expansion.errors st +:+ e)
          (Expansion.success st) (Expansion.text st +:+ t).
Proof.
  induction s as [|prop k IH|body stk k IH|msg k IH|e]; intros st.
  - exists "", "", "". rewrite !sapp_nil_r. by destruct st.
  - simpl. unfold env_get.
    destruct (js_get prop vars) eqn:Hv; simpl;
      match goal with
      | |- context [runScript vars (k ?v) ?st0] =>
          destruct (IH v st0) as (l & e & t & ->)
      end; simpl; rewrite ?sapp_assoc; eauto.
  - simpl. unfold ctx_text.
    set (seg := Js.drop_while Js.is_nl (Js.drop_while_end Js.is_nl body)
                +:+ Js.nl +:+ Js.nl).
    assert (Hgo : exists l e t,
               fst (runScript vars k
                      (Expansion.mk (Expansion.logs st) (Expansion.errors st)
                         (Expansion.success st) (Expansion.text st +:+ seg)))
               = Expansion.mk (Expansion.logs st +:+ l)
                   (Expansion.errors st +:+ e) (Expansion.success st)
                   (Expansion.text st +:+ t)).
    { destruct (IH (Expansion.mk (Expansion.logs st) (Expansion.errors st)
                      (Expansion.success st) (Expansion.text st +:+ seg)))
        as (l & e & t & ->). simpl. rewrite sapp_assoc. eauto. }
    assert (Hstop : exists l e t,
               Expansion.mk (Expansion.logs st) (Expansion.errors st)
                 (Expansion.success st) (Expansion.text st +:+ seg)
               = Expansion.mk (Expansion.logs st +:+ l)
                   (Expansion.errors st +:+ e) (Expansion.success st)
                   (Expansion.text st +:+ t)).
    { exists "", "", seg. by rewrite !sapp_nil_r. }
    destruct (vars_error vars) as [marker|];
      [destruct (Js.indexOf marker body)|]; simpl; assumption.
  - simpl.
    match goal with
    | |- context [runScript vars k ?st0] =>
        destruct (IH st0) as (l & e & t & ->)
    end; simpl; rewrite ?sapp_assoc; eauto.
  - exists "", "", "". rewrite !sapp_nil_r. by destruct st.
Qed.

(** X3. Whatever a script does, the expander only adds to the logs, the
    errors and the prompt text it has, and it never turns a failure into
    a success. *)
Theorem expander_only_appends (vars : ExpansionVariables) (s : Script)
    (st : Expansion.t) :
  exists l e t,
    Expansion.logs (expandScript vars s st) = Expansion.logs st +:+ l
    /\ Expansion.errors (expandScript vars s st) = Expansion.errors st +:+ e
    /\ Expansion.text (expandScript vars s st) = Expansion.text st +:+ t
    /\ (Expansion.success (expandScript vars s st) = true ->
        Expansion.success st = true).
Proof.
  unfold expandScript.
  destruct (runScript_appends vars s st) as (l & e & t & Hrun).
  destruct (runScript vars s st) as [st' [err|]]; simpl in *; subst st'.
  - eexists l, _, t. simpl. rewrite sapp_assoc. repeat split; done.
  - exists l, e, t. simpl. repeat split; done.
Qed.

End ExpanderMore.

Section ResolverMore.
Context (h : Host).

Lemma resolved_systems_later (project : Project) (systems : list string) :
  forall i, is_Some (resolved_systems project (S i) systems).
Proof.
  induction systems as [|n rest IH]; intros i; simpl; [done|].
  destruct (IH (S i)) as [ts ->].
  destruct (getTemplate project n); simpl; eauto.
Qed.

Lemma systems_of_head (template : PromptTemplate) :
  exists n rest, systems_of template = n :: rest.
Proof.
  unfold systems_of. case_bool_decide as Hin; [|eauto].
  destruct (default [] (system template)) as [|n rest]; [|eauto].
  by apply elem_of_nil in Hin.
Qed.

(** A known name in a later place of the list resolves to its template. *)
Lemma resolved_systems_member (project : Project) (name : string)
    (t : PromptTemplate) (systems : list string) :
  getTemplate project name = Some t ->
  name ∈ systems ->
  forall i, exists ts,
    resolved_systems project (S i) systems = Some ts /\ t ∈ ts.
Proof.
  intros Hname Hin. induction systems as [|n rest IH]; intros i;
    [by apply elem_of_nil in Hin|].
  simpl. destruct (resolved_systems_later project rest (S i)) as [ts Hts].
  rewrite Hts. apply elem_of_cons in Hin as [<-|Hin].
  - rewrite Hname. simpl. eexists. split; [done|]. apply list_elem_of_here.
  - destruct (IH Hin (S i)) as (ts' & Hts' & Hmem).
    rewrite Hts in Hts'. injection Hts' as <-.
    destruct (getTemplate project n); simpl; eexists; split; try done.
    by apply list_elem_of_further.
Qed.

(** X21. When the first system template of the list is unknown and the
    list names the canonical one as well, the canonical template stands
    in for the unknown one and is expanded again in its own place: its
    text is in the system prompt twice. *)
Theorem unknown_first_system_template_doubles_the_canonical_one
    (template : PromptTemplate) (fragment : Fragment)
    (vars : ExpansionVariables) (n : string) (rest : list string)
    (sys : PromptTemplate) :
  system template = Some (n :: rest) ->
  "system" ∈ rest ->
  getTemplate (frag_file_project fragment) n = None ->
  getTemplate (frag_file_project fragment) "system" = Some sys ->
  exists r ts,
    expandTemplate h template fragment vars = Returns r
    /\ sys ∈ ts
    /\ Expanded.systemText r
       = (Expansion.text (callExpander h sys vars) +:+ Js.nl)
         +:+ combined_system_text h vars ts.
Proof.
  intros Hsystem Hin Hn Hsys.
  assert (Hof : systems_of template = n :: rest).
  { unfold systems_of. rewrite Hsystem. simpl.
    rewrite bool_decide_eq_true_2; [done|]. by apply list_elem_of_further. }
  destruct (resolved_systems_member (frag_file_project fragment) "system" sys
              rest Hsys Hin 0) as (ts & Hts & Hmem).
  assert (Hres : resolved_systems (frag_file_project fragment) 0
                   (systems_of template) = Some (sys :: ts)).
  { rewrite Hof. simpl. by rewrite Hn, Hsys, Hts. }
  destruct (expandTemplate_resolved h template fragment vars (sys :: ts) Hres)
    as (r & Hr & _ & _ & _ & Htext & _).
  exists r, ts. split; [exact Hr|]. split; [exact Hmem|exact Htext].
Qed.

(** X4. [expandTemplate] throws only when its assertion fails, and that is
    when neither the first system template of the list nor the canonical
    one is known to the project. *)
Theorem expandTemplate_throws_iff_no_system_template
    (template : PromptTemplate) (fragment : Fragment)
    (vars : ExpansionVariables) :
  (forall e, expandTemplate h template fragment vars = Throws e ->
             e = assertion_failed)
  /\ (expandTemplate h template fragment vars = Throws assertion_failed
      <-> exists n,
            head (systems_of template) = Some n
            /\ getTemplate (frag_file_project fragment) n = None
            /\ getTemplate (frag_file_project fragment) "system" = None).
Proof.
  destruct (systems_of_head template) as (n & rest & Hsys).
  assert (Hcases :
    (getTemplate (frag_file_project fragment) n = None
     /\ getTemplate (frag_file_project fragment) "system" = None
     /\ expandTemplate h template fragment vars = Throws assertion_failed)
    \/ ((is_Some (getTemplate (frag_file_project fragment) n)
         \/ is_Some (getTemplate (frag_file_project fragment) "system"))
        /\ exists r, expandTemplate h template fragment vars = Returns r)).
  { destruct (resolved_systems (frag_file_project fragment) 0
                (systems_of template)) as [ts|] eqn:Hres.
    - right.
      destruct (expandTemplate_resolved h template fragment vars ts Hres)
        as (r & Hr & _). split; [|by exists r].
      rewrite Hsys in Hres. simpl in Hres.
      destruct (getTemplate (frag_file_project fragment) n); [by left; eauto|].
      destruct (getTemplate (frag_file_project fragment) "system");
        [by right; eauto|done].
    - left. unfold expandTemplate.
      destruct (categoryPrefix template (commentAttributes h fragment))
        as [cat_info cat_text].
      match goal with
      | |- context [systems_loop h fragment vars 0 (systems_of template) ?st] =>
          pose proof (systems_loop_resolved h fragment vars
                        (systems_of template) 0 st) as Hloop
      end.
      rewrite Hres in Hloop. rewrite Hloop.
      rewrite Hsys in Hres. simpl in Hres.
      destruct (getTemplate (frag_file_project fragment) n).
      { by destruct (resolved_systems_later (frag_file_project fragment) rest 0)
          as [ts Hts]; rewrite Hts in Hres. }
      destruct (getTemplate (frag_file_project fragment) "system"); [|done].
      by destruct (resolved_systems_later (frag_file_project fragment) rest 0)
        as [ts Hts]; rewrite Hts in Hres. }
  rewrite Hsys. simpl.
  destruct Hcases as [(Hn & Hs & Hthrow)|[Hknown (r & Hr)]].
  - split; [intros e; rewrite Hthrow; by intros [= <-]|].
    split; [intros _; by exists n|done].
  - split; [intros e; by rewrite Hr|].
    split; [by rewrite Hr|].
    intros (n' & [= <-] & Hn & Hs). rewrite Hn, Hs in Hknown.
    destruct Hknown as [[? [=]]|[? [=]]].
Qed.

End ResolverMore.

Section TraceMore.
Context (h : Host).

Lemma prefix_cons (a c : ascii) (p s : string) :
  String.prefix (String a p) (String c s)
  = if ascii_dec a c then String.prefix p s else false.
Proof. reflexivity. Qed.

Lemma indexOf_char_cons (a c : ascii) (s : string) :
  Js.indexOf (String a "") (String c s) = None ->
  a <> c /\ Js.indexOf (String a "") s = None.
Proof.
  rewrite indexOf_unfold, prefix_cons.
  destruct (ascii_dec a c) as [->|Hc]; [by destruct s|].
  by destruct (Js.indexOf (String a "") s).
Qed.

(** A replacement text without a dollar sign stands for itself. *)
Lemma substitution_plain (matched before after repl : string) :
  Js.indexOf "$" repl = None ->
  Js.substitution matched before after repl = repl.
Proof.
  induction repl as [|c r IH]; [done|].
  intros [Hc Hr]%indexOf_char_cons. cbn [Js.substitution].
  rewrite bool_decide_eq_false_2 by done. by rewrite IH.
Qed.

(** [$&] in a replacement text stands for the matched text. *)
Lemma substitution_match (matched before after a b : string) :
  Js.indexOf "$" a = None ->
  Js.indexOf "$" b = None ->
  Js.substitution matched before after (a +:+ "$&" +:+ b)
  = a +:+ matched +:+ b.
Proof.
  intros Ha Hb. induction a as [|c a IH].
  - rewrite !sapp_nil_l.
    change (Js.substitution matched before after ("$&" +:+ b))
      with (matched +:+ Js.substitution matched before after b).
    by rewrite substitution_plain.
  - apply indexOf_char_cons in Ha as [Hc Ha].
    rewrite !sapp_cons. cbn [Js.substitution].
    rewrite bool_decide_eq_false_2 by done. f_equal. exact (IH Ha).
Qed.

(** The first occurrence of a pattern that comes after text without the
    pattern's first character. *)
Lemma indexOf_after (a : ascii) (pat pre post : string) :
  Js.indexOf (String a "") pre = None ->
  Js.indexOf (String a pat) (pre +:+ String a pat +:+ post)
  = Some (String.length pre).
Proof.
  induction pre as [|c pre IH].
  - intros _. by rewrite indexOf_unfold, sapp_nil_l, prefix_app.
  - intros [Hc Hpre]%indexOf_char_cons.
    rewrite indexOf_unfold, sapp_cons, prefix_cons.
    destruct (ascii_dec a c) as [->|_]; [done|].
    by rewrite IH.
Qed.

Lemma take_app_length (a b : string) : Js.take (String.length a) (a +:+ b) = a.
Proof.
  induction a as [|x a IH]; [by destruct b|]. rewrite sapp_cons. simpl.
  by rewrite IH.
Qed.

Lemma drop_app_length (a b : string) : Js.drop (String.length a) (a +:+ b) = b.
Proof. induction a as [|x a IH]; [done|]. by rewrite sapp_cons. Qed.

Lemma drop_app_lengths (a b c : string) :
  Js.drop (String.length a + String.length b) (a +:+ b +:+ c) = c.
Proof.
  induction a as [|x a IH]; [exact (drop_app_length b c)|]. by rewrite sapp_cons.
Qed.

Lemma replace_after (a : ascii) (pat pre post repl : string) :
  Js.indexOf (String a "") pre = None ->
  Js.replace (String a pat) repl (pre +:+ String a pat +:+ post)
  = pre +:+ Js.substitution (String a pat) pre post repl +:+ post.
Proof.
  intros Hpre. unfold Js.replace. rewrite indexOf_after by done.
  by rewrite take_app_length, drop_app_lengths.
Qed.

Lemma systems_loop_appends (fragment : Fragment) (vars : ExpansionVariables)
    (systems : list string) :
  forall (i : nat) (st st' : Sys.t),
    systems_loop h fragment vars i systems st = Returns st' ->
    exists more, Sys.trace st' = Sys.trace st +:+ more.
Proof.
  induction systems as [|n rest IH]; intros i st st'; simpl.
  - intros [= <-]. exists "". by rewrite sapp_nil_r.
  - assert (Hstep : forall shown t st0 pre,
               Sys.trace st0 = Sys.trace st +:+ pre ->
               systems_loop h fragment vars (S i) rest
                 (system_step h vars shown t st0) = Returns st' ->
               exists more, Sys.trace st' = Sys.trace st +:+ more).
    { intros shown t st0 pre Hpre Hloop.
      apply IH in Hloop as (more & ->).
      unfold system_step. simpl. rewrite Hpre.
      destruct (truthy_string (model t)), (temperature t), (maxTokens t);
        rewrite !sapp_assoc; eauto. }
    destruct (getTemplate (frag_file_project fragment) n) as [t|].
    + apply (Hstep n t st ""). by rewrite sapp_nil_r.
    + destruct (negb (Js.is_empty n)); simpl.
      * destruct (0 <? i).
        -- intros (more & ->)%IH. simpl. rewrite sapp_assoc. eauto.
        -- destruct (getTemplate (frag_file_project fragment) "system") as [t|];
             [|done].
           eapply Hstep. reflexivity.
      * destruct (0 <? i); [apply IH|].
        destruct (getTemplate (frag_file_project fragment) "system") as [t|];
          [|done].
        apply (Hstep "system" t st ""). by rewrite sapp_nil_r.
Qed.

(** The trace [expandTemplate] returns starts with the heading and the
    text that takes the place of the errors placeholder. *)
Lemma expandTemplate_trace_top (template : PromptTemplate)
    (fragment : Fragment) (vars : ExpansionVariables) (r : Expanded.t) :
  expandTemplate h template fragment vars = Returns r ->
  exists post rest,
    Expanded.trace r
    = lines [""; "# Prompt trace"; ""; ""]
      +:+ Js.substitution "@@errors@@" (lines [""; "# Prompt trace"; ""; ""])
            post (Expansion.errors (callExpander h template vars))
      +:+ rest.
Proof.
  unfold expandTemplate.
  destruct (categoryPrefix template (commentAttributes h fragment))
    as [cat_info cat_text].
  destruct (systems_loop h fragment vars 0 (systems_of template) _)
    as [st'|e] eqn:Hloop; [|done].
  intros [= <-]. simpl.
  apply systems_loop_appends in Hloop as (more & ->). simpl.
  destruct (negb (Js.is_empty (Expansion.logs (callExpander h template vars))));
  match goal with
  | |- context [Js.replace "@@errors@@" ?errs ?tr] =>
      assert (Hshape : exists post,
                 tr = lines [""; "# Prompt trace"; ""; ""] +:+ "@@errors@@"
                      +:+ post)
  end.
  all: try (eexists; rewrite !sapp_assoc; reflexivity).
  all: destruct Hshape as (post & ->);
    rewrite ?sapp_nil_l;
    rewrite (replace_after "@" "@errors@@"
               (lines [""; "# Prompt trace"; ""; ""]) post _ eq_refl);
    rewrite !sapp_assoc; eauto.
Qed.

(** X5. The errors of the main template are at the top of the trace,
    right under its heading, as long as they hold no dollar sign. *)
Theorem errors_are_at_the_top_of_the_trace
    (template : PromptTemplate) (fragment : Fragment)
    (vars : ExpansionVariables) (r : Expanded.t) :
  expandTemplate h template fragment vars = Returns r ->
  Js.indexOf "$" (Expansion.errors (callExpander h template vars)) = None ->
  exists rest,
    Expanded.trace r
    = lines [""; "# Prompt trace"; ""; ""]
      +:+ Expansion.errors (callExpander h template vars) +:+ rest.
Proof.
  intros Hr Hplain.
  destruct (expandTemplate_trace_top template fragment vars r Hr)
    as (post & rest & ->).
  rewrite substitution_plain by done. eauto.
Qed.

(** X6. The errors are put into the trace as the replacement text of a
    string replace: where they hold [$&], the trace shows the placeholder
    [@@errors@@] instead. *)
Theorem dollar_pattern_in_errors_is_rewritten
    (template : PromptTemplate) (fragment : Fragment)
    (vars : ExpansionVariables) (r : Expanded.t) (a b : string) :
  expandTemplate h template fragment vars = Returns r ->
  Expansion.errors (callExpander h template vars) = a +:+ "$&" +:+ b ->
  Js.indexOf "$" a = None ->
  Js.indexOf "$" b = None ->
  exists rest,
    Expanded.trace r
    = lines [""; "# Prompt trace"; ""; ""]
      +:+ a +:+ "@@errors@@" +:+ b +:+ rest.
Proof.
  intros Hr Herrors Ha Hb.
  destruct (expandTemplate_trace_top template fragment vars r Hr)
    as (post & rest & ->).
  rewrite Herrors, substitution_match by done.
  rewrite !sapp_assoc. eauto.
Qed.

End TraceMore.


Section DictFacts.

Lemma dict_get_set_eq {V : Type} (k : string) (v : V) (d : Dict V) :
  dict_get k (dict_set k v d) = Some v.
Proof.
  induction d as [|[k' v'] d IH]; simpl.
  - by rewrite String.eqb_refl.
  - destruct (String.eqb k k') eqn:Hk; simpl; rewrite ?String.eqb_refl, ?Hk; done.
Qed.

Lemma dict_get_set_ne {V : Type} (k k' : string) (v : V) (d : Dict V) :
  k <> k' -> dict_get k' (dict_set k v d) = dict_get k' d.
Proof.
  intros Hne. induction d as [|[k0 v0] d IH]; simpl.
  - destruct (String.eqb_spec k' k); [congruence|done].
  - destruct (String.eqb_spec k k0) as [->|Hk0]; simpl.
    + destruct (String.eqb_spec k' k0); [congruence|done].
    + destruct (String.eqb_spec k' k0); [done|exact IH].
Qed.

End DictFacts.

Section VarNameMore.
Context (h : Host).





End VarNameMore.



(* ===================================================================== *)
(** ** Further properties: inline prompts and the variable environment *)
(* ===================================================================== *)

Section CategoryMore.

Lemma categoryPrefix_loop_text (attrs : Dict string) (prefs : list string) :
  forall (used : list string) (info text : string),
    snd (categoryPrefix_loop attrs prefs used info text)
    = text +:+ bound_texts attrs (first_occurrences used prefs).
Proof.
  induction prefs as [|pref rest IH]; intros used info text; simpl.
  - by rewrite sapp_nil_r.
  - case_bool_decide; [apply IH|].
    destruct (dict_get pref attrs) as [v|] eqn:Hv; rewrite IH; simpl;
      rewrite Hv, ?sapp_assoc; reflexivity.
Qed.

(** X7. The inline prompt text is made of the attributes bound to the names
    of the template's categories and of their dotted prefixes, each name
    used once, at its first occurrence; without categories it is the
    [@prompt] attribute. *)
Theorem categoryPrefix_uses_each_name_once
    (template : PromptTemplate) (attrs : Dict string) :
  snd (categoryPrefix template attrs)
  = bound_texts attrs (first_occurrences [] (inline_prompt_names template)).
Proof.
  unfold categoryPrefix, inline_prompt_names.
  destruct (categories template) as [[|c cs]|].
  - cbn [length bool_decide negb orb default]. simpl.
    destruct (dict_get "@prompt" attrs) as [v|] eqn:Hv; simpl; [|done].
    destruct (negb (Js.is_empty v)) eqn:Hempty; simpl.
    + rewrite ?Hv. simpl. rewrite ?Hv. simpl. by rewrite sapp_nil_r.
    + destruct v; [by rewrite ?Hv|discriminate].
  - change (default [] (Some (c :: cs))) with (c :: cs).
    generalize (concat (map (fun s => prefixes ("@prompt." +:+ s)) (c :: cs))).
    intros prefs.
    replace (negb (bool_decide (length (c :: cs) = 0))) with true by done.
    cbn [orb].
    match goal with
    | |- context [categoryPrefix_loop attrs prefs ?used ?info ?text] =>
        pose proof (categoryPrefix_loop_text attrs prefs used info text) as H;
        destruct (categoryPrefix_loop attrs prefs used info text)
    end. exact H.
  - simpl.
    destruct (dict_get "@prompt" attrs) as [v|] eqn:Hv; simpl; [|done].
    destruct (negb (Js.is_empty v)) eqn:Hempty; simpl.
    + rewrite ?Hv. simpl. rewrite ?Hv. simpl. by rewrite sapp_nil_r.
    + destruct v; [by rewrite ?Hv|discriminate].
Qed.
End CategoryMore.

Section FragmentVarsMore.
Context (h : Host).

Lemma find_none_not_in (fn : string) (links : list LinkedFile) :
  List.find (fun lk => String.eqb (lf_filename lk) fn) links = None ->
  fn ∉ map lf_filename links.
Proof.
  induction links as [|lk links IH]; simpl; [intros _; apply not_elem_of_nil|].
  destruct (String.eqb_spec (lf_filename lk) fn) as [|Hne]; [done|].
  intros Hnone%IH. apply not_elem_of_cons. split; [congruence|done].
Qed.

Lemma collect_links_ok (project : Project) (frag : Fragment) :
  links_ok h project (collect_links h project frag).
Proof.
  unfold collect_links.
  assert (Hgen : forall frs links, links_ok h project links ->
            links_ok h project
              (fold_left
                 (fun links fr =>
                    fold_left
                      (fun links ref =>
                         match List.find
                                 (fun f => String.eqb (filename f) (ref_filename ref))
                                 (allFiles project) with
                         | None => links
                         | Some file =>
                             let fn := relativePath h (projectFolder h) (filename file) in
                             match List.find (fun lk => String.eqb (lf_filename lk) fn)
                                     links with
                             | Some _ => links
                             | None =>
                                 links ++ [ {| lf_label := ref_name ref;
                                               lf_filename := fn;
                                               lf_content := content file |} ]
                             end
                         end)
                      (references fr) links)
                 frs links)).
  { induction frs as [|fr frs IHfrs]; intros links Hok; simpl; [done|].
    apply IHfrs. clear IHfrs.
    revert links Hok. induction (references fr) as [|ref refs IHrefs];
      intros links Hok; simpl; [done|].
    apply IHrefs.
    destruct (List.find _ (allFiles project)) as [file|] eqn:Hfile; [|done].
    simpl. destruct (List.find _ links) eqn:Hlink; [done|].
    apply find_none_not_in in Hlink. destruct Hok as [Hnodup Hall].
    split.
    - rewrite map_app. simpl. apply NoDup_app. split; [done|].
      split; [|apply NoDup_singleton].
      intros x Hx ->%list_elem_of_singleton. done.
    - apply Forall_app. split; [done|]. apply Forall_singleton. simpl.
      exists file. split; [|done].
      apply List.find_some in Hfile as [Hin _]. by apply list_elem_of_In. }
  apply Hgen. split; [apply NoDup_nil_2|apply Forall_nil_2].
Qed.


Lemma fragmentVars_unfold (template : PromptTemplate)
    (templates : list PromptTemplate) (frag : Fragment) (promptOptions : JsValue) :
  exists links parents,
    fragmentVars h template templates frag promptOptions
    = dict_set "vars" (attrs_value (commentAttributes h frag))
        (dict_set "templates" (VArr (map template_value templates))
           (dict_set "template" (template_value template)
              (dict_set "promptOptions" promptOptions
                 (dict_set "parents" (VArr (map linked_file_value parents))
                    (dict_set "links" (VArr (map linked_file_value links))
                       (dict_set "file"
                          (VObj [ ("filename", VStr (filename (frag_file frag)));
                                  ("label", VStr "current");
                                  ("content", VStr (content (frag_file frag))) ])
                          (staticVars h)))))))
    /\ links = (if negb (truthy (prop_of "ignoreOutput" promptOptions))
                then collect_links h (frag_file_project frag) frag else [])
    /\ parents
       = match parent frag with
         | Some p =>
             [ {| lf_label := frag_title p;
                  lf_filename :=
                    relativePath h (projectFolder h) (filename (frag_file p));
                  lf_content := content (frag_file p) |} ]
         | None => []
         end.
Proof. eexists _, _. split; [|split]; reflexivity. Qed.

(** X8. The seven entries [fragmentVars] writes are in the environment
    whatever the static variables hold under their names: the current
    file, the links (none when [ignoreOutput] is set), the parent of the
    fragment if it has one, the prompt options, the template, the
    templates and the comment attributes. Every other static variable is
    passed on as it is. *)
Theorem fragmentVars_entries_override_static_ones
    (template : PromptTemplate) (templates : list PromptTemplate)
    (frag : Fragment) (promptOptions : JsValue) :
  let vars := fragmentVars h template templates frag promptOptions in
  (forall k, k ∉ run_entries -> dict_get k vars = dict_get k (staticVars h))
  /\ dict_get "file" vars
     = Some (VObj [ ("filename", VStr (filename (frag_file frag)));
                    ("label", VStr "current");
                    ("content", VStr (content (frag_file frag))) ])
  /\ dict_get "links" vars
     = Some (VArr (map linked_file_value
                     (if truthy (prop_of "ignoreOutput" promptOptions) then []
                      else collect_links h (frag_file_project frag) frag)))
  /\ dict_get "parents" vars
     = Some (VArr match parent frag with
                  | Some p =>
                      [ VObj [ ("label", VStr (frag_title p));
                               ("filename",
                                VStr (relativePath h (projectFolder h)
                                        (filename (frag_file p))));
                               ("content", VStr (content (frag_file p))) ] ]
                  | None => []
                  end)
  /\ dict_get "promptOptions" vars = Some promptOptions
  /\ dict_get "template" vars = Some (template_value template)
  /\ dict_get "templates" vars = Some (VArr (map template_value templates))
  /\ dict_get "vars" vars = Some (attrs_value (commentAttributes h frag)).
Proof.
  intros vars. subst vars.
  destruct (fragmentVars_unfold template templates frag promptOptions)
    as (links & parents & -> & Hlinks & Hparents).
  split.
  { intros k Hk. unfold run_entries in Hk.
    rewrite !not_elem_of_cons in Hk.
    destruct Hk as (H1 & H2 & H3 & H4 & H5 & H6 & H7 & _).
    rewrite !dict_get_set_ne by congruence. done. }
  assert (Hl : links
               = if truthy (prop_of "ignoreOutput" promptOptions) then []
                 else collect_links h (frag_file_project frag) frag).
  { rewrite Hlinks. by destruct (truthy (prop_of "ignoreOutput" promptOptions)). }
  assert (Hp : map linked_file_value parents
               = match parent frag with
                 | Some p =>
                     [ VObj [ ("label", VStr (frag_title p));
                              ("filename",
                               VStr (relativePath h (projectFolder h)
                                       (filename (frag_file p))));
                              ("content", VStr (content (frag_file p))) ] ]
                 | None => []
                 end).
  { rewrite Hparents. by destruct (parent frag). }
  rewrite <- Hl, <- Hp.
  repeat split;
    rewrite ?(dict_get_set_ne "vars"), ?(dict_get_set_ne "templates"),
      ?(dict_get_set_ne "template"), ?(dict_get_set_ne "promptOptions"),
      ?(dict_get_set_ne "parents"), ?(dict_get_set_ne "links") by done;
    apply dict_get_set_eq.
Qed.

(** X9. The links of the environment name files of the project, no file
    twice, each with the content of its file; there is none when the
    [ignoreOutput] option is set. *)
Theorem fragmentVars_links_are_distinct_project_files
    (template : PromptTemplate) (templates : list PromptTemplate)
    (frag : Fragment) (promptOptions : JsValue) :
  exists links,
    dict_get "links" (fragmentVars h template templates frag promptOptions)
    = Some (VArr (map linked_file_value links))
    /\ NoDup (map lf_filename links)
    /\ Forall (fun lk =>
                 exists f, f ∈ allFiles (frag_file_project frag)
                   /\ lf_filename lk
                      = relativePath h (projectFolder h) (filename f)
                   /\ lf_content lk = content f) links
    /\ (truthy (prop_of "ignoreOutput" promptOptions) = true -> links = []).
Proof.
  destruct (fragmentVars_unfold template templates frag promptOptions)
    as (links & parents & -> & Hlinks & _).
  exists links. split.
  - rewrite !dict_get_set_ne by done. apply dict_get_set_eq.
  - subst links. destruct (truthy (prop_of "ignoreOutput" promptOptions)); simpl.
    + split; [apply NoDup_nil_2|]. split; [apply Forall_nil_2|done].
    + destruct (collect_links_ok (frag_file_project frag) frag) as [? ?].
      split; [done|]. split; [done|discriminate].
Qed.

End FragmentVarsMore.


(* ===================================================================== *)
(** ** Further properties: edits, summary and requests *)
(* ===================================================================== *)

Section LoopMore.
Context (h : Host) (fragment : Fragment).

Lemma entry_step_effect (name val : string) (st : Loop.t) :
  Loop.edits (entry_step h fragment name val st)
  = Loop.edits st
    ++ (if names_changed_file h fragment (name, val)
        then [replace_edit_of h fragment (name, val)] else [])
    ++ (if names_missing_file h fragment (name, val)
        then [create_edit_of h fragment (name, val)] else [])
  /\ Loop.links (entry_step h fragment name val st)
     = Loop.links st
       ++ (if names_unlinked_file h fragment (name, val)
           then [link_line (name, val)] else [])
  /\ Loop.summary (entry_step h fragment name val st)
     = if String.eqb name "SUMMARY" then Some val else Loop.summary st.
Proof.
  unfold entry_step, names_changed_file, names_missing_file,
    names_unlinked_file, replace_edit_of, create_edit_of, link_line,
    target_path. simpl.
  destruct (Js.startsWith "File " name); simpl.
  - destruct (fileExists h _); simpl;
      [destruct (negb (String.eqb _ val)); simpl|];
      destruct (negb (truthy_string _) && negb (String.eqb _ _)); simpl;
      destruct (String.eqb name "SUMMARY"); simpl;
      rewrite ?app_nil_r; done.
  - destruct (String.eqb name "SUMMARY"); simpl; by rewrite !app_nil_r.
Qed.

Lemma loop_effect (entries : list (string * string)) :
  forall st : Loop.t,
    let st' := fold_left (fun st e => entry_step h fragment (fst e) (snd e) st)
                 entries st in
    List.filter is_replace (Loop.edits st')
    = List.filter is_replace (Loop.edits st)
      ++ map (replace_edit_of h fragment)
           (List.filter (names_changed_file h fragment) entries)
    /\ List.filter is_insert (Loop.edits st')
       = List.filter is_insert (Loop.edits st)
    /\ Loop.links st'
       = Loop.links st
         ++ map link_line (List.filter (names_unlinked_file h fragment) entries).
Proof.
  induction entries as [|[name val] rest IH]; intros st; simpl.
  - by rewrite !app_nil_r.
  - destruct (IH (entry_step h fragment name val st)) as (Hr & Hi & Hl).
    destruct (entry_step_effect name val st) as (He & Hlinks & _).
    rewrite Hr, Hi, Hl, He, Hlinks. rewrite !List.filter_app.
    destruct (names_changed_file h fragment (name, val));
      destruct (names_missing_file h fragment (name, val));
      destruct (names_unlinked_file h fragment (name, val)); simpl;
      rewrite ?app_nil_r, <- ?app_assoc; done.
Qed.

End LoopMore.

Section PostProcessMore.
Context (h : Host).

Lemma post_process_result (template : PromptTemplate) (fragment : Fragment)
    (trace0 raw : string) :
  let entries := vars (extractFenced h raw) in
  let st := fold_left (fun st e => entry_step h fragment (fst e) (snd e) st)
              (Object_entries entries) (Loop.mk [] ∅ [] None entries) in
  exists res,
    post_process h template fragment trace0 raw
    = (map (fun e => EvConsoleLog (fst e)) (Object_entries entries),
       Returns (res, final_text raw (Loop.vars st)))
    /\ edits res
       = Loop.edits st
         ++ match Loop.links st with
            | [] => []
            | _ => [ InsertEdit (title template) (filename (frag_file fragment))
                       (endPos fragment)
                       (Js.nl +:+ Js.nl +:+ Js.join Js.nl (Loop.links st)) ]
            end
    /\ fileEdits res = Loop.fileEdits st
    /\ summary res = Loop.summary st.
Proof.
  intros entries st. unfold post_process. rewrite entries_loop_fold.
  fold entries. fold st. simpl. rewrite app_nil_r.
  eexists. split; [reflexivity|]. simpl.
  split; [|done]. destruct (Loop.links st); simpl; by rewrite ?app_nil_r.
Qed.

(** X10. The replace-edits of a result are, in order, one for each ["File "]
    entry whose target exists with another content; an entry equal to
    the content of its file gives none. *)
Theorem replace_edits_are_for_changed_files
    (template : PromptTemplate) (fragment : Fragment) (trace0 raw : string) :
  exists evs res final,
    post_process h template fragment trace0 raw = (evs, Returns (res, final))
    /\ List.filter is_replace (edits res)
       = map (replace_edit_of h fragment)
           (List.filter (names_changed_file h fragment)
              (vars (extractFenced h raw))).
Proof.
  destruct (post_process_result template fragment trace0 raw)
    as (res & Hpost & Hedits & _).
  eexists _, res, _. split; [exact Hpost|].
  rewrite Hedits, List.filter_app.
  destruct (loop_effect h fragment (Object_entries (vars (extractFenced h raw)))
              (Loop.mk [] ∅ [] None (vars (extractFenced h raw))))
    as (Hr & _ & _).
  rewrite Hr. simpl.
  rewrite Object_entries_filter.
  - by destruct (Loop.links _); rewrite app_nil_r.
  - intros kv [[Hkv _]%andb_true_iff _]%andb_true_iff.
    by apply file_name_no_index.
Qed.

(** X11. A result has at most one insert-edit: it is there when some ["File "]
    entry names a file that the fragment neither references nor lives in,
    it comes last, and it lists one link line for each such entry. *)
Theorem insert_edit_links_the_new_files
    (template : PromptTemplate) (fragment : Fragment) (trace0 raw : string) :
  exists evs res final,
    post_process h template fragment trace0 raw = (evs, Returns (res, final))
    /\ match map link_line
               (List.filter (names_unlinked_file h fragment)
                  (vars (extractFenced h raw))) with
       | [] => List.filter is_insert (edits res) = []
       | l :: ls =>
           List.filter is_insert (edits res)
           = [ InsertEdit (title template) (filename (frag_file fragment))
                 (endPos fragment)
                 (Js.nl +:+ Js.nl +:+ Js.join Js.nl (l :: ls)) ]
           /\ last (edits res)
              = Some (InsertEdit (title template)
                        (filename (frag_file fragment)) (endPos fragment)
                        (Js.nl +:+ Js.nl +:+ Js.join Js.nl (l :: ls)))
       end.
Proof.
  destruct (post_process_result template fragment trace0 raw)
    as (res & Hpost & Hedits & _).
  eexists _, res, _. split; [exact Hpost|].
  destruct (loop_effect h fragment (Object_entries (vars (extractFenced h raw)))
              (Loop.mk [] ∅ [] None (vars (extractFenced h raw))))
    as (_ & Hi & Hl).
  simpl in Hi, Hl.
  rewrite Object_entries_filter in Hl.
  2:{ intros kv [[Hkv _]%andb_true_iff _]%andb_true_iff.
      by apply file_name_no_index. }
  rewrite Hedits, Hl, List.filter_app, Hi.
  destruct (map link_line _) as [|l ls]; simpl; [done|].
  split; [done|]. by rewrite last_snoc.
Qed.

(** X12. The summary of a result is the text of the entry named ["SUMMARY"],
    if there is one. *)
Theorem summary_is_the_summary_entry
    (template : PromptTemplate) (fragment : Fragment) (trace0 raw : string) :
  NoDup (dict_keys (vars (extractFenced h raw))) ->
  exists evs res final,
    post_process h template fragment trace0 raw = (evs, Returns (res, final))
    /\ summary res = dict_get "SUMMARY" (vars (extractFenced h raw)).
Proof.
  intros Hnodup.
  destruct (post_process_result template fragment trace0 raw)
    as (res & Hpost & _ & _ & Hsummary).
  eexists _, res, _. split; [exact Hpost|]. rewrite Hsummary.
  assert (Hgen : forall entries st,
             NoDup (dict_keys entries) ->
             Loop.summary
               (fold_left (fun st e => entry_step h fragment (fst e) (snd e) st)
                  entries st)
             = match dict_get "SUMMARY" entries with
               | Some v => Some v
               | None => Loop.summary st
               end).
  { clear. induction entries as [|[name val] rest IH]; intros st Hnodup;
      [done|].
    apply NoDup_cons in Hnodup as [Hfresh Hnodup].
    cbn [fold_left fst snd]. rewrite (IH _ Hnodup).
    destruct (entry_step_effect h fragment name val st) as (_ & _ & ->).
    change (dict_get "SUMMARY" ((name, val) :: rest))
      with (if String.eqb "SUMMARY" name then Some val
            else dict_get "SUMMARY" rest).
    rewrite (String.eqb_sym "SUMMARY" name).
    destruct (String.eqb_spec name "SUMMARY") as [->|_]; [|done].
    destruct (dict_get "SUMMARY" rest) as [v|] eqn:Hv; [|done].
    exfalso. apply Hfresh. clear -Hv.
    induction rest as [|[k w] rest IH]; [done|].
    change (dict_get "SUMMARY" ((k, w) :: rest))
      with (if String.eqb "SUMMARY" k then Some w
            else dict_get "SUMMARY" rest) in Hv.
    destruct (String.eqb_spec "SUMMARY" k) as [<-|_];
      [apply list_elem_of_here|apply list_elem_of_further, IH, Hv]. }
  rewrite (Hgen _ _ (Object_entries_NoDup_keys _ Hnodup)).
  rewrite Object_entries_dict_get by reflexivity.
  by destruct (dict_get "SUMMARY" _).
Qed.

(** X13. Every file edit a result records comes from a ["File "] entry that
    targets the path: [after] is the text of the entry, [before] is the
    content of the file when it exists, and then the two differ. *)
Theorem file_edits_come_from_file_entries
    (template : PromptTemplate) (fragment : Fragment) (trace0 raw : string) :
  exists evs res final,
    post_process h template fragment trace0 raw = (evs, Returns (res, final))
    /\ forall fn fe,
         fileEdits res !! fn = Some fe ->
         exists name,
           (name, after fe) ∈ vars (extractFenced h raw)
           /\ Js.startsWith "File " name = true
           /\ target_path h fragment name = fn
           /\ before fe = (if fileExists h fn then Some (readText h fn) else None)
           /\ (fileExists h fn = true -> readText h fn <> after fe).
Proof.
  destruct (post_process_result template fragment trace0 raw)
    as (res & Hpost & _ & Hfiles & _).
  eexists _, res, _. split; [exact Hpost|]. rewrite Hfiles.
  set (entries0 := vars (extractFenced h raw)).
  set (P := fun (fn : string) (fe : FileEdit) =>
              exists name,
                (name, after fe) ∈ entries0
                /\ Js.startsWith "File " name = true
                /\ target_path h fragment name = fn
                /\ before fe
                   = (if fileExists h fn then Some (readText h fn) else None)
                /\ (fileExists h fn = true -> readText h fn <> after fe)).
  assert (Hgen : forall entries st,
             (forall e, e ∈ entries -> e ∈ entries0) ->
             (forall fn fe, Loop.fileEdits st !! fn = Some fe -> P fn fe) ->
             forall fn fe,
               Loop.fileEdits
                 (fold_left (fun st e => entry_step h fragment (fst e) (snd e) st)
                    entries st) !! fn = Some fe -> P fn fe).
  { induction entries as [|[name val] rest IH]; intros st Hsub Hst; simpl;
      [exact Hst|].
    apply IH; [intros e He; apply Hsub; by apply list_elem_of_further|].
    assert (Hin : (name, val) ∈ entries0) by apply Hsub, list_elem_of_here.
    clear IH Hsub. intros fn fe. unfold entry_step.
    destruct (Js.startsWith "File " name) eqn:Hfile;
      [|destruct (String.eqb name "SUMMARY"); simpl; apply Hst].
    fold (target_path h fragment name).
    destruct (fileExists h (target_path h fragment name)) eqn:Hex;
      [destruct (negb (String.eqb (readText h (target_path h fragment name)) val))
         eqn:Hdiff|];
      destruct (String.eqb name "SUMMARY"); simpl; try apply Hst;
      rewrite lookup_insert; case_decide as Heq; try apply Hst;
      intros [= <-]; subst fn; exists name; simpl; rewrite Hex;
      repeat split; try done.
    all: intros _; apply negb_true_iff in Hdiff;
      by apply String.eqb_neq in Hdiff. }
  apply Hgen.
  - intros e He. by apply list_elem_of_In, Object_entries_In, list_elem_of_In.
  - intros fn fe. simpl. by rewrite lookup_empty.
Qed.

End PostProcessMore.

Section RunMore.
Context (h : Host).

Lemma console_logs_are_no_requests (entries : list (string * string)) :
  List.filter is_request (map (fun e => EvConsoleLog (fst e)) entries) = [].
Proof. induction entries as [|e entries IH]; [done|]. simpl. exact IH. Qed.

Lemma post_process_no_request (template : PromptTemplate) (fragment : Fragment)
    (trace0 raw : string) :
  List.filter is_request (fst (post_process h template fragment trace0 raw)) = [].
Proof.
  unfold post_process. rewrite entries_loop_fold. simpl.
  rewrite app_nil_r. apply console_logs_are_no_requests.
Qed.

Lemma request_catch_no_request (o : RunTemplateOptions)
    (sig : option AbortSignal) (trace0 : string) (e : JsError) :
  List.filter is_request (fst (request_catch h o sig trace0 e)) = []
  /\ exists e', snd (request_catch h o sig trace0 e) = Throws e'.
Proof.
  unfold request_catch, infoCb_call.
  destruct (request e); [|destruct (signal_aborted sig)];
    destruct (infoCb o); simpl; eauto.
Qed.

Lemma bind_events {A B : Type} (m : M A) (f : A -> M B) :
  fst (bind m f)
  = fst m ++ match snd m with Returns a => fst (f a) | Throws _ => [] end.
Proof.
  destruct m as [evs [a|e]]; simpl; [by destruct (f a)|by rewrite app_nil_r].
Qed.

Lemma try_catch_events {A : Type} (m : M A) (handler : JsError -> M A) :
  fst (try_catch m handler)
  = fst m ++ match snd m with Throws e => fst (handler e) | Returns _ => [] end.
Proof.
  destruct m as [evs [a|e]]; simpl; [by rewrite app_nil_r|by destruct (handler e)].
Qed.

Lemma request_try_requests (o : RunTemplateOptions) (trace0 : string)
    (r : Expanded.t) :
  List.filter is_request (fst (request_try h o trace0 r))
  = match initToken h with
    | Returns _ => [EvRequest (completion_request r)]
    | Throws _ => []
    end.
Proof.
  unfold request_try, infoCb_if_any.
  destruct (initToken h) as [[]|e]; [|done].
  destruct (infoCb o); simpl;
    by destruct (getChatCompletions h (completion_request r) o).
Qed.

(** The requests a run issues: none when it does not get to the request,
    else the one request built from the expansion. *)
Lemma run_requests (template : PromptTemplate)
    (templates : list PromptTemplate) (fragment : Fragment)
    (options : option RunTemplateOptions) :
  List.filter is_request
    (fst (runTemplate h template templates fragment options)) = []
  \/ exists o vars r,
       options = Some o
       /\ snd (run_vars h template templates fragment o) = Returns vars
       /\ expandTemplate h template fragment vars = Returns r
       /\ Expanded.success r = true
       /\ initToken h = Returns tt
       /\ List.filter is_request
            (fst (runTemplate h template templates fragment options))
          = [EvRequest (completion_request r)].
Proof.
  unfold runTemplate. rewrite bind_events.
  assert (Htail : forall m : M (FragmentTransformResponse * option string),
             match snd m with
             | Returns a => fst (ret (A := FragmentTransformResponse) (fst a))
             | Throws _ => []
             end = []).
  { intros [evs [a|e]]; done. }
  rewrite Htail, app_nil_r. clear Htail.
  unfold runTemplate_locals. destruct options as [o|]; [|by left].
  cbv zeta. rewrite bind_events.
  rewrite run_vars_no_events. cbn [app].
  destruct (snd (run_vars h template templates fragment o)) as [vars|e]
    eqn:Hvars; [|by left].
  rewrite bind_events. unfold lift. cbn [fst snd app].
  destruct (expandTemplate h template fragment vars) as [r|e] eqn:Hexp;
    [|by left].
  destruct (Expanded.success r) eqn:Hok; cbn [negb]; [|by left].
  rewrite bind_events, try_catch_events, !List.filter_app, request_try_requests.
  assert (Hrest :
    List.filter is_request
      match snd (request_try h o (final_prompt_trace h r) r) with
      | Throws e =>
          fst (request_catch h o
                 (signal (default {| signal := None |} (requestOptions o)))
                 (final_prompt_trace h r) e)
      | Returns _ => []
      end = []).
  { destruct (snd (request_try _ _ _ _)); [done|].
    apply request_catch_no_request. }
  rewrite Hrest, app_nil_r.
  assert (Hpost :
    List.filter is_request
      match snd (try_catch (request_try h o (final_prompt_trace h r) r)
                   (request_catch h o
                      (signal (default {| signal := None |} (requestOptions o)))
                      (final_prompt_trace h r))) with
      | Returns a =>
          fst (do res <- post_process h template fragment
                           (final_prompt_trace h r) a;
               ret (fst res, Some (snd res)))
      | Throws _ => []
      end = []).
  { destruct (snd (try_catch _ _)) as [raw|e]; [|done].
    rewrite bind_events, List.filter_app, post_process_no_request.
    by destruct (snd (post_process _ _ _ _ _)). }
  rewrite Hpost, app_nil_r.
  destruct (initToken h) as [[]|e]; [right; by exists o, vars, r|by left].
Qed.

(** X14. No run issues more than one completion request. *)
Theorem at_most_one_request (template : PromptTemplate)
    (templates : list PromptTemplate) (fragment : Fragment)
    (options : option RunTemplateOptions) :
  length (List.filter is_request
            (fst (runTemplate h template templates fragment options))) <= 1.
Proof.
  destruct (run_requests template templates fragment options)
    as [->|(o & vars & r & _ & _ & _ & _ & _ & ->)]; simpl; lia.
Qed.

(** X15. When the token cannot be initialised, no completion request is
    issued. *)
Theorem no_request_without_token (template : PromptTemplate)
    (templates : list PromptTemplate) (fragment : Fragment)
    (options : option RunTemplateOptions) (e : JsError) :
  initToken h = Throws e ->
  List.filter is_request
    (fst (runTemplate h template templates fragment options)) = [].
Proof.
  intros Hinit.
  destruct (run_requests template templates fragment options)
    as [Hnone|(o & vars & r & _ & _ & _ & _ & Hok & _)];
    [exact Hnone|congruence].
Qed.

(** X16. When the request fails with a structured request error, or with any
    exception once the signal is aborted, and no callback was supplied,
    the run throws a [TypeError] of its own in place of the exception of
    the request. *)
Theorem missing_callback_replaces_the_request_error
    (template : PromptTemplate) (templates : list PromptTemplate)
    (fragment : Fragment) (o : RunTemplateOptions)
    (vars : ExpansionVariables) (r : Expanded.t) (e : JsError) :
  run_vars h template templates fragment o = ([], Returns vars) ->
  expandTemplate h template fragment vars = Returns r ->
  Expanded.success r = true ->
  infoCb o = false ->
  initToken h = Returns tt ->
  getChatCompletions h (completion_request r) o = Throws e ->
  is_Some (request e)
  \/ signal_aborted (signal (default {| signal := None |} (requestOptions o)))
     = true ->
  exists e',
    runTemplate h template templates fragment (Some o)
    = ([EvRequest (completion_request r)], Throws e')
    /\ name e' = "TypeError"
    /\ request e' = None.
Proof.
  intros Hvars Hexp Hok Hcb Hinit Hthrow Hcase. unfold runTemplate.
  rewrite (runTemplate_locals_expanded _ _ _ _ _ _ _ Hvars Hexp), Hok.
  rewrite (request_try_events _ _ _ _ Hinit), Hthrow, Hcb. simpl.
  unfold request_catch, infoCb_call. rewrite Hcb.
  exists (typeError "options.infoCb is not a function").
  destruct (request e) as [info|]; [done|].
  destruct Hcase as [[x Hx]|Hab]; [discriminate|]. by rewrite Hab.
Qed.

(** X19. The request of a run carries the combined system prompt as its
    system message and the inline prompts, a line break and the expanded
    prompt of the main template as its user message. *)
Theorem request_carries_the_expanded_prompts
    (template : PromptTemplate) (templates : list PromptTemplate)
    (fragment : Fragment) (o : RunTemplateOptions)
    (vars : ExpansionVariables) (ts : list PromptTemplate) (req : ChatRequest) :
  run_vars h template templates fragment o = ([], Returns vars) ->
  resolved_systems (frag_file_project fragment) 0 (systems_of template)
  = Some ts ->
  EvRequest req ∈ fst (runTemplate h template templates fragment (Some o)) ->
  messages req
  = [ {| role := "system"; msg_content := combined_system_text h vars ts |};
      {| role := "user";
         msg_content :=
           snd (categoryPrefix template (commentAttributes h fragment))
           +:+ Js.nl +:+ Expansion.text (callExpander h template vars) |} ].
Proof.
  intros Hvars Hres Hin.
  assert (Hreq : In (EvRequest req)
                   (List.filter is_request
                      (fst (runTemplate h template templates fragment (Some o))))).
  { apply List.filter_In. split; [by apply list_elem_of_In|done]. }
  destruct (run_requests template templates fragment (Some o))
    as [Hnone|(o' & vars' & r & [= <-] & Hvars' & Hexp & _ & _ & Hone)].
  - by rewrite Hnone in Hreq.
  - rewrite Hone in Hreq. destruct Hreq as [[= <-]|[]].
    rewrite Hvars in Hvars'. injection Hvars' as <-.
    destruct (expandTemplate_resolved h template fragment vars ts Hres)
      as (r' & Hr' & Hexpanded & _ & _ & Htext & _).
    rewrite Hexp in Hr'. injection Hr' as <-.
    unfold completion_request. simpl. by rewrite Htext, Hexpanded.
Qed.

(** X20. The clipboard is read when the template asks for it and a reader
    is supplied: what it returns is bound to [clipboard] in the variable
    environment, and when it fails the run throws its exception at once,
    before anything else happens. *)
Theorem clipboard_is_bound_or_its_failure_ends_the_run
    (template : PromptTemplate) (templates : list PromptTemplate)
    (fragment : Fragment) (o : RunTemplateOptions) :
  readClipboard template = true ->
  match opt_readClipboard o with
  | Some (Returns s) =>
      exists vars,
        run_vars h template templates fragment o = ([], Returns vars)
        /\ dict_get "clipboard" vars = Some (VStr s)
  | Some (Throws e) =>
      runTemplate h template templates fragment (Some o) = ([], Throws e)
  | None =>
      run_vars h template templates fragment o
      = ([], Returns (fragmentVars h template templates fragment
                        (promptOptions o)))
  end.
Proof.
  intros Hread. unfold runTemplate, runTemplate_locals, run_vars.
  destruct (fragmentVars_unfold h template templates fragment (promptOptions o))
    as (links & parents & Hvars & _).
  assert (Htruthy :
    truthy (default VUndefined
              (dict_get "vars"
                 (fragmentVars h template templates fragment (promptOptions o))))
    = true).
  { rewrite Hvars, dict_get_set_eq. done. }
  rewrite Htruthy, Hread. cbn [andb].
  destruct (opt_readClipboard o) as [[s|e]|]; [|done..].
  eexists. split; [reflexivity|]. apply dict_get_set_eq.
Qed.

End RunMore.



(* ===================================================================== *)
(** ** Further properties on the sample runs *)
(* ===================================================================== *)

Lemma file_entry_names_are_normalised_witness :
  Js.drop_while Js.is_white " " = ""
  /\ Js.drop_while Js.is_white "a.txt" = "a.txt"
  /\ Js.drop_while_end Js.is_white "a.txt" = "a.txt"
  /\ Js.startsWith "./" "a.txt" = false
  /\ target_path Sample.quiet (Sample.fragment None) "File  ./a.txt "
     = "/proj/a.txt"
  /\ target_path Sample.quiet (Sample.fragment None) "File  a.txt "
     = "/proj/a.txt".
Proof.
  destruct (file_entry_names_are_normalised Sample.quiet (Sample.fragment None)
              " " " " "a.txt" eq_refl eq_refl eq_refl eq_refl)
    as [Hdot Hplain].
  split; [reflexivity|]. split; [reflexivity|]. split; [reflexivity|].
  split; [reflexivity|]. split; [exact Hdot|exact (Hplain eq_refl)].
Defined.

(** The errors of the failing sample template hold no dollar sign and are
    at the top of its trace. *)
Lemma errors_are_at_the_top_of_the_trace_witness :
  exists r rest,
    expandTemplate Sample.quiet Sample.t_fail (Sample.fragment None)
      (Sample.vars_of Sample.t_fail) = Returns r
    /\ Js.indexOf "$"
         (Expansion.errors
            (callExpander Sample.quiet Sample.t_fail
               (Sample.vars_of Sample.t_fail))) = None
    /\ Expanded.trace r
       = lines [""; "# Prompt trace"; ""; "-  Error: boom"; ""] +:+ rest.
Proof.
  destruct (expandTemplate_resolved Sample.quiet Sample.t_fail
              (Sample.fragment None) (Sample.vars_of Sample.t_fail)
              [Sample.t_system] eq_refl) as (r & Hr & _).
  destruct (errors_are_at_the_top_of_the_trace Sample.quiet Sample.t_fail
              (Sample.fragment None) (Sample.vars_of Sample.t_fail) r Hr
              eq_refl) as (rest & Htrace).
  exists r, rest. split; [exact Hr|]. split; [reflexivity|exact Htrace].
Defined.

(** A script that throws an error whose message holds [$&]: the trace
    shows the placeholder in its place. *)
Lemma dollar_pattern_in_errors_is_rewritten_witness :
  exists r rest,
    expandTemplate Sample2.dollar Sample2.t_dollar (Sample.fragment None)
      (Sample.vars_of Sample2.t_dollar) = Returns r
    /\ Expansion.errors
         (callExpander Sample2.dollar Sample2.t_dollar
            (Sample.vars_of Sample2.t_dollar))
       = "-  Error: unexpected " +:+ "$&" +:+ " here" +:+ Js.nl
    /\ Expanded.trace r
       = lines [""; "# Prompt trace"; ""; ""]
         +:+ "-  Error: unexpected " +:+ "@@errors@@" +:+ (" here" +:+ Js.nl)
         +:+ rest.
Proof.
  destruct (expandTemplate_resolved Sample2.dollar Sample2.t_dollar
              (Sample.fragment None) (Sample.vars_of Sample2.t_dollar)
              [Sample.t_system] eq_refl) as (r & Hr & _).
  destruct (dollar_pattern_in_errors_is_rewritten Sample2.dollar
              Sample2.t_dollar (Sample.fragment None)
              (Sample.vars_of Sample2.t_dollar) r
              "-  Error: unexpected " (" here" +:+ Js.nl) Hr
              eq_refl eq_refl eq_refl) as (rest & Htrace).
  exists r, rest. split; [exact Hr|]. split; [reflexivity|exact Htrace].
Defined.


(** A response with a file entry and a summary entry. *)
Lemma summary_is_the_summary_entry_witness :
  NoDup (dict_keys (vars (extractFenced Sample2.answering_summary
                            Sample2.reply_summary)))
  /\ exists evs res final,
       post_process Sample2.answering_summary Sample.t_main
         (Sample.fragment None) "" Sample2.reply_summary
       = (evs, Returns (res, final))
       /\ summary res = Some "did it".
Proof.
  assert (Hnodup : NoDup (dict_keys (vars (extractFenced
                                             Sample2.answering_summary
                                             Sample2.reply_summary)))).
  { apply NoDup_cons. split; [|apply NoDup_singleton].
    intros Hin%list_elem_of_singleton. discriminate Hin. }
  split; [exact Hnodup|].
  destruct (summary_is_the_summary_entry Sample2.answering_summary
              Sample.t_main (Sample.fragment None) "" Sample2.reply_summary
              Hnodup) as (evs & res & final & Hpost & Hsummary).
  exists evs, res, final. split; [exact Hpost|exact Hsummary].
Defined.

Lemma no_request_without_token_witness :
  initToken Sample2.no_token = Throws Sample2.token_missing
  /\ List.filter is_request
       (fst (runTemplate Sample2.no_token Sample.t_main Sample.templates
               (Sample.fragment None) (Some (Sample.options false)))) = []
  /\ snd (runTemplate Sample2.no_token Sample.t_main Sample.templates
            (Sample.fragment None) (Some (Sample.options false)))
     = Throws Sample2.token_missing.
Proof.
  split; [reflexivity|]. split; [|by vm_compute].
  exact (no_request_without_token Sample2.no_token Sample.t_main
           Sample.templates (Sample.fragment None)
           (Some (Sample.options false)) Sample2.token_missing eq_refl).
Defined.

(** A throttled request in a run without a callback: the caller gets a
    [TypeError], not the request error. *)
Lemma missing_callback_replaces_the_request_error_witness :
  exists r e',
    run_vars Sample.throttled Sample.t_main Sample.templates
      (Sample.fragment None) Sample2.options_without_callback
    = ([], Returns Sample.main_vars)
    /\ expandTemplate Sample.throttled Sample.t_main (Sample.fragment None)
         Sample.main_vars = Returns r
    /\ Expanded.success r = true
    /\ infoCb Sample2.options_without_callback = false
    /\ initToken Sample.throttled = Returns tt
    /\ getChatCompletions Sample.throttled (completion_request r)
         Sample2.options_without_callback = Throws Sample.too_many_requests
    /\ is_Some (request Sample.too_many_requests)
    /\ runTemplate Sample.throttled Sample.t_main Sample.templates
         (Sample.fragment None) (Some Sample2.options_without_callback)
       = ([EvRequest (completion_request r)], Throws e')
    /\ name e' = "TypeError".
Proof.
  destruct (expandTemplate_resolved Sample.throttled Sample.t_main
              (Sample.fragment None) Sample.main_vars [Sample.t_system] eq_refl)
    as (r & Hexp & _ & _ & Hok & _).
  assert (Hreq : is_Some (request Sample.too_many_requests)) by (by eexists).
  destruct (missing_callback_replaces_the_request_error Sample.throttled
              Sample.t_main Sample.templates (Sample.fragment None)
              Sample2.options_without_callback Sample.main_vars r
              Sample.too_many_requests eq_refl Hexp Hok eq_refl eq_refl eq_refl
              (or_introl Hreq)) as (e' & Hrun & Hname & _).
  exists r, e'. repeat split; try done.
Defined.

Example categoryPrefix_shared_prefix :
  snd (categoryPrefix
         {| id := "t"; title := "T"; jsSource := ""; model := None;
            temperature := None; maxTokens := None; system := None;
            categories := Some ["a.b"; "a.c"]; readClipboard := false |}
         [("@prompt", "P"); ("@prompt.a", "A"); ("@prompt.a.c", "C")])
  = "PAC".
Proof. reflexivity. Qed.

(** An entry equal to the content of its file: no replace-edit and no
    file edit, yet the link to the file is inserted when the fragment does
    not reference it. *)
Example unchanged_file_is_still_linked :
  match snd (post_process
               (Sample.host (Returns "") [("File a.txt", "same")]
                  [("/proj/a.txt", "same")])
               Sample.t_main (Sample.fragment None) "" "") with
  | Returns (res, _) =>
      fileEdits res = ∅
      /\ edits res
         = [ InsertEdit "Summarize" "/proj/doc.md" (0, 5)
               (Js.nl +:+ Js.nl +:+ "-   [a.txt](./a.txt)") ]
  | Throws _ => False
  end.
Proof. by vm_compute. Qed.

(** The system templates of [Sample2.t_lost_system]: the canonical one for
    the unknown name, and once more in its own place. *)
Lemma unknown_first_system_template_doubles_the_canonical_one_witness :
  exists r ts,
    expandTemplate Sample.quiet Sample2.t_lost_system (Sample.fragment None)
      (Sample.vars_of Sample2.t_lost_system) = Returns r
    /\ Sample.t_system ∈ ts
    /\ Expanded.systemText r
       = (Expansion.text
            (callExpander Sample.quiet Sample.t_system
               (Sample.vars_of Sample2.t_lost_system)) +:+ Js.nl)
         +:+ combined_system_text Sample.quiet
               (Sample.vars_of Sample2.t_lost_system) ts.
Proof.
  apply (unknown_first_system_template_doubles_the_canonical_one Sample.quiet
           Sample2.t_lost_system (Sample.fragment None)
           (Sample.vars_of Sample2.t_lost_system) "system.lost" ["system"]
           Sample.t_system eq_refl).
  - apply list_elem_of_here.
  - reflexivity.
  - reflexivity.
Defined.

Example doubled_system_text :
  exists r,
    expandTemplate Sample.quiet Sample2.t_lost_system (Sample.fragment None)
      (Sample.vars_of Sample2.t_lost_system) = Returns r
    /\ Expanded.systemText r
       = lines ["You are concise."; ""; ""; "You are concise."; ""; ""; ""].
Proof. eexists. split; [reflexivity|]. vm_compute. reflexivity. Qed.

(** The request of the sample run: the system template's text and the
    main template's text. *)
Lemma request_carries_the_expanded_prompts_witness :
  run_vars Sample.answering_foo Sample.t_main Sample.templates
    (Sample.fragment None) (Sample.options false)
  = ([], Returns (fragmentVars Sample.answering_foo Sample.t_main
                    Sample.templates (Sample.fragment None) VUndefined))
  /\ EvRequest Sample2.hello_request
       ∈ fst (runTemplate Sample.answering_foo Sample.t_main Sample.templates
                (Sample.fragment None) (Some (Sample.options false)))
  /\ messages Sample2.hello_request
     = [ {| role := "system";
            msg_content :=
              combined_system_text Sample.answering_foo
                (fragmentVars Sample.answering_foo Sample.t_main
                   Sample.templates (Sample.fragment None) VUndefined)
                [Sample.t_system] |};
         {| role := "user";
            msg_content :=
              snd (categoryPrefix Sample.t_main
                     (commentAttributes Sample.answering_foo
                        (Sample.fragment None)))
              +:+ Js.nl
              +:+ Expansion.text
                    (callExpander Sample.answering_foo Sample.t_main
                       (fragmentVars Sample.answering_foo Sample.t_main
                          Sample.templates (Sample.fragment None)
                          VUndefined)) |} ].
Proof.
  assert (Hin : EvRequest Sample2.hello_request
                ∈ fst (runTemplate Sample.answering_foo Sample.t_main
                         Sample.templates (Sample.fragment None)
                         (Some (Sample.options false)))).
  { apply list_elem_of_In. vm_compute.
    repeat first [left; reflexivity | right]. }
  split; [reflexivity|]. split; [exact Hin|].
  exact (request_carries_the_expanded_prompts Sample.answering_foo
           Sample.t_main Sample.templates (Sample.fragment None)
           (Sample.options false)
           (fragmentVars Sample.answering_foo Sample.t_main Sample.templates
              (Sample.fragment None) VUndefined)
           [Sample.t_system] Sample2.hello_request eq_refl eq_refl Hin).
Defined.

Lemma clipboard_is_bound_or_its_failure_ends_the_run_witness :
  (exists vars,
     run_vars Sample.quiet Sample2.t_clip Sample.templates
       (Sample.fragment None) (Sample2.options_with_clipboard (Returns "pasted"))
     = ([], Returns vars)
     /\ dict_get "clipboard" vars = Some (VStr "pasted"))
  /\ runTemplate Sample.quiet Sample2.t_clip Sample.templates
       (Sample.fragment None)
       (Some (Sample2.options_with_clipboard (Throws Sample2.clipboard_denied)))
     = ([], Throws Sample2.clipboard_denied).
Proof.
  split.
  - exact (clipboard_is_bound_or_its_failure_ends_the_run Sample.quiet
             Sample2.t_clip Sample.templates (Sample.fragment None)
             (Sample2.options_with_clipboard (Returns "pasted")) eq_refl).
  - exact (clipboard_is_bound_or_its_failure_ends_the_run Sample.quiet
             Sample2.t_clip Sample.templates (Sample.fragment None)
             (Sample2.options_with_clipboard (Throws Sample2.clipboard_denied))
             eq_refl).
Defined.
